(** * Thesis validator of the conference platform

    A shallow embedding of [app/services/thesis_validation/validator.py] and
    [app/services/thesis_validation/models.py], and the properties of the
    validation report that follow from the code.

    Conventions of the embedding.
    - A Python [str] is the list of its code points ([pystr]); [len] is the
      length of that list.
    - A Python [float] is read as the rational number it denotes, and float
      arithmetic as exact arithmetic on [Q].  The two constants the source
      rounds to integers are also computed in binary64, in the order the
      source computes them ([Binary64]), and round to the same integers.
      The line-spacing test is the exception: its constants 1.15 and 0.06
      are no binary fractions and the outcome at the boundary depends on the
      rounding, so there the operands are binary64 numbers ([float64]) and
      the subtraction rounds as binary64 does ([round64]); overflow is not
      modelled.
    - The parsed document (the object python-docx returns) is a record that
      holds, for every attribute the validator reads, the value it reads.
      A length of python-docx ([docx.shared.Length]) is an [int] that counts
      English Metric Units (EMU, 914400 to the inch, 635 to the twip):
      [int(section.left_margin)], [int(section.page_width)] and
      [int(indent)] are these counts.  [r.font.size.pt] is a rational; an
      attribute that may be [None] is an [option].
    - The list [issues] of a run is an object of a heap of lists: the run
      creates it, extends it in place, and hands a reference to the report.
    - Three tables of the Unicode database that the Python runtime brings
      ([str.lower], [str.upper] and the decimal digits of [\d]) are parameters
      of the development. *)

From Stdlib Require Import Strings.String Strings.Ascii.
From Stdlib Require Import List ZArith NArith QArith Qabs Qround Qpower Bool Lia Lqa.
From Stdlib Require PrimFloat SpecFloat FloatOps.
Import ListNotations.

Set Implicit Arguments.
Open Scope string_scope.
Open Scope list_scope.

(* ------------------------------------------------------------------ *)
(** ** Python strings *)

Module PyStr.

Definition pystr := list N.

Fixpoint eqb (s t : pystr) : bool :=
  match s, t with
  | [], [] => true
  | c :: s', d :: t' => N.eqb c d && eqb s' t'
  | _, _ => false
  end.

(** Bytes of a literal of this file, and their reading as UTF-8. *)
Definition bytes_of (s : string) : list N :=
  map (fun b => N_of_ascii (ascii_of_byte b)) (list_byte_of_string s).

Fixpoint utf8_decode (bs : list N) : pystr :=
  match bs with
  | [] => []
  | b0 :: r0 =>
    if (b0 <? 128)%N then b0 :: utf8_decode r0
    else match r0 with
    | [] => []
    | b1 :: r1 =>
      if (b0 <? 224)%N then ((b0 - 192) * 64 + (b1 - 128))%N :: utf8_decode r1
      else match r1 with
      | [] => []
      | b2 :: r2 =>
        if (b0 <? 240)%N
        then ((b0 - 224) * 4096 + (b1 - 128) * 64 + (b2 - 128))%N :: utf8_decode r2
        else match r2 with
        | [] => []
        | b3 :: r3 =>
          ((b0 - 240) * 262144 + (b1 - 128) * 4096 + (b2 - 128) * 64 + (b3 - 128))%N
            :: utf8_decode r3
        end
      end
    end
  end.

(** [u "..."] is the Python string written [ "..." ] in the source. *)
Definition u (s : string) : pystr := utf8_decode (bytes_of s).

(** [str.isspace] on one character, which is also what [\s] matches in a
    pattern on [str]. *)
Definition is_space (c : N) : bool :=
  ((9 <=? c) && (c <=? 13)
   || (28 <=? c) && (c <=? 32)
   || (c =? 133) || (c =? 160) || (c =? 5760)
   || (8192 <=? c) && (c <=? 8202)
   || (c =? 8232) || (c =? 8233) || (c =? 8239) || (c =? 8287)
   || (c =? 12288))%N.

Fixpoint lstrip (s : pystr) : pystr :=
  match s with
  | c :: s' => if is_space c then lstrip s' else s
  | [] => []
  end.

Definition rstrip (s : pystr) : pystr := rev (lstrip (rev s)).

(** [s.strip()] *)
Definition strip (s : pystr) : pystr := rstrip (lstrip s).

(** Truth value of a string: [bool(s)]. *)
Definition truthy (s : pystr) : bool :=
  match s with [] => false | _ => true end.

(** [sep.join(parts)] *)
Fixpoint join (sep : pystr) (parts : list pystr) : pystr :=
  match parts with
  | [] => []
  | [p] => p
  | p :: rest => p ++ sep ++ join sep rest
  end.

(** [re.sub(r"\s+", " ", s)]: every maximal run of whitespace becomes one
    space.  [in_run] says that the previous character was whitespace. *)
Fixpoint collapse_from (in_run : bool) (s : pystr) : pystr :=
  match s with
  | [] => []
  | c :: s' =>
    if is_space c
    then (if in_run then collapse_from true s' else 32%N :: collapse_from true s')
    else c :: collapse_from false s'
  end.

Definition collapse_ws (s : pystr) : pystr := collapse_from false s.

(** [c in s] for a one-character [c]. *)
Definition contains (c : N) (s : pystr) : bool := existsb (N.eqb c) s.

End PyStr.
Import PyStr.

(* ------------------------------------------------------------------ *)
(** ** Regular expressions

    The validator only asks whether a pattern matches ([re.match],
    [re.search] used as truth values), and its patterns have neither
    back-references nor look-around, so a pattern is read as the regular
    language it denotes and matching is decided with derivatives. *)

Module Re.

Inductive regex : Type :=
| Void
| Eps
| Cls (f : N -> bool)
| Cat (r s : regex)
| Alt (r s : regex)
| Star (r : regex).

Fixpoint nullable (r : regex) : bool :=
  match r with
  | Void => false
  | Eps => true
  | Cls _ => false
  | Cat r s => nullable r && nullable s
  | Alt r s => nullable r || nullable s
  | Star _ => true
  end.

Fixpoint deriv (c : N) (r : regex) : regex :=
  match r with
  | Void => Void
  | Eps => Void
  | Cls f => if f c then Eps else Void
  | Cat r s =>
    if nullable r then Alt (Cat (deriv c r) s) (deriv c s) else Cat (deriv c r) s
  | Alt r s => Alt (deriv c r) (deriv c s)
  | Star r => Cat (deriv c r) (Star r)
  end.

(** [re.match(r, s) is not None]: some prefix of [s] is in the language. *)
Fixpoint re_match (r : regex) (s : pystr) : bool :=
  nullable r ||
  match s with
  | [] => false
  | c :: s' => re_match (deriv c r) s'
  end.

(** [re.search(r, s) is not None]: a match starts at some position. *)
Fixpoint re_search (r : regex) (s : pystr) : bool :=
  re_match r s ||
  match s with
  | [] => false
  | _ :: s' => re_search r s'
  end.

(** Pattern constructors. *)
Definition chr (c : N) : regex := Cls (N.eqb c).
Definition plus (r : regex) : regex := Cat r (Star r).
Fixpoint lit (s : pystr) : regex :=
  match s with
  | [] => Eps
  | c :: s' => Cat (chr c) (lit s')
  end.
Definition range (lo hi c : N) : bool := ((lo <=? c) && (c <=? hi))%N.
Definition one_of (s : pystr) (c : N) : bool := contains c s.

(** The language of a pattern. *)
Inductive matches : regex -> pystr -> Prop :=
| m_eps : matches Eps []
| m_cls f c : f c = true -> matches (Cls f) [c]
| m_cat r s x y : matches r x -> matches s y -> matches (Cat r s) (x ++ y)
| m_alt_l r s x : matches r x -> matches (Alt r s) x
| m_alt_r r s x : matches s x -> matches (Alt r s) x
| m_star_nil r : matches (Star r) []
| m_star_app r x y : matches r x -> matches (Star r) y -> matches (Star r) (x ++ y).

End Re.
Import Re.

(* ------------------------------------------------------------------ *)
(** ** Numbers *)

Module PyNum.

(** [round(x)] of a float: to the nearest integer, ties to the even one. *)
Definition py_round (q : Q) : Z :=
  let f := Qfloor q in
  match Qcompare (q - inject_Z f) (1 # 2) with
  | Lt => f
  | Gt => (f + 1)%Z
  | Eq => if Z.even f then f else (f + 1)%Z
  end.

(** [int(x)] of a float: truncation towards zero. *)
Definition py_int (q : Q) : Z := Z.quot (Qnum q) (Zpos (Qden q)).

(** [a > b] on floats. *)
Definition Qgtb (a b : Q) : bool := negb (Qle_bool a b).

(** [bool(x)] of a number. *)
Definition Qtruthy (q : Q) : bool := negb (Qeq_bool q 0).

(** *** Binary64

    The binade of a positive rational: the [e] with [2^e <= a < 2^(e+1)]. *)
Definition ilog2 (a : Q) : Z :=
  let k := (Z.log2 (Qnum a) - Z.log2 (Zpos (Qden a)))%Z in
  if Qle_bool (2 ^ k) a then k else (k - 1)%Z.

(** The exponent of the last place of the binary64 numbers around [a]:
    53 significant bits, and no exponent below that of the subnormal
    numbers. *)
Definition ulp_exponent (a : Q) : Z := (Z.max (ilog2 a) (-1022) - 52)%Z.

(** A positive [a] rounded to a multiple of its last place, ties to the
    even multiple. *)
Definition rounded (a : Q) : Q :=
  inject_Z (py_round (a / 2 ^ ulp_exponent a)) * 2 ^ ulp_exponent a.

(** The binary64 number nearest to [q], ties to the even significand: what
    a float operation returns for the exact result [q], and what a decimal
    literal denotes.  The result is a reduced fraction.  Numbers beyond the
    largest binary64 number are rounded all the same: overflow is not
    modelled. *)
Definition round64 (q : Q) : Q :=
  let a := Qabs q in
  if Qeq_bool a 0 then 0
  else
    let r := Qred (rounded a) in
    if (Qnum q <? 0)%Z then - r else r.

(** [q] is a binary64 number. *)
Definition is_double (q : Q) : bool := Qeq_bool (round64 q) q.

(** A Python [float] that is a number. *)
Record float64 : Type := {
  value : Q;
  is_float : is_double value = true
}.

End PyNum.
Import PyNum.

(* ------------------------------------------------------------------ *)
(** ** Lengths of python-docx

    [docx.shared.Length] is a subclass of [int]: the value is a count of
    English Metric Units, and [int(length)] is that count.  The
    constructors [Twips], [Mm] and [Cm] and the property [twips] convert. *)

Module Length.

Definition EMUS_PER_INCH : Z := 914400.
Definition EMUS_PER_CM : Z := 360000.
Definition EMUS_PER_MM : Z := 36000.
Definition EMUS_PER_TWIP : Z := 635.

(** [Twips(n)], [Mm(x)] and [Cm(x)] *)
Definition Twips (n : Z) : Z := (n * EMUS_PER_TWIP)%Z.
Definition Mm (x : Q) : Z := py_int (x * inject_Z EMUS_PER_MM).
Definition Cm (x : Q) : Z := py_int (x * inject_Z EMUS_PER_CM).

(** [length.twips]: [int(round(length / 635.0))] *)
Definition twips (emu : Z) : Z := py_round (inject_Z emu / inject_Z EMUS_PER_TWIP).

End Length.

(* ------------------------------------------------------------------ *)
(** ** models.py *)

Inductive Severity : Type := ERROR | WARNING.

Definition Severity_eqb (a b : Severity) : bool :=
  match a, b with
  | ERROR, ERROR | WARNING, WARNING => true
  | _, _ => false
  end.

(** A value stored in [details]. *)
Inductive DetailValue : Type :=
| DInt (z : Z)
| DFloat (q : Q)
| DStr (s : pystr).

(** A message is kept as the pieces of its f-string: text, and floats before
    they are formatted. *)
Inductive MsgPart : Type :=
| Txt (s : pystr)
| Flt (q : Q).

Record ValidationIssue : Type := {
  code : string;
  severity : Severity;
  message : list MsgPart;
  details : option (list (string * DetailValue))
}.

(** The heap of list objects: [issues] of a report is a reference to a list
    that the validator builds in place. *)
Module Heap.

Definition loc := nat.
Definition heap := list (list ValidationIssue).

Definition M (A : Type) : Type := heap -> A * heap.

Definition ret {A} (a : A) : M A := fun h => (a, h).
Definition bind {A B} (m : M A) (k : A -> M B) : M B :=
  fun h => let (a, h') := m h in k a h'.

Fixpoint update (l : loc) (f : list ValidationIssue -> list ValidationIssue)
    (h : heap) : heap :=
  match h, l with
  | [], _ => []
  | xs :: h', O => f xs :: h'
  | xs :: h', S l' => xs :: update l' f h'
  end.

(** [[]]: a new, empty list object. *)
Definition new_list : M loc := fun h => (length h, h ++ [[]]).

(** [l += xs]: the list object is extended in place. *)
Definition extend (l : loc) (xs : list ValidationIssue) : M unit :=
  fun h => (tt, update l (fun ys => ys ++ xs) h).

(** The elements of a list object. *)
Definition deref (h : heap) (l : loc) : list ValidationIssue := nth l h [].
Definition read (l : loc) : M (list ValidationIssue) := fun h => (deref h l, h).

End Heap.

Notation "x <- m ;; k" := (Heap.bind m (fun x => k))
  (at level 61, m at next level, right associativity).
Notation "m ;;; k" := (Heap.bind m (fun _ => k))
  (at level 61, right associativity).

Record ValidationReport : Type := {
  ok : bool;
  issues : Heap.loc
}.

(* ------------------------------------------------------------------ *)
(** ** The parsed document, as the validator reads it *)

(** [WD_ALIGN_PARAGRAPH] *)
Inductive Alignment : Type :=
| LEFT | CENTER | RIGHT | JUSTIFY | DISTRIBUTE
| JUSTIFY_MED | JUSTIFY_HI | JUSTIFY_LOW | THAI_JUSTIFY.

(** [paragraph_format.line_spacing] is a float (a multiple of the line
    height) or a [Length] (a count of EMU). *)
Inductive LineSpacing : Type :=
| Multiple (f : float64)
| Absolute (length : Z).

Module Run.
Record t : Type := {
  text : pystr;                (* r.text, None read as the empty string *)
  font_name : option pystr;    (* r.font.name *)
  font_size : option Q;        (* r.font.size, in points (size.pt) *)
  bold : option bool;          (* r.bold *)
  italic : option bool         (* r.italic *)
}.
End Run.

Module Paragraph.
Record t : Type := {
  text : pystr;                        (* p.text, None read as the empty string *)
  alignment : option Alignment;        (* p.alignment *)
  line_spacing : option LineSpacing;   (* p.paragraph_format.line_spacing *)
  first_line_indent : option Z;        (* int(p.paragraph_format.first_line_indent), EMU *)
  runs : list Run.t                    (* p.runs *)
}.
End Paragraph.

Module DocSection.
Record t : Type := {
  page_width : Z;       (* int(section.page_width), a count of EMU *)
  page_height : Z;
  top_margin : Z;       (* int(section.top_margin), a count of EMU *)
  bottom_margin : Z;
  left_margin : Z;
  right_margin : Z;
  header : option (list Paragraph.t);   (* section.header.paragraphs *)
  footer : option (list Paragraph.t)
}.
End DocSection.

Record Document : Type := {
  sections : list DocSection.t;
  paragraphs : list Paragraph.t
}.

(* ------------------------------------------------------------------ *)
(** ** validator.py: constants and rules *)

Definition REQUIRED_FONT : pystr := Eval cbv in u "Times New Roman".
Definition REQUIRED_SIZE_PT : Q := 14.
Definition CAPTION_SIZE_PT : Q := 12.

Definition MM_TO_INCH : Q := 1 / (254 # 10).
Definition TWIPS_PER_INCH : Q := 1440.
Definition MARGIN_20MM_TWIPS : Z := py_round (20 * MM_TO_INCH * TWIPS_PER_INCH).

Definition MARGIN_TWIPS_TOL : Z := 40.
Definition FONT_SIZE_TOL : Q := 5 # 10.
Definition INDENT_CM : Q := 125 # 100.
(** The literals [1.15] and [0.06] denote the binary64 numbers nearest to
    them. *)
Definition LINE_SPACING_TARGET : float64 :=
  {| value := round64 (115 # 100);
     is_float := ltac:(vm_compute; reflexivity) |}.
Definition LINE_SPACING_TOL : Q := round64 (6 # 100).

Definition MIN_TEXT_CHARS : Z := 800.
Definition MAX_TEXT_CHARS : Z := 6500.

Record ThesisStyleRules : Type := {
  font_name : pystr;
  font_size_pt : Q;
  margin_twips : Z;
  require_bold_header : bool;
  title_uppercase : bool;
  authors_italic : bool;
  header_centered : bool;
  body_justify : bool;
  line_spacing : float64;
  paragraph_indent_cm : Q;
  require_literature_block : bool
}.

(** [ThesisStyleRules()] *)
Definition default_rules : ThesisStyleRules := {|
  font_name := REQUIRED_FONT;
  font_size_pt := REQUIRED_SIZE_PT;
  margin_twips := MARGIN_20MM_TWIPS;
  require_bold_header := true;
  title_uppercase := true;
  authors_italic := true;
  header_centered := true;
  body_justify := true;
  line_spacing := LINE_SPACING_TARGET;
  paragraph_indent_cm := INDENT_CM;
  require_literature_block := true
|}.

(** [rules or ThesisStyleRules()] *)
Definition or_default (rules : option ThesisStyleRules) : ThesisStyleRules :=
  match rules with Some r => r | None => default_rules end.

(** Shorthands shared by the checks. *)
Definition issue (c : string) (sev : Severity) (msg : list MsgPart)
    (d : option (list (string * DetailValue))) : ValidationIssue :=
  {| code := c; severity := sev; message := msg; details := d |}.

(** The stripped text of [x] ([x.text], or the empty string for [None]) is
    non-empty. *)
Definition nonblank (s : pystr) : bool := truthy (strip s).

(** [l[a:b]] for [a <= b]. *)
Definition slice {A} (a b : nat) (l : list A) : list A := firstn (b - a) (skipn a l).

(** [enumerate(l)] *)
Fixpoint enumerate_from {A} (i : nat) (l : list A) : list (nat * A) :=
  match l with
  | [] => []
  | x :: l' => (i, x) :: enumerate_from (S i) l'
  end.
Definition enumerate {A} (l : list A) : list (nat * A) := enumerate_from 0 l.

(** Position of the first element that satisfies [f], as the loops with
    [break] compute it. *)
Fixpoint find_index {A} (f : A -> bool) (l : list A) : option nat :=
  match l with
  | [] => None
  | x :: l' => if f x then Some O else option_map S (find_index f l')
  end.

(* ------------------------------------------------------------------ *)
(** ** validator.py: the checks *)

Section Validator.

(** The Unicode tables of the Python runtime: [str.lower], [str.upper], and
    the characters [\d] matches in a pattern on [str]. *)
Variable str_lower : pystr -> pystr.
Variable str_upper : pystr -> pystr.
Variable is_decimal : N -> bool.

(** *** _check_page_setup *)

(** [hdr and has_text(hdr.paragraphs)] *)
Definition has_text (ps : list Paragraph.t) : bool :=
  existsb (fun p => nonblank (Paragraph.text p)) ps.

Definition _section_has_header_footer_text (s : DocSection.t) : bool :=
  let hdr := DocSection.header s in
  let ftr := DocSection.footer s in
  if match hdr with Some ps => has_text ps | None => false end then true
  else if match ftr with Some ps => has_text ps | None => false end then true
  else false.

Definition is_A4 (w h : Z) : bool :=
  ((11700 <=? w) && (w <=? 12150) && (16600 <=? h) && (h <=? 17050))%Z.

(** The body of the loop over the four sides. *)
Definition margin_issues (rules : ThesisStyleRules) (idx : nat)
    (side : pystr * Z) : list ValidationIssue :=
  let (side_name, value) := side in
  if (Z.abs (value - margin_twips rules) >? MARGIN_TWIPS_TOL)%Z
  then [issue "MARGIN_NOT_20MM" ERROR
          [Txt (u "Поля страницы должны быть 20 мм со всех сторон.")]
          (Some [("section", DInt (Z.of_nat idx)); ("side", DStr side_name);
                 ("twips", DInt value);
                 ("expected_twips", DInt (margin_twips rules))])]
  else [].

(** The body of the loop over the sections. *)
Definition section_issues (rules : ThesisStyleRules) (entry : nat * DocSection.t)
    : list ValidationIssue :=
  let (idx, section) := entry in
  let w := DocSection.page_width section in
  let h := DocSection.page_height section in
  (if negb (is_A4 w h)
   then [issue "PAGE_NOT_A4" WARNING
           [Txt (u "Формат страницы отличается от A4 (ожидается 297x210 мм).")]
           (Some [("section", DInt (Z.of_nat idx)); ("page_width_twips", DInt w);
                  ("page_height_twips", DInt h)])]
   else [])
  ++ flat_map (margin_issues rules idx)
       [(u "top", DocSection.top_margin section);
        (u "bottom", DocSection.bottom_margin section);
        (u "left", DocSection.left_margin section);
        (u "right", DocSection.right_margin section)]
  ++ (if _section_has_header_footer_text section
      then [issue "HEADER_FOOTER_PRESENT" ERROR
              [Txt (u "Колонтитулы запрещены (header/footer должен быть пустым).")]
              (Some [("section", DInt (Z.of_nat idx))])]
      else []).

Definition _check_page_setup (doc : Document) (rules : ThesisStyleRules)
    : list ValidationIssue :=
  flat_map (section_issues rules) (enumerate (sections doc)).

(** *** _check_paragraph_font *)

(** The flags the loop over the runs maintains. *)
Record FontFlags : Type := {
  any_run : bool;
  bad_name : bool;
  bad_size : bool;
  bad_bold : bool;
  bad_italic : bool;
  unknown_font : bool
}.

Definition no_flags : FontFlags :=
  {| any_run := false; bad_name := false; bad_size := false;
     bad_bold := false; bad_italic := false; unknown_font := false |}.

(** [x is not True] *)
Definition is_not_True (x : option bool) : bool :=
  match x with Some true => false | _ => true end.

(** One iteration of the loop over [p.runs]. *)
Definition font_step (rules : ThesisStyleRules) (must_bold must_italic : bool)
    (fl : FontFlags) (r : Run.t) : FontFlags :=
  if negb (nonblank (Run.text r)) then fl
  else
    let name := Run.font_name r in
    let size := Run.font_size r in
    {| any_run := true;
       bad_name :=
         match name with
         | None => bad_name fl
         | Some n => if negb (PyStr.eqb n (font_name rules)) then true else bad_name fl
         end;
       bad_size :=
         match size with
         | None => bad_size fl
         | Some pt =>
           if Qgtb (Qabs (pt - font_size_pt rules)) FONT_SIZE_TOL then true
           else bad_size fl
         end;
       bad_bold :=
         if must_bold && is_not_True (Run.bold r) then true else bad_bold fl;
       bad_italic :=
         if must_italic && is_not_True (Run.italic r) then true else bad_italic fl;
       unknown_font :=
         match name, size with
         | Some _, Some _ => unknown_font fl
         | _, _ => true
         end |}.

Definition font_flags (rules : ThesisStyleRules) (must_bold must_italic : bool)
    (rs : list Run.t) : FontFlags :=
  fold_left (font_step rules must_bold must_italic) rs no_flags.

Definition _check_paragraph_font (p : Paragraph.t) (rules : ThesisStyleRules)
    (must_bold must_italic : bool) (where_ : pystr) : list ValidationIssue :=
  let text := strip (Paragraph.text p) in
  if negb (truthy text) then []
  else
    let fl := font_flags rules must_bold must_italic (Paragraph.runs p) in
    let unknown := if negb (any_run fl) then true else unknown_font fl in
    (if bad_name fl
     then [issue "FONT_NAME_MISMATCH" ERROR
             [Txt (u "Неверный шрифт в блоке "); Txt where_; Txt (u ". Требуется ");
              Txt (font_name rules); Txt (u ".")]
             (Some [("where", DStr where_); ("text", DStr text)])]
     else [])
    ++ (if bad_size fl
        then [issue "FONT_SIZE_MISMATCH" ERROR
                [Txt (u "Неверный размер шрифта в блоке "); Txt where_;
                 Txt (u ". Требуется "); Flt (font_size_pt rules); Txt (u " pt.")]
                (Some [("where", DStr where_); ("text", DStr text)])]
        else [])
    ++ (if must_bold && bad_bold fl
        then [issue "HEADER_NOT_BOLD" ERROR
                [Txt (u "Блок "); Txt where_; Txt (u " должен быть полужирным.")]
                (Some [("where", DStr where_); ("text", DStr text)])]
        else [])
    ++ (if must_italic && bad_italic fl
        then [issue "AUTHORS_NOT_ITALIC" ERROR
                [Txt (u "Список авторов должен быть курсивом.")]
                (Some [("where", DStr where_); ("text", DStr text)])]
        else [])
    ++ (if unknown && negb (bad_name fl || bad_size fl)
        then [issue "FONT_UNKNOWN" WARNING
                [Txt (u "Не удалось полностью определить шрифт/размер для блока ");
                 Txt where_; Txt (u " (возможно задан стилем).")]
                (Some [("where", DStr where_)])]
        else []).

(** *** _check_header_structure *)

(** The paragraphs of [doc.paragraphs] whose stripped text is non-empty. *)
Definition nonempty_paragraphs (doc : Document) : list Paragraph.t :=
  filter (fun p => nonblank (Paragraph.text p)) (paragraphs doc).

(** The character classes of the initials pattern. *)
Definition surname_char (c : N) : bool :=
  range 65 90 c || range 97 122 c || range 1040 1071 c
  || one_of (u "ІЇЄҐ") c || range 1072 1103 c || one_of (u "іїєґ") c
  || N.eqb c 8217 || N.eqb c 45.

Definition initial_char (c : N) : bool :=
  range 65 90 c || range 1040 1071 c || one_of (u "ІЇЄҐ") c.

(** [[A-Za-zА-ЯІЇЄҐа-яіїєґ’\-]+\s+[A-ZА-ЯІЇЄҐ]\.\s*[A-ZА-ЯІЇЄҐ]\.] *)
Definition INITIALS_RE : regex :=
  Cat (plus (Cls surname_char))
   (Cat (plus (Cls is_space))
    (Cat (Cls initial_char)
     (Cat (chr 46)
      (Cat (Star (Cls is_space))
       (Cat (Cls initial_char) (chr 46)))))).

(** The body of the loop over title, authors and organization. *)
Definition center_issues (entry : string * Paragraph.t * pystr)
    : list ValidationIssue :=
  let '(c, p, label) := entry in
  match Paragraph.alignment p with
  | Some CENTER => []
  | _ =>
    [issue c ERROR
       [Txt (u "Строка «"); Txt label; Txt (u "» должна быть выровнена по центру.")]
       (Some [("text", DStr (strip (Paragraph.text p)))])]
  end.

Definition _check_header_structure (doc : Document) (rules : ThesisStyleRules)
    : list ValidationIssue :=
  match nonempty_paragraphs doc with
  | title_p :: authors_p :: org_p :: _ =>
    let title_text := strip (Paragraph.text title_p) in
    (if header_centered rules
     then flat_map center_issues
            [("TITLE_NOT_CENTER"%string, title_p, u "назва");
             ("AUTHORS_NOT_CENTER"%string, authors_p, u "автори");
             ("ORG_NOT_CENTER"%string, org_p, u "організація")]
     else [])
    ++ (if title_uppercase rules && truthy title_text
           && negb (PyStr.eqb title_text (str_upper title_text))
        then [issue "TITLE_NOT_UPPERCASE" ERROR
                [Txt (u "Название должно быть оформлено прописными буквами (UPPERCASE).")]
                (Some [("title", DStr title_text)])]
        else [])
    ++ _check_paragraph_font title_p rules true false (u "title")
    ++ _check_paragraph_font authors_p rules true (authors_italic rules) (u "authors")
    ++ _check_paragraph_font org_p rules true false (u "organization")
    ++ (if negb (contains 44 (Paragraph.text authors_p))
        then [issue "AUTHORS_LIST_FORMAT" WARNING
                [Txt (u "Авторы обычно перечисляются через запятую.")]
                (Some [("authors_line", DStr (strip (Paragraph.text authors_p)))])]
        else [])
    ++ (if negb (re_search INITIALS_RE (Paragraph.text authors_p))
        then [issue "AUTHORS_INITIALS_PATTERN" WARNING
                [Txt (u "Проверь формат Фамилия И.О. (инициалы после фамилии).")]
                (Some [("authors_line", DStr (strip (Paragraph.text authors_p)))])]
        else [])
  | _ =>
    (* len(paragraphs) < 3 *)
    [issue "HEADER_TOO_SHORT" ERROR
       [Txt (u "Не найдено минимум 3 строки заголовочной части: назва, автори, організація.")]
       None]
  end.

(** *** _check_body_paragraphs *)

Definition LITERATURE_HEADING : pystr := Eval cbv in u "література".

(** The stripped, lower-cased text of [p] is [LITERATURE_HEADING]. *)
Definition is_literature_heading (p : Paragraph.t) : bool :=
  PyStr.eqb (str_lower (strip (Paragraph.text p))) LITERATURE_HEADING.

(** [docx.shared.Length] derives from [int]: [isinstance(ls, (int, float))]
    holds for a multiple and for a [Length] alike. *)
Definition isinstance_int_float (ls : LineSpacing) : bool :=
  match ls with Multiple _ => true | Absolute _ => true end.

Definition isinstance_Length (ls : LineSpacing) : bool :=
  match ls with Multiple _ => false | Absolute _ => true end.

(** [float(ls)]: the float itself, or the binary64 number nearest to the
    integer. *)
Definition float_of (ls : LineSpacing) : Q :=
  match ls with Multiple f => value f | Absolute z => round64 (inject_Z z) end.

(** [abs(float(ls) - rules.line_spacing) > LINE_SPACING_TOL]: the
    subtraction rounds. *)
Definition spacing_off (rules : ThesisStyleRules) (ls : LineSpacing) : bool :=
  Qgtb (Qabs (round64 (float_of ls - value (line_spacing rules)))) LINE_SPACING_TOL.

(** [int(round(rules.paragraph_indent_cm * 10 * MM_TO_INCH * TWIPS_PER_INCH))] *)
Definition expected_twips (rules : ThesisStyleRules) : Z :=
  py_round (paragraph_indent_cm rules * 10 * MM_TO_INCH * TWIPS_PER_INCH).

(** [r.font.name and ...], [r.font.size and ...]: [None], the empty string
    and a zero length are all false. *)
Definition name_given (n : option pystr) : option pystr :=
  match n with Some s => if truthy s then Some s else None | None => None end.

Definition size_given (s : option Q) : option Q :=
  match s with Some pt => if Qtruthy pt then Some pt else None | None => None end.

(** One iteration of the loop over [p.runs] of a body paragraph: the
    finding that ends the loop, if this run gives one. *)
Definition body_run_issue (rules : ThesisStyleRules) (txt : pystr) (r : Run.t)
    : option ValidationIssue :=
  if negb (nonblank (Run.text r)) then None
  else
    let size_issue :=
      match size_given (Run.font_size r) with
      | Some pt =>
        if Qgtb (Qabs (pt - font_size_pt rules)) FONT_SIZE_TOL
        then Some (issue "BODY_FONT_SIZE_MISMATCH" WARNING
                     [Txt (u "Основной текст должен быть "); Flt (font_size_pt rules);
                      Txt (u " pt.")]
                     (Some [("paragraph", DStr (firstn 80 txt)); ("size_pt", DFloat pt)]))
        else None
      | None => None
      end in
    match name_given (Run.font_name r) with
    | Some n =>
      if negb (PyStr.eqb n (font_name rules))
      then Some (issue "BODY_FONT_NAME_MISMATCH" WARNING
                   [Txt (u "Основной текст должен быть "); Txt (font_name rules);
                    Txt (u ".")]
                   (Some [("paragraph", DStr (firstn 80 txt)); ("font", DStr n)]))
      else size_issue
    | None => size_issue
    end.

(** A loop that appends one finding and breaks at the first run that gives
    one. *)
Fixpoint first_issue (f : Run.t -> option ValidationIssue) (rs : list Run.t)
    : list ValidationIssue :=
  match rs with
  | [] => []
  | r :: rs' =>
    match f r with
    | Some i => [i]
    | None => first_issue f rs'
    end
  end.

(** The body of the loop over the sampled paragraphs. *)
Definition body_paragraph_issues (rules : ThesisStyleRules) (p : Paragraph.t)
    : list ValidationIssue :=
  let txt := strip (Paragraph.text p) in
  if negb (truthy txt) then []
  else
    (if body_justify rules
        && negb match Paragraph.alignment p with
                | None | Some JUSTIFY => true
                | _ => false
                end
     then [issue "BODY_NOT_JUSTIFIED" WARNING
             [Txt (u "Основной текст должен быть выровнен по ширине.")]
             (Some [("paragraph", DStr (firstn 80 txt))])]
     else [])
    ++ match Paragraph.line_spacing p with
       | None => []
       | Some ls =>
         if isinstance_int_float ls
         then
           if spacing_off rules ls
           then [issue "LINE_SPACING_MISMATCH" WARNING
                   [Txt (u "Ожидается межстрочный интервал 1.15.")]
                   (Some [("got", DFloat (float_of ls));
                          ("expected", DFloat (value (line_spacing rules)))])]
           else []
         else if isinstance_Length ls
         then [issue "LINE_SPACING_ABSOLUTE" WARNING
                 [Txt (u "Межстрочный интервал задан абсолютным значением, ожидается множитель 1.15.")]
                 None]
         else []
       end
    ++ match Paragraph.first_line_indent p with
       | None => []
       | Some indent =>
         if (Z.abs (indent - expected_twips rules) >? 80)%Z
         then [issue "INDENT_MISMATCH" WARNING
                 [Txt (u "Абзацный отступ должен быть около 1.25 см.")]
                 (Some [("got_twips", DInt indent);
                        ("expected_twips", DInt (expected_twips rules))])]
         else []
       end
    ++ first_issue (body_run_issue rules txt) (Paragraph.runs p).

(** The paragraphs the check looks at: after the three header lines, up to
    the literature heading, thirty at most. *)
Definition body_sample (doc : Document) : list Paragraph.t :=
  let paragraphs := nonempty_paragraphs doc in
  if (length paragraphs <? 4)%nat then []
  else
    let body := skipn 3 paragraphs in
    let body :=
      match find_index is_literature_heading body with
      | Some lit_idx => firstn lit_idx body
      | None => body
      end in
    if (30 <? length body)%nat then firstn 30 body else body.

Definition _check_body_paragraphs (doc : Document) (rules : ThesisStyleRules)
    : list ValidationIssue :=
  flat_map (body_paragraph_issues rules) (body_sample doc).

(** *** _check_literature *)

(** [^\s*\d+\.] *)
Definition ITEM_RE : regex :=
  Cat (Star (Cls is_space)) (Cat (plus (Cls is_decimal)) (chr 46)).

Definition _check_literature (doc : Document) (rules : ThesisStyleRules)
    : list ValidationIssue :=
  let paragraphs := nonempty_paragraphs doc in
  match paragraphs with
  | [] => []
  | _ =>
    match find_index is_literature_heading paragraphs with
    | None =>
      if require_literature_block rules
      then [issue "LITERATURE_MISSING" ERROR
              [Txt (u "Отсутствует блок «Література» в конце документа.")]
              None]
      else []
    | Some lit_pos =>
      (if (Z.of_nat lit_pos <? py_int (inject_Z (Z.of_nat (length paragraphs)) * (6 # 10)))%Z
       then [issue "LITERATURE_NOT_AT_END" WARNING
               [Txt (u "Блок «Література» должен располагаться ближе к концу документа.")]
               (Some [("position", DInt (Z.of_nat lit_pos));
                      ("total_paragraphs", DInt (Z.of_nat (length paragraphs)))])]
       else [])
      ++ (let after := slice (lit_pos + 1) (lit_pos + 6) paragraphs in
          let has_item :=
            existsb (fun p => re_match ITEM_RE (strip (Paragraph.text p))) after in
          if negb has_item
          then [issue "LITERATURE_ITEMS_FORMAT" WARNING
                  [Txt (u "Проверь оформление списка литературы: пункты обычно начинаются с «1.» и далее.")]
                  None]
          else [])
    end
  end.

(** *** _check_captions *)

(** [^(Рис\.\s*\d+)] and [^(Таблиця\s*\d+)] *)
Definition FIGURE_RE : regex :=
  Cat (lit (u "Рис.")) (Cat (Star (Cls is_space)) (plus (Cls is_decimal))).

Definition TABLE_RE : regex :=
  Cat (lit (u "Таблиця")) (Cat (Star (Cls is_space)) (plus (Cls is_decimal))).

Definition is_caption (txt : pystr) : bool :=
  re_match FIGURE_RE txt || re_match TABLE_RE txt.

(** One iteration of the loop over the runs of a caption. *)
Definition caption_run_issue (txt : pystr) (r : Run.t) : option ValidationIssue :=
  if negb (nonblank (Run.text r)) then None
  else
    match size_given (Run.font_size r) with
    | Some pt =>
      if Qgtb (Qabs (pt - CAPTION_SIZE_PT)) (5 # 10)
      then Some (issue "CAPTION_SIZE_MISMATCH" WARNING
                   [Txt (u "Подписи к рисункам/таблицам желательно оформлять 12 pt.")]
                   (Some [("caption", DStr (firstn 80 txt)); ("size_pt", DFloat pt)]))
      else None
    | None => None
    end.

(** The body of the loop over all paragraphs. *)
Definition caption_issues (p : Paragraph.t) : list ValidationIssue :=
  let txt := strip (Paragraph.text p) in
  if negb (truthy txt) then []
  else if is_caption txt then first_issue (caption_run_issue txt) (Paragraph.runs p)
  else [].

Definition _check_captions (doc : Document) : list ValidationIssue :=
  flat_map caption_issues (paragraphs doc).

(** *** _check_length_heuristic *)

(** The texts of all paragraphs joined with a newline, stripped, every
    whitespace run replaced by one space: the length of that string. *)
Definition text_chars (doc : Document) : Z :=
  let text := strip (join [10%N] (map Paragraph.text (paragraphs doc))) in
  Z.of_nat (length (collapse_ws text)).

Definition _check_length_heuristic (doc : Document) : list ValidationIssue :=
  let chars := text_chars doc in
  (if (chars <? MIN_TEXT_CHARS)%Z
   then [issue "LENGTH_TOO_SHORT" WARNING
           [Txt (u "Документ выглядит слишком коротким для 1 полной страницы (эвристическая оценка).")]
           (Some [("chars", DInt chars); ("min_expected", DInt MIN_TEXT_CHARS)])]
   else [])
  ++ (if (chars >? MAX_TEXT_CHARS)%Z
      then [issue "LENGTH_TOO_LONG" WARNING
              [Txt (u "Документ выглядит слишком длинным для 2 страниц (эвристическая оценка).")]
              (Some [("chars", DInt chars); ("max_expected", DInt MAX_TEXT_CHARS)])]
      else []).

(** *** validate_thesis_docx *)

(** [any(i.severity == Severity.ERROR for i in issues)] *)
Definition any_error (xs : list ValidationIssue) : bool :=
  existsb (fun i => Severity_eqb (severity i) ERROR) xs.

(** The validator on a parsed document ([doc = Document(str(path))] is the
    caller's part here).  [rules] is [None] or a rule set. *)
Definition validate_thesis_docx (doc : Document) (rules : option ThesisStyleRules)
    : Heap.M ValidationReport :=
  let rules := or_default rules in
  issues <- Heap.new_list ;;
  Heap.extend issues (_check_page_setup doc rules) ;;;
  Heap.extend issues (_check_header_structure doc rules) ;;;
  Heap.extend issues (_check_body_paragraphs doc rules) ;;;
  Heap.extend issues (_check_literature doc rules) ;;;
  Heap.extend issues (_check_captions doc) ;;;
  Heap.extend issues (_check_length_heuristic doc) ;;;
  xs <- Heap.read issues ;;
  let ok := negb (any_error xs) in
  Heap.ret {| ok := ok; issues := issues |}.

(** The findings of one run, in the order the checks add them. *)
Definition all_issues (doc : Document) (rules : option ThesisStyleRules)
    : list ValidationIssue :=
  let rules := or_default rules in
  _check_page_setup doc rules ++ _check_header_structure doc rules
  ++ _check_body_paragraphs doc rules ++ _check_literature doc rules
  ++ _check_captions doc ++ _check_length_heuristic doc.

End Validator.

(* ------------------------------------------------------------------ *)
(** ** Reading findings *)

(** [d[k]] of a [details] mapping. *)
Fixpoint assoc (k : string) (d : list (string * DetailValue)) : option DetailValue :=
  match d with
  | [] => None
  | (k', v) :: d' => if String.eqb k k' then Some v else assoc k d'
  end.

Definition detail (k : string) (i : ValidationIssue) : option DetailValue :=
  match details i with
  | Some d => assoc k d
  | None => None
  end.

Definition has_code (c : string) (i : ValidationIssue) : bool :=
  String.eqb (code i) c.

Definition code_in (cs : list string) (i : ValidationIssue) : bool :=
  existsb (String.eqb (code i)) cs.

(** The finding is about section [idx]. *)
Definition about_section (idx : nat) (i : ValidationIssue) : bool :=
  match detail "section" i with
  | Some (DInt z) => Z.eqb z (Z.of_nat idx)
  | _ => false
  end.

(** A check emits codes of [cs] only. *)
Definition emits_only (cs : list string) (l : list ValidationIssue) : Prop :=
  Forall (fun i => code_in cs i = true) l.

(** The codes of the header checks. *)
Definition HEADER_CODES : list string :=
  ["HEADER_TOO_SHORT"; "TITLE_NOT_CENTER"; "AUTHORS_NOT_CENTER"; "ORG_NOT_CENTER";
   "TITLE_NOT_UPPERCASE"; "FONT_NAME_MISMATCH"; "FONT_SIZE_MISMATCH";
   "HEADER_NOT_BOLD"; "AUTHORS_NOT_ITALIC"; "FONT_UNKNOWN"; "AUTHORS_LIST_FORMAT";
   "AUTHORS_INITIALS_PATTERN"].

Definition PAGE_CODES : list string :=
  ["PAGE_NOT_A4"; "MARGIN_NOT_20MM"; "HEADER_FOOTER_PRESENT"].

Definition BODY_CODES : list string :=
  ["BODY_NOT_JUSTIFIED"; "LINE_SPACING_MISMATCH"; "LINE_SPACING_ABSOLUTE";
   "INDENT_MISMATCH"; "BODY_FONT_NAME_MISMATCH"; "BODY_FONT_SIZE_MISMATCH"].

Definition LITERATURE_CODES : list string :=
  ["LITERATURE_MISSING"; "LITERATURE_NOT_AT_END"; "LITERATURE_ITEMS_FORMAT"].

Definition CAPTION_CODES : list string := ["CAPTION_SIZE_MISMATCH"].

Definition LENGTH_CODES : list string := ["LENGTH_TOO_SHORT"; "LENGTH_TOO_LONG"].

(** Two lists of codes have no code in common. *)
Definition disjoint_codes (cs ds : list string) : bool :=
  forallb (fun c => negb (existsb (String.eqb c) ds)) cs.

(** The integer read for a margin (a count of EMU) passes the test of the
    check: it is within [MARGIN_TWIPS_TOL] of [margin_twips]. *)
Definition margin_ok (rules : ThesisStyleRules) (value : Z) : Prop :=
  (Z.abs (value - margin_twips rules) <= MARGIN_TWIPS_TOL)%Z.

(** The test of the check on the integer read for a margin, and the four
    margins of a section in the order the check visits them. *)
Definition margin_off (rules : ThesisStyleRules) (value : Z) : bool :=
  (Z.abs (value - margin_twips rules) >? MARGIN_TWIPS_TOL)%Z.

Definition margins (s : DocSection.t) : list Z :=
  [DocSection.top_margin s; DocSection.bottom_margin s;
   DocSection.left_margin s; DocSection.right_margin s].

(** The paragraphs of the header and of the footer of a section. *)
Definition header_footer_paragraphs (s : DocSection.t) : list Paragraph.t :=
  match DocSection.header s with Some ps => ps | None => [] end
  ++ match DocSection.footer s with Some ps => ps | None => [] end.

(** The findings of the page-setup check with code [c] about section [idx]. *)
Definition section_findings (c : string) (idx : nat) (l : list ValidationIssue)
    : list ValidationIssue :=
  filter (fun i => about_section idx i && has_code c i) l.

(** The findings the short-circuits of the header and literature checks
    return. *)
Definition header_too_short_finding : ValidationIssue :=
  issue "HEADER_TOO_SHORT" ERROR
    [Txt (u "Не найдено минимум 3 строки заголовочной части: назва, автори, організація.")]
    None.

Definition literature_missing_finding : ValidationIssue :=
  issue "LITERATURE_MISSING" ERROR
    [Txt (u "Отсутствует блок «Література» в конце документа.")]
    None.

(** A finding with code [c] is among [l]. *)
Definition emitted (c : string) (l : list ValidationIssue) : bool :=
  existsb (has_code c) l.

(** What a run says about one formatting attribute. *)
Inductive AttrState : Type := Matching | Mismatching | Unknown.

Definition name_state (rules : ThesisStyleRules) (r : Run.t) : AttrState :=
  match Run.font_name r with
  | None => Unknown
  | Some n => if PyStr.eqb n (font_name rules) then Matching else Mismatching
  end.

Definition size_state (rules : ThesisStyleRules) (r : Run.t) : AttrState :=
  match Run.font_size r with
  | None => Unknown
  | Some pt =>
    if Qgtb (Qabs (pt - font_size_pt rules)) FONT_SIZE_TOL then Mismatching
    else Matching
  end.

(** A flag that is required to be set. *)
Definition flag_state (x : option bool) : AttrState :=
  match x with
  | None => Unknown
  | Some true => Matching
  | Some false => Mismatching
  end.

(** The runs the font check looks at. *)
Definition seen_runs (p : Paragraph.t) : list Run.t :=
  filter (fun r => nonblank (Run.text r)) (Paragraph.runs p).

(** The INDENT_MISMATCH finding of a paragraph whose first-line indent is
    [indent]. *)
Definition indent_finding (rules : ThesisStyleRules) (indent : Z) : ValidationIssue :=
  issue "INDENT_MISMATCH" WARNING
    [Txt (u "Абзацный отступ должен быть около 1.25 см.")]
    (Some [("got_twips", DInt indent);
           ("expected_twips", DInt (expected_twips rules))]).

(** The MARGIN_NOT_20MM finding about a side of section [idx]. *)
Definition margin_finding (rules : ThesisStyleRules) (idx : nat) (side : pystr)
    (value : Z) : ValidationIssue :=
  issue "MARGIN_NOT_20MM" ERROR
    [Txt (u "Поля страницы должны быть 20 мм со всех сторон.")]
    (Some [("section", DInt (Z.of_nat idx)); ("side", DStr side);
           ("twips", DInt value); ("expected_twips", DInt (margin_twips rules))]).

(** The midpoint between the binary64 number [0.06] and the next one: the
    rounded difference exceeds [LINE_SPACING_TOL] exactly when the exact
    difference exceeds this. *)
Definition SPACING_HALFWAY : Q := 17293822569102705 # 288230376151711744.

(** The text begins with [marker], optional whitespace and a number. *)
Definition caption_text (is_decimal : N -> bool) (marker txt : pystr) : Prop :=
  exists ws ds rest,
    txt = marker ++ ws ++ ds ++ rest
    /\ forallb is_space ws = true
    /\ ds <> [] /\ forallb is_decimal ds = true.

(** The CAPTION_SIZE_MISMATCH finding of a caption for a run of size [pt]. *)
Definition caption_finding (txt : pystr) (pt : Q) : ValidationIssue :=
  issue "CAPTION_SIZE_MISMATCH" WARNING
    [Txt (u "Подписи к рисункам/таблицам желательно оформлять 12 pt.")]
    (Some [("caption", DStr (firstn 80 txt)); ("size_pt", DFloat pt)]).


(** The findings of the length heuristic for a count of [chars]. *)
Definition length_too_short_finding (chars : Z) : ValidationIssue :=
  issue "LENGTH_TOO_SHORT" WARNING
    [Txt (u "Документ выглядит слишком коротким для 1 полной страницы (эвристическая оценка).")]
    (Some [("chars", DInt chars); ("min_expected", DInt MIN_TEXT_CHARS)]).










(** The report of a run, read from the heap the run leaves. *)
Definition run_report (r : ValidationReport * Heap.heap) : bool * list ValidationIssue :=
  (ok (fst r), Heap.deref (snd r) (issues (fst r))).

(* ------------------------------------------------------------------ *)
(** ** Example inputs

    An instance of the Unicode tables for the examples: it agrees with the
    Python runtime on Basic Latin and on the Russian and Ukrainian Cyrillic
    letters.  The theorems below hold for every instance. *)

Definition lower_char (c : N) : N :=
  if range 65 90 c then (c + 32)%N
  else if range 1040 1071 c then (c + 32)%N
  else if range 1024 1039 c then (c + 80)%N
  else if N.eqb c 1168 then 1169%N
  else c.

Definition upper_char (c : N) : N :=
  if range 97 122 c then (c - 32)%N
  else if range 1072 1103 c then (c - 32)%N
  else if range 1104 1119 c then (c - 80)%N
  else if N.eqb c 1169 then 1168%N
  else c.

Definition simple_lower (s : pystr) : pystr := map lower_char s.
Definition simple_upper (s : pystr) : pystr := map upper_char s.
Definition ascii_digit (c : N) : bool := range 48 57 c.

(** A run and a paragraph with no formatting of their own. *)
Definition plain_run (t : pystr) : Run.t :=
  {| Run.text := t; Run.font_name := None; Run.font_size := None;
     Run.bold := None; Run.italic := None |}.

Definition sized_run (t : pystr) (pt : Q) : Run.t :=
  {| Run.text := t; Run.font_name := None; Run.font_size := Some pt;
     Run.bold := None; Run.italic := None |}.

Definition plain_paragraph (t : pystr) (rs : list Run.t) : Paragraph.t :=
  {| Paragraph.text := t; Paragraph.alignment := None;
     Paragraph.line_spacing := None; Paragraph.first_line_indent := None;
     Paragraph.runs := rs |}.

Definition text_paragraph (t : pystr) : Paragraph.t :=
  plain_paragraph t [plain_run t].

(** A section whose integers pass the page tests under the default rules
    when the left margin is 1134: page 11906 by 16838, the other margins at
    1134, and the given header and footer paragraphs.  The integers count
    EMU, so this is a page of a third of a millimetre. *)
Definition accepted_section (left : Z) (hdr ftr : list Paragraph.t) : DocSection.t :=
  {| DocSection.page_width := 11906; DocSection.page_height := 16838;
     DocSection.top_margin := 1134; DocSection.bottom_margin := 1134;
     DocSection.left_margin := left; DocSection.right_margin := 1134;
     DocSection.header := Some hdr; DocSection.footer := Some ftr |}.

(** The section of an A4 page with margins of 20 mm as Word stores it, in
    twips, and python-docx returns it, in EMU. *)
Definition word_section : DocSection.t :=
  {| DocSection.page_width := Length.Twips 11906;
     DocSection.page_height := Length.Twips 16838;
     DocSection.top_margin := Length.Twips 1134;
     DocSection.bottom_margin := Length.Twips 1134;
     DocSection.left_margin := Length.Twips 1134;
     DocSection.right_margin := Length.Twips 1134;
     DocSection.header := Some []; DocSection.footer := Some [] |}.

Definition word_document : Document :=
  {| sections := [word_section]; paragraphs := [] |}.

(** A title in the required font and size whose run leaves bold and italic
    unset. *)
Definition unset_flags_run : Run.t :=
  {| Run.text := u "TITLE"; Run.font_name := Some REQUIRED_FONT;
     Run.font_size := Some 14; Run.bold := None; Run.italic := None |}.

Definition unset_flags_title : Paragraph.t :=
  plain_paragraph (u "TITLE") [unset_flags_run].

(** A document of three header lines and one body paragraph with the given
    first-line indent. *)
Definition indented_paragraph (indent : Z) : Paragraph.t :=
  {| Paragraph.text := u "Body text."; Paragraph.alignment := None;
     Paragraph.line_spacing := None; Paragraph.first_line_indent := Some indent;
     Paragraph.runs := [plain_run (u "Body text.")] |}.

Definition indent_document (indent : Z) : Document :=
  {| sections := [accepted_section 1134 [] []];
     paragraphs := [text_paragraph (u "TITLE"); text_paragraph (u "Petrov P. P.");
                    text_paragraph (u "University"); indented_paragraph indent] |}.

(** A caption of one run of the given size. *)
Definition caption_paragraph (label : pystr) (pt : Q) : Paragraph.t :=
  plain_paragraph label [sized_run label pt].


(** A document of two sections: the second has the given left margin and
    the given header and footer. *)
Definition two_sections (left : Z) (hdr ftr : list Paragraph.t) : Document :=
  {| sections := [accepted_section 1134 [] []; accepted_section left hdr ftr];
     paragraphs := [text_paragraph (u "TITLE")] |}.

(** A header line that is centred, in the required font and size, bold,
    with the given italic flag. *)
Definition styled_run (t : pystr) (i : option bool) : Run.t :=
  {| Run.text := t; Run.font_name := Some REQUIRED_FONT; Run.font_size := Some 14;
     Run.bold := Some true; Run.italic := i |}.

Definition header_line (t : pystr) (i : option bool) : Paragraph.t :=
  {| Paragraph.text := t; Paragraph.alignment := Some CENTER;
     Paragraph.line_spacing := None; Paragraph.first_line_indent := None;
     Paragraph.runs := [styled_run t i] |}.

(** A document that passes: header lines as the template asks, one body
    paragraph, the literature heading and one item. *)
Definition good_document : Document :=
  {| sections := [accepted_section 1134 [] []];
     paragraphs :=
       [header_line (u "TITLE") None;
        header_line (u "Petrov P. P., Ivanov I. I.") (Some true);
        header_line (u "University") None;
        text_paragraph (u "Body text.");
        text_paragraph (u "Література");
        text_paragraph (u "1. Petrov P. P. Book.")] |}.

(** The same paragraphs on the A4 page with margins of 20 mm. *)
Definition word_good_document : Document :=
  {| sections := [word_section]; paragraphs := paragraphs good_document |}.

(** The binary64 numbers [1.21] and [1.09], and a body paragraph whose line
    spacing is a multiple. *)
Definition double_1_21 : float64 :=
  {| value := round64 (121 # 100); is_float := ltac:(vm_compute; reflexivity) |}.

Definition double_1_09 : float64 :=
  {| value := round64 (109 # 100); is_float := ltac:(vm_compute; reflexivity) |}.

Definition multiple_paragraph (f : float64) : Paragraph.t :=
  {| Paragraph.text := u "Body text."; Paragraph.alignment := Some LEFT;
     Paragraph.line_spacing := Some (Multiple f);
     Paragraph.first_line_indent := None;
     Paragraph.runs := [plain_run (u "Body text.")] |}.

Definition multiple_document (f : float64) : Document :=
  {| sections := [accepted_section 1134 [] []];
     paragraphs := [text_paragraph (u "TITLE"); text_paragraph (u "Petrov P. P.");
                    text_paragraph (u "University"); multiple_paragraph f] |}.

(** A body paragraph whose line spacing is an absolute length. *)
Definition spaced_paragraph (z : Z) : Paragraph.t :=
  {| Paragraph.text := u "Body text."; Paragraph.alignment := None;
     Paragraph.line_spacing := Some (Absolute z);
     Paragraph.first_line_indent := None;
     Paragraph.runs := [plain_run (u "Body text.")] |}.

Definition spaced_document (z : Z) : Document :=
  {| sections := [accepted_section 1134 [] []];
     paragraphs := [text_paragraph (u "TITLE"); text_paragraph (u "Petrov P. P.");
                    text_paragraph (u "University"); spaced_paragraph z] |}.

(** The default rules without the literature block. *)
Definition optional_literature : ThesisStyleRules :=
  {| font_name := REQUIRED_FONT;
     font_size_pt := REQUIRED_SIZE_PT;
     margin_twips := MARGIN_20MM_TWIPS;
     require_bold_header := true;
     title_uppercase := true;
     authors_italic := true;
     header_centered := true;
     body_justify := true;
     line_spacing := LINE_SPACING_TARGET;
     paragraph_indent_cm := INDENT_CM;
     require_literature_block := false |}.

(** A new document: one section, one empty paragraph. *)
Definition blank_document : Document :=
  {| sections := [accepted_section 1134 [] []]; paragraphs := [text_paragraph []] |}.

(** A document of two lines. *)
Definition two_lines : Document :=
  {| sections := [accepted_section 1134 [] []];
     paragraphs := [text_paragraph (u "TITLE"); text_paragraph (u "Petrov P. P.")] |}.

(* ------------------------------------------------------------------ *)
(** ** The rounded constants in binary64 *)

Module Binary64.

Import PrimInt63.
Import PrimFloat.
#[local] Set Warnings "-inexact-float".

Definition MM_TO_INCH : float := (1 / 25.4)%float.
Definition TWIPS_PER_INCH : float := 1440%float.

(** [20 * MM_TO_INCH * TWIPS_PER_INCH] *)
Definition margin_20mm : float := (20 * MM_TO_INCH * TWIPS_PER_INCH)%float.

(** [rules.paragraph_indent_cm * 10 * MM_TO_INCH * TWIPS_PER_INCH] for the
    default 1.25 *)
Definition indent_default : float := (1.25 * 10 * MM_TO_INCH * TWIPS_PER_INCH)%float.

(** [lo < x < hi] *)
Definition between (lo x hi : float) : bool := ltb lo x && ltb x hi.

(** The two products are nearer to 1134 and to 709 than to any other
    integer. *)
Definition margin_rounds_to_1134 : bool := between 1133.5 margin_20mm 1134.5.
Definition indent_rounds_to_709 : bool := between 708.5 indent_default 709.5.

(** The rational a float denotes. *)
Definition to_Q (f : float) : option Q :=
  match FloatOps.Prim2SF f with
  | SpecFloat.S754_zero _ => Some 0%Q
  | SpecFloat.S754_finite s m e =>
    Some (Qred ((if s then -1 else 1) * inject_Z (Zpos m) * 2 ^ e)%Q)
  | _ => None
  end.

Definition same (f : float) (q : Q) : bool :=
  match to_Q f with Some r => Qeq_bool r q | None => false end.

(** [round64] gives what the floats give: on the two literals of the
    line-spacing test, on the differences [1.21 - 1.15] and [1.09 - 1.15],
    on a quotient, and on a tie among the subnormal numbers. *)
Definition round64_agrees : bool :=
  same 1.15 (round64 (115 # 100))
  && same 0.06 (round64 (6 # 100))
  && same (1.21 - 1.15) (round64 (round64 (121 # 100) - round64 (115 # 100)))
  && same (1.09 - 1.15) (round64 (round64 (109 # 100) - round64 (115 # 100)))
  && same (1 / 3) (round64 (1 # 3))
  && same (0x3p-1074 / 2) (round64 (3 # 2 ^ 1075))
  && same (of_uint63 9007199254740993%uint63) (round64 9007199254740993).

(** The line-spacing test of the source on floats, for the multiples 1.21
    and 1.09 and the default 1.15. *)
Definition spacing_off (ls target : float) : bool := ltb 0.06 (abs (ls - target)).
Definition flags_1_21 : bool := spacing_off 1.21 1.15.
Definition flags_1_09 : bool := spacing_off 1.09 1.15.

End Binary64.

(* ------------------------------------------------------------------ *)
(** ** models.py: to_dict *)

(** The values [to_dict] builds: [None], booleans, numbers, strings, lists
    and dicts (with their keys in insertion order). *)
#[local] Set Warnings "-register-all".
Inductive PyValue : Type :=
| VNone
| VBool (b : bool)
| VInt (z : Z)
| VFloat (q : Q)
| VStr (s : pystr)
| VList (l : list PyValue)
| VDict (d : list (string * PyValue)).

(** [d.get(k)] *)
Fixpoint dict_get (k : string) (d : list (string * PyValue)) : option PyValue :=
  match d with
  | [] => None
  | (k', v) :: d' => if String.eqb k k' then Some v else dict_get k d'
  end.

(** [v[k]] of a value that is a dict. *)
Definition item (k : string) (v : PyValue) : option PyValue :=
  match v with
  | VDict d => dict_get k d
  | _ => None
  end.

(** [d[k] = v] on a dict that has the key: the key keeps its place. *)
Fixpoint dict_set (k : string) (v : PyValue) (d : list (string * PyValue))
    : list (string * PyValue) :=
  match d with
  | [] => [(k, v)]
  | (k', v') :: d' =>
    if String.eqb k k' then (k, v) :: d' else (k', v') :: dict_set k v d'
  end.

(** [Severity.ERROR.value], [Severity.WARNING.value] *)
Definition Severity_value (sev : Severity) : pystr :=
  match sev with
  | ERROR => u "error"
  | WARNING => u "warning"
  end.

Section ToDict.

(** The text of a message: its pieces with the floats formatted, which is
    the runtime's part. *)
Variable render : list MsgPart -> pystr.

Definition detail_to_value (d : DetailValue) : PyValue :=
  match d with
  | DInt z => VInt z
  | DFloat q => VFloat q
  | DStr s => VStr s
  end.

(** [asdict(self)] of a finding: the enum member of [severity] is written
    here by its value, and replaced by [to_dict]. *)
Definition issue_asdict (i : ValidationIssue) : list (string * PyValue) :=
  [("code", VStr (u (code i)));
   ("severity", VStr (Severity_value (severity i)));
   ("message", VStr (render (message i)));
   ("details",
    match details i with
    | None => VNone
    | Some d => VDict (map (fun kv => (fst kv, detail_to_value (snd kv))) d)
    end)].

(** [ValidationIssue.to_dict] *)
Definition issue_to_dict (i : ValidationIssue) : PyValue :=
  let d := issue_asdict i in
  VDict (dict_set "severity" (VStr (Severity_value (severity i))) d).

(** [ValidationReport.to_dict], on the heap that holds the list. *)
Definition report_to_dict (h : Heap.heap) (r : ValidationReport) : PyValue :=
  VDict [("ok", VBool (ok r));
         ("issues", VList (map issue_to_dict (Heap.deref h (issues r))))].

End ToDict.

(* ------------------------------------------------------------------ *)
(** ** services/storage.py: the object key of an upload *)

Module Storage.

(** [s.replace(old, new)] for one-character [old] and [new]. *)
Definition replace (old new : N) (s : pystr) : pystr :=
  map (fun c => if N.eqb c old then new else c) s.

(** [original_name.replace("/", "_").replace("\\", "_")] *)
Definition safe_name (original_name : pystr) : pystr :=
  replace 92 95 (replace 47 95 original_name).

(** The key [upload_stream] stores the file under and returns, for the
    text [uuid] of the identifier it draws. *)
Definition object_key (uuid original_name : pystr) : pystr :=
  u "uploads/" ++ uuid ++ [45%N] ++ safe_name original_name.

(** [s.count(c)] *)
Definition count (c : N) (s : pystr) : nat := length (filter (N.eqb c) s).

End Storage.

(* ------------------------------------------------------------------ *)
(** ** Codes and severities *)

(** The codes the validator gives severity ERROR, and those it gives
    WARNING. *)
Definition ERROR_CODES : list string :=
  ["MARGIN_NOT_20MM"; "HEADER_FOOTER_PRESENT"; "HEADER_TOO_SHORT";
   "TITLE_NOT_CENTER"; "AUTHORS_NOT_CENTER"; "ORG_NOT_CENTER";
   "TITLE_NOT_UPPERCASE"; "FONT_NAME_MISMATCH"; "FONT_SIZE_MISMATCH";
   "HEADER_NOT_BOLD"; "AUTHORS_NOT_ITALIC"; "LITERATURE_MISSING"].

Definition WARNING_CODES : list string :=
  ["PAGE_NOT_A4"; "FONT_UNKNOWN"; "AUTHORS_LIST_FORMAT"; "AUTHORS_INITIALS_PATTERN";
   "BODY_NOT_JUSTIFIED"; "LINE_SPACING_MISMATCH"; "INDENT_MISMATCH";
   "BODY_FONT_NAME_MISMATCH"; "BODY_FONT_SIZE_MISMATCH";
   "LITERATURE_NOT_AT_END"; "LITERATURE_ITEMS_FORMAT"; "CAPTION_SIZE_MISMATCH";
   "LENGTH_TOO_SHORT"; "LENGTH_TOO_LONG"].

(** A finding has one of these codes with the severity of its list. *)
Definition well_coded (i : ValidationIssue) : bool :=
  match severity i with
  | ERROR => code_in ERROR_CODES i
  | WARNING => code_in WARNING_CODES i
  end.

(** The codes of the run-level font check. *)
Definition FONT_CODES : list string :=
  ["FONT_NAME_MISMATCH"; "FONT_SIZE_MISMATCH"; "HEADER_NOT_BOLD";
   "AUTHORS_NOT_ITALIC"; "FONT_UNKNOWN"].

(** [p.alignment == WD_ALIGN_PARAGRAPH.CENTER] *)
Definition is_center (p : Paragraph.t) : bool :=
  match Paragraph.alignment p with
  | Some CENTER => true
  | _ => false
  end.

(** The codes of the font findings of the body check. *)
Definition BODY_FONT_CODES : list string :=
  ["BODY_FONT_NAME_MISMATCH"; "BODY_FONT_SIZE_MISMATCH"].

(** The text begins with optional whitespace, a number and a dot, as an
    item of the literature list does. *)
Definition item_text (is_decimal : N -> bool) (txt : pystr) : Prop :=
  exists ws ds rest,
    txt = ws ++ ds ++ 46%N :: rest
    /\ forallb is_space ws = true
    /\ ds <> [] /\ forallb is_decimal ds = true.

(** The text of the document before it is stripped and collapsed. *)
Definition joined_text (doc : Document) : pystr :=
  join [10%N] (map Paragraph.text (paragraphs doc)).

(** A section passes the page-setup checks that give errors. *)
Definition section_clean (rules : ThesisStyleRules) (s : DocSection.t) : Prop :=
  Forall (margin_ok rules) (margins s)
  /\ _section_has_header_footer_text s = false.

(** A surname, whitespace and two initials, each with its dot: what the
    initials pattern matches. *)
Definition initials_text (x : pystr) : Prop :=
  exists sn ws i1 ws2 i2,
    x = sn ++ ws ++ i1 :: 46%N :: ws2 ++ [i2; 46%N]
    /\ sn <> [] /\ forallb surname_char sn = true
    /\ ws <> [] /\ forallb is_space ws = true
    /\ initial_char i1 = true
    /\ forallb is_space ws2 = true
    /\ initial_char i2 = true.

(** The rules with the flag [require_bold_header] set to [b]. *)
Definition with_bold_header (b : bool) (rules : ThesisStyleRules) : ThesisStyleRules :=
  {| font_name := font_name rules;
     font_size_pt := font_size_pt rules;
     margin_twips := margin_twips rules;
     require_bold_header := b;
     title_uppercase := title_uppercase rules;
     authors_italic := authors_italic rules;
     header_centered := header_centered rules;
     body_justify := body_justify rules;
     line_spacing := line_spacing rules;
     paragraph_indent_cm := paragraph_indent_cm rules;
     require_literature_block := require_literature_block rules |}.

(* ------------------------------------------------------------------ *)
(** ** The heap *)

Section HeapFacts.

Import Heap.

Lemma update_fresh (h : heap) f xs :
  update (length h) f (h ++ [xs]) = h ++ [f xs].
Proof.
  induction h as [|ys h IH]; simpl; [reflexivity|].
  now rewrite IH.
Qed.

Lemma deref_fresh (h : heap) xs : deref (h ++ [xs]) (length h) = xs.
Proof.
  unfold deref. rewrite app_nth2 by lia.
  now rewrite Nat.sub_diag.
Qed.

Lemma deref_frame (h : heap) xs l :
  (l < length h)%nat -> deref (h ++ [xs]) l = deref h l.
Proof.
  intros Hl. unfold deref. now rewrite app_nth1.
Qed.

End HeapFacts.

Section Engine.

Variable str_lower : pystr -> pystr.
Variable str_upper : pystr -> pystr.
Variable is_decimal : N -> bool.

Local Abbreviation validate := (validate_thesis_docx str_lower str_upper is_decimal).
Local Abbreviation findings := (all_issues str_lower str_upper is_decimal).

(** A run allocates one list, fills it with the findings of the six checks
    in order, and leaves every other list as it was. *)
Lemma validate_run doc rules (h : Heap.heap) :
  validate doc rules h
  = ({| ok := negb (any_error (findings doc rules)); issues := length h |},
     h ++ [findings doc rules]).
Proof.
  unfold validate_thesis_docx, all_issues, Heap.bind, Heap.new_list, Heap.extend,
    Heap.read, Heap.ret.
  cbv zeta. cbn [fst snd].
  rewrite !update_fresh, deref_fresh. cbn [app].
  now rewrite <- !app_assoc.
Qed.

Lemma any_error_false (xs : list ValidationIssue) :
  any_error xs = false <-> Forall (fun i => severity i <> ERROR) xs.
Proof.
  unfold any_error. induction xs as [|i xs IH]; simpl.
  - split; [constructor | reflexivity].
  - rewrite orb_false_iff, IH. split.
    + intros [Hi Hxs]. constructor; [|assumption].
      destruct (severity i); [discriminate | discriminate].
    + intros H. inversion H as [|? ? Hi Hxs]; subst. split; [|assumption].
      destruct (severity i); [congruence | reflexivity].
Qed.

(** C1 (validate_thesis_docx): in the report of a run, from whatever heap the
    run starts, [ok] is true exactly when no finding of the report's list has
    severity ERROR. *)
Theorem ok_iff_no_error doc rules (h : Heap.heap) :
  let (ok, issues) := run_report (validate doc rules h) in
  ok = true <-> Forall (fun i => severity i <> ERROR) issues.
Proof.
  rewrite validate_run. unfold run_report. cbn [fst snd ok issues].
  rewrite deref_fresh, negb_true_iff. apply any_error_false.
Qed.

(** C2 (validate_thesis_docx): the report of a run depends on the document
    and the rules only.  Runs from two heaps give the same verdict and the
    same list of findings; and of two runs one after the other, the second
    builds a list of its own, equal to the first's, and leaves the first
    report's list as it was. *)
Theorem validate_deterministic doc rules (h h' : Heap.heap) :
  run_report (validate doc rules h) = run_report (validate doc rules h')
  /\ let (rep1, h1) := validate doc rules h in
     let (rep2, h2) := validate doc rules h1 in
     ok rep1 = ok rep2
     /\ Heap.deref h2 (issues rep2) = Heap.deref h1 (issues rep1)
     /\ Heap.deref h2 (issues rep1) = Heap.deref h1 (issues rep1)
     /\ issues rep1 <> issues rep2.
Proof.
  split.
  - rewrite !validate_run. unfold run_report. cbn [fst snd ok issues].
    now rewrite !deref_fresh.
  - rewrite !validate_run. cbn [ok issues].
    rewrite length_app. cbn [length].
    repeat split.
    + replace (length h + 1)%nat with (length (h ++ [findings doc rules]))
        by (rewrite length_app; reflexivity).
      now rewrite !deref_fresh.
    + rewrite deref_frame by (rewrite length_app; cbn; lia). reflexivity.
    + lia.
Qed.

End Engine.

(* ------------------------------------------------------------------ *)
(** ** The rounded constants *)

(** The margin of 20 mm is 1134 twips, in exact arithmetic and in binary64
    (where the product lies strictly between 1133.5 and 1134.5). *)
Lemma margin_20mm_twips :
  MARGIN_20MM_TWIPS = 1134%Z
  /\ Binary64.margin_rounds_to_1134 = true.
Proof. split; vm_compute; reflexivity. Qed.

(** The indent of 1.25 cm is 709 twips, likewise. *)
Lemma indent_default_twips :
  expected_twips default_rules = 709%Z
  /\ Binary64.indent_rounds_to_709 = true.
Proof. split; vm_compute; reflexivity. Qed.

(** [round64] agrees with the floats of the kernel on the sample of
    [Binary64], and the test of the model gives what the test of the source
    gives on floats: a multiple of 1.21 is off the default 1.15, a multiple
    of 1.09 is not. *)
Lemma round64_binary64 :
  Binary64.round64_agrees = true
  /\ Binary64.flags_1_21 = true
  /\ spacing_off default_rules (Multiple double_1_21) = true
  /\ Binary64.flags_1_09 = false
  /\ spacing_off default_rules (Multiple double_1_09) = false.
Proof. repeat split; vm_compute; reflexivity. Qed.

(* ------------------------------------------------------------------ *)
(** ** Page setup *)

Section PageSetup.

Variable rules : ThesisStyleRules.

Lemma margin_issues_about idx side :
  Forall (fun i => detail "section" i = Some (DInt (Z.of_nat idx)))
    (margin_issues rules idx side).
Proof.
  destruct side as [name value]. unfold margin_issues.
  destruct (Z.abs _ >? _)%Z; repeat constructor.
Qed.

Lemma section_issues_about idx s :
  Forall (fun i => detail "section" i = Some (DInt (Z.of_nat idx)))
    (section_issues rules (idx, s)).
Proof.
  unfold section_issues. rewrite !Forall_app. repeat split.
  - destruct (negb _); repeat constructor.
  - apply Forall_flat_map. repeat constructor; apply margin_issues_about.
  - destruct (_section_has_header_footer_text s); repeat constructor.
Qed.

Lemma filter_about_same idx f l :
  Forall (fun i => detail "section" i = Some (DInt (Z.of_nat idx))) l ->
  filter (fun i => about_section idx i && f i) l = filter f l.
Proof.
  induction 1 as [|i l Hi _ IH]; simpl; [reflexivity|].
  unfold about_section at 1. rewrite Hi, Z.eqb_refl. simpl.
  now rewrite IH.
Qed.

Lemma filter_about_other idx j f l :
  j <> idx ->
  Forall (fun i => detail "section" i = Some (DInt (Z.of_nat j))) l ->
  filter (fun i => about_section idx i && f i) l = [].
Proof.
  intros Hj. induction 1 as [|i l Hi _ IH]; simpl; [reflexivity|].
  unfold about_section at 1. rewrite Hi.
  replace (Z.of_nat j =? Z.of_nat idx)%Z with false by (symmetry; apply Z.eqb_neq; lia).
  simpl. exact IH.
Qed.

(** Among the findings of the loop over the sections, those about section
    [idx] are the findings of the iteration on that section. *)
Lemma filter_about_enumerate idx f l k :
  filter (fun i => about_section idx i && f i)
    (flat_map (section_issues rules) (enumerate_from k l))
  = match (if (k <=? idx)%nat then nth_error l (idx - k) else None) with
    | Some s => filter f (section_issues rules (idx, s))
    | None => []
    end.
Proof.
  revert k. induction l as [|x l IH]; intros k; cbn [enumerate_from flat_map].
  - destruct (k <=? idx)%nat; [|reflexivity]. now destruct (idx - k)%nat.
  - rewrite filter_app, IH.
    destruct (Nat.eq_dec k idx) as [->|Hk].
    + rewrite filter_about_same by apply section_issues_about.
      rewrite Nat.leb_refl, Nat.sub_diag. cbn [nth_error].
      replace (S idx <=? idx)%nat with false by (symmetry; apply Nat.leb_gt; lia).
      apply app_nil_r.
    + rewrite filter_about_other with (j := k)
        by (assumption || apply section_issues_about).
      cbn [app].
      destruct (k <=? idx)%nat eqn:Hle.
      * apply Nat.leb_le in Hle.
        replace (S k <=? idx)%nat with true by (symmetry; apply Nat.leb_le; lia).
        replace (idx - k)%nat with (S (idx - S k)) by lia. reflexivity.
      * apply Nat.leb_gt in Hle.
        replace (S k <=? idx)%nat with false by (symmetry; apply Nat.leb_gt; lia).
        reflexivity.
Qed.

Lemma section_findings_nth c doc idx :
  section_findings c idx (_check_page_setup doc rules)
  = match nth_error (sections doc) idx with
    | Some s => filter (has_code c) (section_issues rules (idx, s))
    | None => []
    end.
Proof.
  unfold section_findings, _check_page_setup, enumerate.
  rewrite filter_about_enumerate. cbn [Nat.leb]. now rewrite Nat.sub_0_r.
Qed.

Lemma margin_issues_length idx name value :
  length (margin_issues rules idx (name, value))
  = if margin_off rules value then 1%nat else 0%nat.
Proof.
  unfold margin_issues, margin_off. now destruct (Z.abs _ >? _)%Z.
Qed.

Lemma has_text_exists ps :
  has_text ps = true
  <-> exists p, In p ps /\ nonblank (Paragraph.text p) = true.
Proof. unfold has_text. apply existsb_exists. Qed.

(** The flag of a section is true exactly when a paragraph of its header or
    of its footer has text. *)
Lemma section_has_text_iff s :
  _section_has_header_footer_text s = true
  <-> exists p, In p (header_footer_paragraphs s)
                /\ nonblank (Paragraph.text p) = true.
Proof.
  unfold _section_has_header_footer_text, header_footer_paragraphs.
  destruct (DocSection.header s) as [hs|], (DocSection.footer s) as [fs|]; simpl.
  - destruct (has_text hs) eqn:Hh.
    + split; [intros _|reflexivity].
      apply has_text_exists in Hh. destruct Hh as (p & Hp & Ht).
      exists p. split; [apply in_or_app; now left | exact Ht].
    + destruct (has_text fs) eqn:Hf.
      * split; [intros _|reflexivity].
        apply has_text_exists in Hf. destruct Hf as (p & Hp & Ht).
        exists p. split; [apply in_or_app; now right | exact Ht].
      * split; [discriminate|]. intros (p & Hp & Ht).
        apply in_app_or in Hp. destruct Hp as [Hp|Hp].
        -- assert (has_text hs = true) by (apply has_text_exists; now exists p).
           congruence.
        -- assert (has_text fs = true) by (apply has_text_exists; now exists p).
           congruence.
  - rewrite app_nil_r. destruct (has_text hs) eqn:Hh.
    + split; [intros _|reflexivity]. now apply has_text_exists.
    + split; [discriminate|]. intros H. apply has_text_exists in H. congruence.
  - destruct (has_text fs) eqn:Hf.
    + split; [intros _|reflexivity]. now apply has_text_exists.
    + split; [discriminate|]. intros H. apply has_text_exists in H. congruence.
  - split; [discriminate|]. now intros (p & [] & _).
Qed.

(** C10 (_check_page_setup, _section_has_header_footer_text): the check
    emits at most one HEADER_FOOTER_PRESENT finding about a section.  For a
    section of the document it emits one when some paragraph of the header
    or of the footer has text (also when both have), and none otherwise. *)
Theorem header_footer_at_most_once doc idx :
  let found :=
    section_findings "HEADER_FOOTER_PRESENT" idx (_check_page_setup doc rules) in
  (length found <= 1)%nat
  /\ forall s, nth_error (sections doc) idx = Some s ->
     ((exists p, In p (header_footer_paragraphs s)
                 /\ nonblank (Paragraph.text p) = true) ->
      found = [issue "HEADER_FOOTER_PRESENT" ERROR
                 [Txt (u "Колонтитулы запрещены (header/footer должен быть пустым).")]
                 (Some [("section", DInt (Z.of_nat idx))])])
     /\ ((forall p, In p (header_footer_paragraphs s) ->
                    nonblank (Paragraph.text p) = false) ->
         found = []).
Proof.
  intros found. subst found. rewrite section_findings_nth.
  assert (Hone : forall s,
    filter (has_code "HEADER_FOOTER_PRESENT") (section_issues rules (idx, s))
    = if _section_has_header_footer_text s
      then [issue "HEADER_FOOTER_PRESENT" ERROR
              [Txt (u "Колонтитулы запрещены (header/footer должен быть пустым).")]
              (Some [("section", DInt (Z.of_nat idx))])]
      else []).
  { intros s. unfold section_issues. rewrite !filter_app.
    assert (Hm : forall side, filter (has_code "HEADER_FOOTER_PRESENT")
                   (margin_issues rules idx side) = []).
    { intros [name value]. unfold margin_issues.
      now destruct (Z.abs _ >? _)%Z. }
    cbn [flat_map]. rewrite !filter_app, !Hm.
    destruct (negb _), (_section_has_header_footer_text s); reflexivity. }
  split.
  - destruct (nth_error (sections doc) idx) as [s|]; [|simpl; lia].
    rewrite Hone. destruct (_section_has_header_footer_text s); simpl; lia.
  - intros s Hs. rewrite Hs, Hone. split.
    + intros H. apply section_has_text_iff in H. now rewrite H.
    + intros H. destruct (_section_has_header_footer_text s) eqn:Hf; [|reflexivity].
      apply section_has_text_iff in Hf. destruct Hf as (p & Hp & Ht).
      rewrite (H p Hp) in Ht. discriminate.
Qed.

End PageSetup.

(* ------------------------------------------------------------------ *)
(** ** The codes of each check *)

Section Codes.

Variable str_lower : pystr -> pystr.
Variable str_upper : pystr -> pystr.
Variable is_decimal : N -> bool.

Ltac emits_cases :=
  repeat match goal with
  | |- emits_only _ _ => unfold emits_only
  | |- Forall _ (_ ++ _) => apply Forall_app; split
  | |- Forall _ [] => constructor
  | |- Forall _ (_ :: _) => constructor; [reflexivity|]
  | |- Forall _ (if ?b then _ else _) => destruct b
  | |- Forall _ (match ?x with _ => _ end) => destruct x
  end.

Lemma emits_only_flat_map {A} cs (f : A -> list ValidationIssue) l :
  (forall x, emits_only cs (f x)) -> emits_only cs (flat_map f l).
Proof.
  intros H. apply Forall_flat_map. apply Forall_forall. intros x _. apply H.
Qed.

Lemma emits_only_first_issue cs f rs :
  (forall r i, f r = Some i -> code_in cs i = true) ->
  emits_only cs (first_issue f rs).
Proof.
  intros H. induction rs as [|r rs IH]; simpl; [constructor|].
  destruct (f r) as [i|] eqn:Hf; [|exact IH].
  constructor; [now apply (H r) | constructor].
Qed.

Lemma page_setup_codes doc rules :
  emits_only PAGE_CODES (_check_page_setup doc rules).
Proof.
  apply emits_only_flat_map. intros [idx s]. unfold section_issues.
  emits_cases.
  apply emits_only_flat_map. intros [name value]. unfold margin_issues.
  emits_cases.
Qed.

Lemma paragraph_font_codes p rules must_bold must_italic where_ :
  emits_only HEADER_CODES (_check_paragraph_font p rules must_bold must_italic where_).
Proof. unfold _check_paragraph_font. emits_cases. Qed.

Lemma header_codes doc rules :
  emits_only HEADER_CODES (_check_header_structure str_upper doc rules).
Proof.
  unfold _check_header_structure.
  destruct (nonempty_paragraphs doc) as [|t [|a [|o rest]]];
    try (repeat constructor).
  emits_cases; try apply paragraph_font_codes.
  cbn [flat_map]. unfold center_issues. emits_cases.
Qed.

Lemma body_codes doc rules :
  emits_only BODY_CODES (_check_body_paragraphs str_lower doc rules).
Proof.
  apply emits_only_flat_map. intros p. unfold body_paragraph_issues.
  emits_cases.
  apply emits_only_first_issue. intros r i. unfold body_run_issue.
  repeat match goal with
  | |- context [if ?b then _ else _] => destruct b
  | |- context [match ?x with _ => _ end] => destruct x
  end; intros [=]; subst; reflexivity.
Qed.

Lemma literature_codes doc rules :
  emits_only LITERATURE_CODES (_check_literature str_lower is_decimal doc rules).
Proof. unfold _check_literature. emits_cases. Qed.

Lemma captions_codes doc :
  emits_only CAPTION_CODES (_check_captions is_decimal doc).
Proof.
  apply emits_only_flat_map. intros p. unfold caption_issues.
  emits_cases.
  apply emits_only_first_issue. intros r i. unfold caption_run_issue.
  repeat match goal with
  | |- context [if ?b then _ else _] => destruct b
  | |- context [match ?x with _ => _ end] => destruct x
  end; intros [=]; subst; reflexivity.
Qed.

Lemma length_codes doc :
  emits_only LENGTH_CODES (_check_length_heuristic doc).
Proof. unfold _check_length_heuristic. emits_cases. Qed.

(** A check that emits codes of [cs] only emits no code of a list that has
    none in common with [cs]. *)
Lemma filter_other_codes cs ds l :
  disjoint_codes cs ds = true -> emits_only cs l -> filter (code_in ds) l = [].
Proof.
  intros Hd. induction 1 as [|i l Hi _ IH]; simpl; [reflexivity|].
  rewrite IH. replace (code_in ds i) with false; [reflexivity|].
  symmetry. unfold code_in in *.
  apply existsb_exists in Hi. destruct Hi as (c & Hc & Heq).
  apply String.eqb_eq in Heq. rewrite Heq.
  unfold disjoint_codes in Hd. rewrite forallb_forall in Hd.
  apply negb_true_iff. now apply Hd.
Qed.

End Codes.

(* ------------------------------------------------------------------ *)
(** ** The short-circuits of the header and literature checks *)

Section ShortCircuits.

Variable str_lower : pystr -> pystr.
Variable str_upper : pystr -> pystr.
Variable is_decimal : N -> bool.

Local Abbreviation validate := (validate_thesis_docx str_lower str_upper is_decimal).

(** The findings of a run with a code of [cs] are those of the checks that
    may emit them. *)
Lemma report_findings doc rules (h : Heap.heap) :
  snd (run_report (validate doc rules h))
  = all_issues str_lower str_upper is_decimal doc rules.
Proof.
  rewrite validate_run. unfold run_report. cbn [fst snd issues].
  apply deref_fresh.
Qed.

Lemma header_short doc rules :
  (length (nonempty_paragraphs doc) < 3)%nat ->
  _check_header_structure str_upper doc rules = [header_too_short_finding].
Proof.
  unfold _check_header_structure.
  destruct (nonempty_paragraphs doc) as [|t [|a [|o rest]]]; simpl length;
    intros H; try reflexivity.
  lia.
Qed.

(** C4 (_check_header_structure): when the document has fewer than three
    non-empty paragraphs, the header check returns the single finding
    HEADER_TOO_SHORT, of severity ERROR, and the report of the run has no
    other finding with a code of the header checks. *)
Theorem header_too_short_only doc rules (h : Heap.heap) :
  (length (nonempty_paragraphs doc) < 3)%nat ->
  _check_header_structure str_upper doc (or_default rules)
  = [header_too_short_finding]
  /\ severity header_too_short_finding = ERROR
  /\ filter (code_in HEADER_CODES) (snd (run_report (validate doc rules h)))
     = [header_too_short_finding].
Proof.
  intros Hlen. split; [now apply header_short|]. split; [reflexivity|].
  rewrite report_findings. unfold all_issues. rewrite !filter_app.
  rewrite header_short by assumption.
  rewrite (@filter_other_codes PAGE_CODES HEADER_CODES _ eq_refl (page_setup_codes doc (or_default rules))).
  rewrite (@filter_other_codes BODY_CODES HEADER_CODES _ eq_refl (body_codes str_lower doc (or_default rules))).
  rewrite (@filter_other_codes LITERATURE_CODES HEADER_CODES _ eq_refl (literature_codes str_lower is_decimal doc (or_default rules))).
  rewrite (@filter_other_codes CAPTION_CODES HEADER_CODES _ eq_refl (captions_codes is_decimal doc)).
  rewrite (@filter_other_codes LENGTH_CODES HEADER_CODES _ eq_refl (length_codes doc)).
  reflexivity.
Qed.

Lemma find_index_none {A} (f : A -> bool) l :
  (forall x, In x l -> f x = false) -> find_index f l = None.
Proof.
  induction l as [|x l IH]; simpl; intros H; [reflexivity|].
  rewrite (H x) by now left.
  rewrite IH; [reflexivity|]. intros y Hy. apply H. now right.
Qed.

Lemma literature_missing doc rules :
  nonempty_paragraphs doc <> [] ->
  (forall p, In p (paragraphs doc) -> is_literature_heading str_lower p = false) ->
  require_literature_block rules = true ->
  _check_literature str_lower is_decimal doc rules = [literature_missing_finding].
Proof.
  intros Hne Hno Hreq. unfold _check_literature.
  rewrite find_index_none.
  - rewrite Hreq. now destruct (nonempty_paragraphs doc).
  - intros p Hp. apply Hno. unfold nonempty_paragraphs in Hp.
    now apply filter_In in Hp.
Qed.

(** C5, as amended (_check_literature): when the document has a non-empty
    paragraph, no paragraph whose stripped, lower-cased text is the
    literature heading, and the literature block is required, the literature
    check returns the single finding LITERATURE_MISSING, of severity ERROR,
    and the report of the run has no other finding with a code of the
    literature check (none of LITERATURE_NOT_AT_END and
    LITERATURE_ITEMS_FORMAT). *)
Theorem literature_missing_only doc rules (h : Heap.heap) :
  nonempty_paragraphs doc <> [] ->
  (forall p, In p (paragraphs doc) -> is_literature_heading str_lower p = false) ->
  require_literature_block (or_default rules) = true ->
  _check_literature str_lower is_decimal doc (or_default rules)
  = [literature_missing_finding]
  /\ severity literature_missing_finding = ERROR
  /\ filter (code_in LITERATURE_CODES) (snd (run_report (validate doc rules h)))
     = [literature_missing_finding].
Proof.
  intros Hne Hno Hreq. split; [now apply literature_missing|].
  split; [reflexivity|].
  rewrite report_findings. unfold all_issues. rewrite !filter_app.
  rewrite literature_missing by assumption.
  rewrite (@filter_other_codes PAGE_CODES LITERATURE_CODES _ eq_refl (page_setup_codes doc (or_default rules))).
  rewrite (@filter_other_codes HEADER_CODES LITERATURE_CODES _ eq_refl (header_codes str_upper doc (or_default rules))).
  rewrite (@filter_other_codes BODY_CODES LITERATURE_CODES _ eq_refl (body_codes str_lower doc (or_default rules))).
  rewrite (@filter_other_codes CAPTION_CODES LITERATURE_CODES _ eq_refl (captions_codes is_decimal doc)).
  rewrite (@filter_other_codes LENGTH_CODES LITERATURE_CODES _ eq_refl (length_codes doc)).
  reflexivity.
Qed.

End ShortCircuits.

(** A document of two non-empty paragraphs: the header check returns
    HEADER_TOO_SHORT alone. *)
Lemma header_too_short_witness :
  _check_header_structure simple_upper two_lines (or_default None)
  = [header_too_short_finding]
  /\ severity header_too_short_finding = ERROR
  /\ filter (code_in HEADER_CODES)
       (snd (run_report
               (validate_thesis_docx simple_lower simple_upper ascii_digit
                  two_lines None [])))
     = [header_too_short_finding].
Proof.
  apply (header_too_short_only simple_lower simple_upper ascii_digit two_lines None []).
  vm_compute. lia.
Defined.

(** The same document has no literature heading: LITERATURE_MISSING alone. *)
Lemma literature_missing_witness :
  _check_literature simple_lower ascii_digit two_lines (or_default None)
  = [literature_missing_finding]
  /\ severity literature_missing_finding = ERROR
  /\ filter (code_in LITERATURE_CODES)
       (snd (run_report
               (validate_thesis_docx simple_lower simple_upper ascii_digit
                  two_lines None [])))
     = [literature_missing_finding].
Proof.
  apply (literature_missing_only simple_lower simple_upper ascii_digit two_lines None []).
  - vm_compute. discriminate.
  - intros p Hp. vm_compute in Hp.
    repeat (destruct Hp as [<-|Hp]; [vm_compute; reflexivity|]).
    destruct Hp.
  - reflexivity.
Defined.

(** C5, as stated, fails on a new document (one empty paragraph): no
    paragraph is the literature heading and the block is required, and the
    report has no LITERATURE_MISSING finding. *)
Lemma literature_missing_counterexample :
  (forall p, In p (paragraphs blank_document) ->
             is_literature_heading simple_lower p = false)
  /\ require_literature_block (or_default None) = true
  /\ filter (has_code "LITERATURE_MISSING")
       (snd (run_report
               (validate_thesis_docx simple_lower simple_upper ascii_digit
                  blank_document None [])))
     = [].
Proof.
  split; [|split; [reflexivity | vm_compute; reflexivity]].
  intros p [<-|[]]. vm_compute. reflexivity.
Qed.

(* ------------------------------------------------------------------ *)
(** ** The run-level font check *)

Section ParagraphFont.

Variable rules : ThesisStyleRules.
Variables must_bold must_italic : bool.

Local Abbreviation step := (font_step rules must_bold must_italic).

(** What one iteration does to each flag. *)
Lemma step_any_run fl r :
  any_run (step fl r) = any_run fl || nonblank (Run.text r).
Proof.
  unfold font_step. destruct (nonblank (Run.text r)); simpl;
    [now rewrite orb_true_r | now rewrite orb_false_r].
Qed.

Lemma step_bad_name fl r :
  bad_name (step fl r)
  = bad_name fl
    || nonblank (Run.text r)
       && match name_state rules r with Mismatching => true | _ => false end.
Proof.
  unfold font_step, name_state. destruct (nonblank (Run.text r)); simpl;
    [|now rewrite orb_false_r].
  destruct (Run.font_name r) as [n|]; [|now rewrite orb_false_r].
  destruct (PyStr.eqb n (font_name rules)); simpl;
    [now rewrite orb_false_r | now rewrite orb_true_r].
Qed.

Lemma step_bad_size fl r :
  bad_size (step fl r)
  = bad_size fl
    || nonblank (Run.text r)
       && match size_state rules r with Mismatching => true | _ => false end.
Proof.
  unfold font_step, size_state. destruct (nonblank (Run.text r)); simpl;
    [|now rewrite orb_false_r].
  destruct (Run.font_size r) as [pt|]; [|now rewrite orb_false_r].
  destruct (Qgtb _ _); simpl; [now rewrite orb_true_r | now rewrite orb_false_r].
Qed.

Lemma step_bad_bold fl r :
  bad_bold (step fl r)
  = bad_bold fl
    || nonblank (Run.text r)
       && (must_bold
           && match flag_state (Run.bold r) with Matching => false | _ => true end).
Proof.
  unfold font_step, flag_state. destruct (nonblank (Run.text r)); simpl;
    [|now rewrite orb_false_r].
  destruct must_bold, (Run.bold r) as [[|]|]; simpl;
    now rewrite ?orb_true_r, ?orb_false_r.
Qed.

Lemma step_bad_italic fl r :
  bad_italic (step fl r)
  = bad_italic fl
    || nonblank (Run.text r)
       && (must_italic
           && match flag_state (Run.italic r) with Matching => false | _ => true end).
Proof.
  unfold font_step, flag_state. destruct (nonblank (Run.text r)); simpl;
    [|now rewrite orb_false_r].
  destruct must_italic, (Run.italic r) as [[|]|]; simpl;
    now rewrite ?orb_true_r, ?orb_false_r.
Qed.

Lemma step_unknown fl r :
  unknown_font (step fl r)
  = unknown_font fl
    || nonblank (Run.text r)
       && match name_state rules r, size_state rules r with
          | Unknown, _ | _, Unknown => true
          | _, _ => false
          end.
Proof.
  unfold font_step, name_state, size_state.
  destruct (nonblank (Run.text r)); simpl; [|now rewrite orb_false_r].
  destruct (Run.font_name r) as [n|], (Run.font_size r) as [pt|];
    try destruct (PyStr.eqb n (font_name rules)); try destruct (Qgtb _ _);
    now rewrite ?orb_true_r, ?orb_false_r.
Qed.

(** A flag that each iteration raises when [g] holds of the run is, after
    the loop, raised when it was before or [g] holds of some run. *)
Lemma fold_flag (proj : FontFlags -> bool) (g : Run.t -> bool) :
  (forall fl r, proj (step fl r) = proj fl || g r) ->
  forall rs fl, proj (fold_left step rs fl) = proj fl || existsb g rs.
Proof.
  intros Hstep. induction rs as [|r rs IH]; intros fl; simpl.
  - now rewrite orb_false_r.
  - now rewrite IH, Hstep, orb_assoc.
Qed.

Lemma existsb_seen (g : Run.t -> bool) p :
  existsb (fun r => nonblank (Run.text r) && g r) (Paragraph.runs p) = true
  <-> exists r, In r (seen_runs p) /\ g r = true.
Proof.
  rewrite existsb_exists. unfold seen_runs. split.
  - intros (r & Hr & Hg). apply andb_true_iff in Hg. exists r.
    split; [apply filter_In|]; tauto.
  - intros (r & Hr & Hg). apply filter_In in Hr. exists r.
    split; [tauto|]. apply andb_true_iff. tauto.
Qed.

Lemma no_seen_run p :
  existsb (fun r => nonblank (Run.text r)) (Paragraph.runs p) = false
  <-> seen_runs p = [].
Proof.
  unfold seen_runs. induction (Paragraph.runs p) as [|r rs IH]; simpl.
  - tauto.
  - destruct (nonblank (Run.text r)); simpl; [split; discriminate | exact IH].
Qed.

Variable p : Paragraph.t.
Variable where_ : pystr.
Hypothesis has_text_p : nonblank (Paragraph.text p) = true.

Local Abbreviation out := (_check_paragraph_font p rules must_bold must_italic where_).
Local Abbreviation flags := (font_flags rules must_bold must_italic (Paragraph.runs p)).

(** Each code is emitted exactly when its condition on the flags holds. *)
Lemma emitted_by_flags :
  emitted "FONT_NAME_MISMATCH" out = bad_name flags
  /\ emitted "FONT_SIZE_MISMATCH" out = bad_size flags
  /\ emitted "HEADER_NOT_BOLD" out = must_bold && bad_bold flags
  /\ emitted "AUTHORS_NOT_ITALIC" out = must_italic && bad_italic flags
  /\ emitted "FONT_UNKNOWN" out
     = (negb (any_run flags) || unknown_font flags)
       && negb (bad_name flags || bad_size flags)
  /\ Forall (fun i => severity i = if has_code "FONT_UNKNOWN" i then WARNING else ERROR)
       out.
Proof.
  unfold _check_paragraph_font, emitted.
  change (truthy (strip (Paragraph.text p))) with (nonblank (Paragraph.text p)).
  rewrite has_text_p. cbv zeta. cbn [negb].
  destruct (bad_name flags), (bad_size flags), (any_run flags), (unknown_font flags),
    (must_bold && bad_bold flags), (must_italic && bad_italic flags);
    cbn [negb orb andb app];
    (repeat split; [reflexivity .. | repeat constructor]).
Qed.

(** C8, as amended (_check_paragraph_font): for a paragraph with text, over
    its non-blank runs.  Font name and font size are three-state: a finding
    FONT_NAME_MISMATCH (FONT_SIZE_MISMATCH) is emitted exactly when some run
    has a name (size) that is present and differs; an absent name or size,
    or the absence of any non-blank run, gives the FONT_UNKNOWN warning, and
    only when no name or size mismatch is reported.  Bold and italic are
    two-state: when the flag is required, HEADER_NOT_BOLD
    (AUTHORS_NOT_ITALIC) is emitted exactly when some run's flag is not
    explicitly true, unset included.  FONT_UNKNOWN is a WARNING, the other
    four are ERRORs. *)
Theorem font_attribute_states :
  (emitted "FONT_NAME_MISMATCH" out = true
   <-> exists r, In r (seen_runs p) /\ name_state rules r = Mismatching)
  /\ (emitted "FONT_SIZE_MISMATCH" out = true
      <-> exists r, In r (seen_runs p) /\ size_state rules r = Mismatching)
  /\ (emitted "FONT_UNKNOWN" out = true
      <-> (seen_runs p = []
           \/ exists r, In r (seen_runs p)
                /\ (name_state rules r = Unknown \/ size_state rules r = Unknown))
          /\ ~ (exists r, In r (seen_runs p)
                  /\ (name_state rules r = Mismatching
                      \/ size_state rules r = Mismatching)))
  /\ (emitted "HEADER_NOT_BOLD" out = true
      <-> must_bold = true
          /\ exists r, In r (seen_runs p) /\ flag_state (Run.bold r) <> Matching)
  /\ (emitted "AUTHORS_NOT_ITALIC" out = true
      <-> must_italic = true
          /\ exists r, In r (seen_runs p) /\ flag_state (Run.italic r) <> Matching)
  /\ Forall (fun i => severity i = if has_code "FONT_UNKNOWN" i then WARNING else ERROR)
       out.
Proof.
  destruct emitted_by_flags as (En & Es & Eb & Ei & Eu & Hsev).
  assert (Hany : any_run flags = existsb (fun r => nonblank (Run.text r)) (Paragraph.runs p))
    by (unfold font_flags; now rewrite (fold_flag any_run _ step_any_run)).
  assert (Hname : bad_name flags = true
            <-> exists r, In r (seen_runs p) /\ name_state rules r = Mismatching).
  { unfold font_flags. rewrite (fold_flag bad_name _ step_bad_name). simpl.
    rewrite existsb_seen. split; intros (r & Hr & Hs); exists r; split; trivial.
    - now destruct (name_state rules r).
    - now rewrite Hs. }
  assert (Hsize : bad_size flags = true
            <-> exists r, In r (seen_runs p) /\ size_state rules r = Mismatching).
  { unfold font_flags. rewrite (fold_flag bad_size _ step_bad_size). simpl.
    rewrite existsb_seen. split; intros (r & Hr & Hs); exists r; split; trivial.
    - now destruct (size_state rules r).
    - now rewrite Hs. }
  assert (Hunk : unknown_font flags = true
            <-> exists r, In r (seen_runs p)
                  /\ (name_state rules r = Unknown \/ size_state rules r = Unknown)).
  { unfold font_flags. rewrite (fold_flag unknown_font _ step_unknown). simpl.
    rewrite existsb_seen. split; intros (r & Hr & Hs); exists r; split; trivial.
    - destruct (name_state rules r), (size_state rules r); auto; discriminate.
    - destruct Hs as [-> | ->]; [reflexivity|]. now destruct (name_state rules r). }
  assert (Hbold : must_bold && bad_bold flags = true
            <-> must_bold = true
                /\ exists r, In r (seen_runs p) /\ flag_state (Run.bold r) <> Matching).
  { unfold font_flags. rewrite (fold_flag bad_bold _ step_bad_bold). simpl.
    rewrite andb_true_iff.
    rewrite existsb_seen. split.
    - intros (Hb & r & Hr & Hs). split; [exact Hb|]. exists r. split; trivial.
      rewrite Hb in Hs. simpl in Hs. intros E. now rewrite E in Hs.
    - intros (Hb & r & Hr & Hs). split; [exact Hb|]. exists r. split; trivial.
      rewrite Hb. simpl. now destruct (flag_state (Run.bold r)). }
  assert (Hital : must_italic && bad_italic flags = true
            <-> must_italic = true
                /\ exists r, In r (seen_runs p) /\ flag_state (Run.italic r) <> Matching).
  { unfold font_flags. rewrite (fold_flag bad_italic _ step_bad_italic). simpl.
    rewrite andb_true_iff.
    rewrite existsb_seen. split.
    - intros (Hb & r & Hr & Hs). split; [exact Hb|]. exists r. split; trivial.
      rewrite Hb in Hs. simpl in Hs. intros E. now rewrite E in Hs.
    - intros (Hb & r & Hr & Hs). split; [exact Hb|]. exists r. split; trivial.
      rewrite Hb. simpl. now destruct (flag_state (Run.italic r)). }
  rewrite En, Es, Eb, Ei, Eu.
  split; [exact Hname|]. split; [exact Hsize|].
  split; [|split; [exact Hbold | split; [exact Hital | exact Hsev]]].
  rewrite andb_true_iff, orb_true_iff, !negb_true_iff, orb_false_iff.
  rewrite Hunk, Hany, no_seen_run.
  split.
  - intros [Hu [Hn Hs]]. split; [exact Hu|].
    intros (r & Hr & [E|E]).
    + assert (bad_name flags = true) by (apply Hname; now exists r). congruence.
    + assert (bad_size flags = true) by (apply Hsize; now exists r). congruence.
  - intros [Hu Hno]. split; [exact Hu|]. split.
    + destruct (bad_name flags) eqn:E; [|reflexivity].
      exfalso. apply Hno. destruct (proj1 Hname eq_refl) as (r & Hr & E').
      exists r. tauto.
    + destruct (bad_size flags) eqn:E; [|reflexivity].
      exfalso. apply Hno. destruct (proj1 Hsize eq_refl) as (r & Hr & E').
      exists r. tauto.
Qed.

End ParagraphFont.

(** A paragraph whose run leaves bold and italic unset. *)
Lemma font_attribute_states_witness :
  nonblank (Paragraph.text unset_flags_title) = true
  /\ (emitted "HEADER_NOT_BOLD"
        (_check_paragraph_font unset_flags_title default_rules true true (u "authors"))
      = true
      <-> true = true
          /\ exists r, In r (seen_runs unset_flags_title)
                       /\ flag_state (Run.bold r) <> Matching).
Proof.
  split; [reflexivity|].
  destruct (font_attribute_states default_rules true true unset_flags_title
              (u "authors") eq_refl) as (_ & _ & _ & H & _).
  exact H.
Defined.

(** C8, as stated, fails: for a title in the required font and size whose
    only run leaves bold and italic unset, the check with bold required
    yields the HEADER_NOT_BOLD error and no FONT_UNKNOWN advisory, and with
    italic required it yields the AUTHORS_NOT_ITALIC error. *)
Lemma unset_flag_counterexample :
  seen_runs unset_flags_title = [unset_flags_run]
  /\ Run.bold unset_flags_run = None
  /\ Run.italic unset_flags_run = None
  /\ map (fun i => (code i, severity i))
       (_check_paragraph_font unset_flags_title default_rules true false (u "title"))
     = [("HEADER_NOT_BOLD", ERROR)]
  /\ map (fun i => (code i, severity i))
       (_check_paragraph_font unset_flags_title default_rules true true (u "authors"))
     = [("HEADER_NOT_BOLD", ERROR); ("AUTHORS_NOT_ITALIC", ERROR)].
Proof. repeat split; vm_compute; reflexivity. Qed.

(* ------------------------------------------------------------------ *)
(** ** The sample of body paragraphs, and the first-line indent *)

Section Indent.

Variable str_lower : pystr -> pystr.
Variable rules : ThesisStyleRules.

Lemma In_firstn {A} (x : A) n l : In x (firstn n l) -> In x l.
Proof.
  intros H. rewrite <- (firstn_skipn n l). apply in_or_app. now left.
Qed.

Lemma In_skipn {A} (x : A) n l : In x (skipn n l) -> In x l.
Proof.
  intros H. rewrite <- (firstn_skipn n l). apply in_or_app. now right.
Qed.

(** The sampled paragraphs are non-empty paragraphs of the document. *)
Lemma body_sample_nonempty doc p :
  In p (body_sample str_lower doc) -> In p (nonempty_paragraphs doc).
Proof.
  unfold body_sample.
  destruct (length (nonempty_paragraphs doc) <? 4)%nat; [intros []|].
  set (body := skipn 3 (nonempty_paragraphs doc)).
  assert (Hbody : forall q, In q body -> In q (nonempty_paragraphs doc))
    by (intros q; apply In_skipn).
  destruct (find_index (is_literature_heading str_lower) body) as [i|].
  - destruct (30 <? length (firstn i body))%nat; intros H.
    + now apply Hbody, In_firstn with i, In_firstn with 30%nat.
    + now apply Hbody, In_firstn with i.
  - destruct (30 <? length body)%nat; intros H.
    + now apply Hbody, In_firstn with 30%nat.
    + now apply Hbody.
Qed.

Lemma body_sample_nonblank doc p :
  In p (body_sample str_lower doc) -> nonblank (Paragraph.text p) = true.
Proof.
  intros H. apply body_sample_nonempty in H.
  unfold nonempty_paragraphs in H. now apply filter_In in H.
Qed.

Lemma body_font_codes txt rs :
  emits_only ["BODY_FONT_NAME_MISMATCH"; "BODY_FONT_SIZE_MISMATCH"]
    (first_issue (body_run_issue rules txt) rs).
Proof.
  apply emits_only_first_issue. intros r i. unfold body_run_issue.
  repeat match goal with
  | |- context [if ?b then _ else _] => destruct b
  | |- context [match ?x with _ => _ end] => destruct x
  end; intros [=]; subst; reflexivity.
Qed.

Lemma emitted_flat_map {A} c (f : A -> list ValidationIssue) l :
  emitted c (flat_map f l) = existsb (fun x => emitted c (f x)) l.
Proof.
  unfold emitted. induction l as [|x l IH]; simpl; [reflexivity|].
  now rewrite existsb_app, IH.
Qed.

End Indent.

(** The check over a document of three header lines and one body paragraph
    with a first-line indent. *)
Lemma indent_document_findings indent :
  _check_body_paragraphs simple_lower (indent_document indent) default_rules
  = if (Z.abs (indent - 709) >? 80)%Z then [indent_finding default_rules indent] else [].
Proof.
  unfold _check_body_paragraphs.
  replace (body_sample simple_lower (indent_document indent))
    with [indented_paragraph indent] by (vm_compute; reflexivity).
  cbn [flat_map]. rewrite app_nil_r.
  unfold body_paragraph_issues, indented_paragraph.
  cbn [Paragraph.text Paragraph.alignment Paragraph.line_spacing
       Paragraph.first_line_indent Paragraph.runs].
  replace (expected_twips default_rules) with 709%Z by (vm_compute; reflexivity).
  replace (truthy (strip (u "Body text."))) with true by (vm_compute; reflexivity).
  cbn [negb andb app]. rewrite andb_false_r. cbn [app].
  replace (first_issue (body_run_issue default_rules (strip (u "Body text.")))
             [plain_run (u "Body text.")])
    with (@nil ValidationIssue) by (vm_compute; reflexivity).
  rewrite app_nil_r. unfold indent_finding.
  replace (expected_twips default_rules) with 709%Z by (vm_compute; reflexivity).
  reflexivity.
Qed.

(** C6 (_check_body_paragraphs): a defect.  The check compares
    [int(indent)], a count of EMU, with the expected indent in twips (709
    for the configured 1.25 cm) and a tolerance of 80.  So, under the
    default rules, a body paragraph whose first-line indent is exactly
    1.25 cm ([Cm(1.25)], 450000 EMU) gets INDENT_MISMATCH, and so does one
    at the 709 twips the code expects (450215 EMU); over a document with one
    body paragraph the check is silent only for an indent of 629 to 789
    EMU, about 0.02 mm. *)
Theorem indent_of_125cm_flagged :
  expected_twips default_rules = 709%Z
  /\ Length.Cm (125 # 100) = 450000%Z
  /\ Length.twips (Length.Cm (125 # 100)) = expected_twips default_rules
  /\ _check_body_paragraphs simple_lower (indent_document (Length.Cm (125 # 100)))
       default_rules
     = [indent_finding default_rules 450000]
  /\ _check_body_paragraphs simple_lower (indent_document (Length.Twips 709))
       default_rules
     = [indent_finding default_rules 450215]
  /\ severity (indent_finding default_rules 450000) = WARNING
  /\ forall indent,
       _check_body_paragraphs simple_lower (indent_document indent) default_rules = []
       <-> (629 <= indent <= 789)%Z.
Proof.
  split; [vm_compute; reflexivity|]. split; [vm_compute; reflexivity|].
  split; [vm_compute; reflexivity|].
  split; [rewrite indent_document_findings; reflexivity|].
  split; [rewrite indent_document_findings; reflexivity|].
  split; [reflexivity|].
  intros indent. rewrite indent_document_findings.
  destruct (Z.gtb_spec (Z.abs (indent - 709)) 80) as [Hc|Hc]; split; intros H;
    try reflexivity; try discriminate; lia.
Qed.

(* ------------------------------------------------------------------ *)
(** ** Matching with derivatives decides the language of a pattern *)

Section Regex.

Lemma matches_nil_nullable r : matches r [] -> nullable r = true.
Proof.
  intros H. remember (@nil N) as s eqn:Hs.
  induction H as [ | f c Hf | r s x y _ IHr _ IHs | r s x _ IH | r s x _ IH
                  | r | r x y _ _ _ _ ]; simpl; try reflexivity.
  - discriminate.
  - apply app_eq_nil in Hs. destruct Hs as [-> ->].
    now rewrite IHr, IHs.
  - now rewrite IH.
  - rewrite IH by assumption. apply orb_true_r.
Qed.

Lemma nullable_matches_nil r : nullable r = true -> matches r [].
Proof.
  induction r as [ | | f | r IHr s IHs | r IHr s IHs | r _ ]; simpl; intros H;
    try discriminate.
  - constructor.
  - apply andb_true_iff in H. destruct H as [Hr Hs].
    change (@nil N) with (@nil N ++ []). constructor; auto.
  - apply orb_true_iff in H. destruct H as [H|H];
      [apply m_alt_l | apply m_alt_r]; auto.
  - constructor.
Qed.

Lemma matches_cons_deriv c r x : matches r (c :: x) -> matches (deriv c r) x.
Proof.
  intros H. remember (c :: x) as s eqn:Hs. revert x Hs.
  induction H as [ | f d Hf | r s x y Hx IHr Hy IHs | r s x _ IH | r s x _ IH
                  | r | r x y Hx IHr Hy IHs ]; intros z Hz; simpl.
  - discriminate.
  - injection Hz as -> <-. rewrite Hf. constructor.
  - destruct x as [|d x].
    + simpl in Hz. subst y. rewrite (matches_nil_nullable Hx).
      apply m_alt_r. now apply IHs.
    + simpl in Hz. injection Hz as -> <-.
      destruct (nullable r); [apply m_alt_l|]; constructor; auto.
  - apply m_alt_l. auto.
  - apply m_alt_r. auto.
  - discriminate.
  - destruct x as [|d x].
    + simpl in Hz. now apply IHs.
    + simpl in Hz. injection Hz as -> <-. constructor; auto.
Qed.

Lemma matches_deriv_cons c r : forall x, matches (deriv c r) x -> matches r (c :: x).
Proof.
  induction r as [ | | f | r IHr s IHs | r IHr s IHs | r IHr ]; simpl; intros x H.
  - inversion H.
  - inversion H.
  - destruct (f c) eqn:Hf; inversion H; subst. now constructor.
  - destruct (nullable r) eqn:Hn.
    + inversion H as [ | | | ? ? ? Hl | ? ? ? Hr | | ]; subst.
      * inversion Hl as [ | | ? ? x1 y1 H1 H2 | | | | ]; subst.
        change (c :: x1 ++ y1) with ((c :: x1) ++ y1). constructor; auto.
      * change (c :: x) with ([] ++ c :: x).
        constructor; [now apply nullable_matches_nil | auto].
    + inversion H as [ | | ? ? x1 y1 H1 H2 | | | | ]; subst.
      change (c :: x1 ++ y1) with ((c :: x1) ++ y1). constructor; auto.
  - inversion H; subst; [apply m_alt_l | apply m_alt_r]; auto.
  - inversion H as [ | | ? ? x1 y1 H1 H2 | | | | ]; subst.
    change (c :: x1 ++ y1) with ((c :: x1) ++ y1). constructor; auto.
Qed.

(** [re_match r s] holds exactly when a prefix of [s] is in the language of
    [r]. *)
Lemma re_match_iff s : forall r,
  re_match r s = true <-> exists x y, s = x ++ y /\ matches r x.
Proof.
  induction s as [|c s IH]; intros r; simpl.
  - rewrite orb_false_r. split.
    + intros H. exists [], []. split; [reflexivity | now apply nullable_matches_nil].
    + intros (x & y & Hxy & Hm). symmetry in Hxy. apply app_eq_nil in Hxy.
      destruct Hxy as [-> _]. now apply matches_nil_nullable.
  - rewrite orb_true_iff, IH. split.
    + intros [H | (x & y & -> & Hm)].
      * exists [], (c :: s). split; [reflexivity | now apply nullable_matches_nil].
      * exists (c :: x), y. split; [reflexivity | now apply matches_deriv_cons].
    + intros (x & y & Hxy & Hm). destruct x as [|d x].
      * left. now apply matches_nil_nullable.
      * right. simpl in Hxy. injection Hxy as <- ->.
        exists x, y. split; [reflexivity | now apply matches_cons_deriv].
Qed.

(** The languages of the pieces the caption patterns are made of. *)
Lemma matches_lit m x : matches (lit m) x <-> x = m.
Proof.
  revert x. induction m as [|c m IH]; intros x; simpl.
  - split; [now inversion 1 | intros ->; constructor].
  - split.
    + inversion 1 as [ | | ? ? x1 y1 H1 H2 | | | | ]; subst.
      inversion H1 as [ | ? d Hd | | | | | ]; subst.
      apply N.eqb_eq in Hd. subst d. apply IH in H2. now subst.
    + intros ->. change (c :: m) with ([c] ++ m).
      constructor; [constructor; apply N.eqb_refl | now apply IH].
Qed.

Lemma matches_star_cls f x :
  matches (Star (Cls f)) x <-> forallb f x = true.
Proof.
  split.
  - intros H. remember (Star (Cls f)) as r eqn:Hr.
    induction H as [ | | | | | r | r x y Hx _ Hy IH ]; try discriminate.
    + reflexivity.
    + injection Hr as ->. inversion Hx; subst. simpl.
      rewrite IH by reflexivity. now rewrite andb_true_r.
  - induction x as [|c x IH]; simpl; intros H; [constructor|].
    apply andb_true_iff in H. destruct H as [Hc Hx].
    change (c :: x) with ([c] ++ x). constructor; [now constructor | auto].
Qed.

Lemma matches_plus_cls f x :
  matches (plus (Cls f)) x <-> x <> [] /\ forallb f x = true.
Proof.
  unfold plus. split.
  - inversion 1 as [ | | ? ? x1 y1 H1 H2 | | | | ]; subst.
    inversion H1; subst. apply matches_star_cls in H2. simpl.
    split; [discriminate|]. apply andb_true_iff. tauto.
  - intros [Hne H]. destruct x as [|c x]; [congruence|].
    simpl in H. apply andb_true_iff in H. destruct H as [Hc Hx].
    change (c :: x) with ([c] ++ x).
    constructor; [now constructor | now apply matches_star_cls].
Qed.

End Regex.

(* ------------------------------------------------------------------ *)
(** ** Captions *)

Section Captions.

Variable is_decimal : N -> bool.

Lemma matches_marker_number m x :
  matches (Cat (lit m) (Cat (Star (Cls is_space)) (plus (Cls is_decimal)))) x
  <-> exists ws ds, x = m ++ ws ++ ds
        /\ forallb is_space ws = true /\ ds <> [] /\ forallb is_decimal ds = true.
Proof.
  split.
  - inversion 1 as [ | | ? ? x1 y1 H1 H2 | | | | ]; subst.
    inversion H2 as [ | | ? ? x2 y2 H3 H4 | | | | ]; subst.
    apply matches_lit in H1. apply matches_star_cls in H3.
    apply matches_plus_cls in H4. subst x1. exists x2, y2. tauto.
  - intros (ws & ds & -> & Hws & Hne & Hds).
    constructor; [now apply matches_lit|].
    constructor; [now apply matches_star_cls | now apply matches_plus_cls].
Qed.

Lemma re_match_marker_number m txt :
  re_match (Cat (lit m) (Cat (Star (Cls is_space)) (plus (Cls is_decimal)))) txt = true
  <-> caption_text is_decimal m txt.
Proof.
  rewrite re_match_iff. unfold caption_text. split.
  - intros (x & y & -> & Hm). apply matches_marker_number in Hm.
    destruct Hm as (ws & ds & -> & H). exists ws, ds, y.
    split; [now rewrite <- !app_assoc | exact H].
  - intros (ws & ds & rest & -> & H). exists (m ++ ws ++ ds), rest.
    split; [now rewrite <- !app_assoc|]. apply matches_marker_number.
    now exists ws, ds.
Qed.

(** The text of a caption, as the two patterns describe it. *)
Lemma is_caption_iff txt :
  is_caption is_decimal txt = true
  <-> caption_text is_decimal (u "Рис.") txt
      \/ caption_text is_decimal (u "Таблиця") txt.
Proof.
  unfold is_caption, FIGURE_RE, TABLE_RE.
  now rewrite orb_true_iff, !re_match_marker_number.
Qed.










End Captions.



(** With the marker of the template the same run gives the finding, and a
    run at 12 pt gives none. *)
Example caption_sizes :
  caption_issues ascii_digit (caption_paragraph (u "Рис. 1 Схема") 10)
  = [caption_finding (u "Рис. 1 Схема") 10]
  /\ caption_issues ascii_digit (caption_paragraph (u "Таблиця 2 Дані") 10)
     = [caption_finding (u "Таблиця 2 Дані") 10]
  /\ caption_issues ascii_digit (caption_paragraph (u "Рис. 1 Схема") 12) = [].
Proof. repeat split; vm_compute; reflexivity. Qed.

(* ------------------------------------------------------------------ *)
(** ** The length heuristic *)

Section Length.


























End Length.


(* ------------------------------------------------------------------ *)
(** ** Page setup on example documents *)

(** A margin of exactly the configured number of twips fails the test. *)
Lemma configured_margin_off rules :
  (1 <= margin_twips rules)%Z ->
  margin_off rules (Length.Twips (margin_twips rules)) = true.
Proof.
  intros H. unfold margin_off, Length.Twips, Length.EMUS_PER_TWIP, MARGIN_TWIPS_TOL.
  apply Z.gtb_lt. lia.
Qed.

(** C3 (_check_page_setup): a defect.  The check compares
    [int(section.top_margin)] and the like, counts of EMU, with
    [margin_twips], a number of twips, within the tolerance of 40.  The
    section of an A4 page with four margins of 20 mm, as Word stores it
    (1134 twips, which python-docx returns as 720090 EMU), has on every side
    the configured margin when read in twips, and gets four MARGIN_NOT_20MM
    findings under the default rules, one for each side; the document that
    the validator accepts fails when its section is this one.  For every
    configured margin of one twip or more, a margin of exactly that many
    twips fails the test. *)
Theorem margins_of_20mm_flagged :
  Forall (fun m => Length.twips m = margin_twips default_rules) (margins word_section)
  /\ section_findings "MARGIN_NOT_20MM" 0 (_check_page_setup word_document default_rules)
     = [margin_finding default_rules 0 (u "top") 720090;
        margin_finding default_rules 0 (u "bottom") 720090;
        margin_finding default_rules 0 (u "left") 720090;
        margin_finding default_rules 0 (u "right") 720090]
  /\ ok (fst (validate_thesis_docx simple_lower simple_upper ascii_digit
                good_document None [])) = true
  /\ ok (fst (validate_thesis_docx simple_lower simple_upper ascii_digit
                word_good_document None [])) = false
  /\ forall rules, (1 <= margin_twips rules)%Z ->
       margin_off rules (Length.Twips (margin_twips rules)) = true.
Proof.
  split; [repeat constructor|].
  split; [vm_compute; reflexivity|].
  split; [vm_compute; reflexivity|].
  split; [vm_compute; reflexivity|].
  exact configured_margin_off.
Qed.

(** A section whose header and footer both have text gets one
    HEADER_FOOTER_PRESENT finding. *)
Lemma header_footer_witness :
  section_findings "HEADER_FOOTER_PRESENT" 1
    (_check_page_setup
       (two_sections 1134 [text_paragraph (u "Thesis")] [text_paragraph (u "1")])
       default_rules)
  = [issue "HEADER_FOOTER_PRESENT" ERROR
       [Txt (u "Колонтитулы запрещены (header/footer должен быть пустым).")]
       (Some [("section", DInt 1)])].
Proof.
  destruct (@header_footer_at_most_once default_rules
              (two_sections 1134 [text_paragraph (u "Thesis")] [text_paragraph (u "1")])
              1%nat) as [_ H].
  destruct (H (accepted_section 1134 [text_paragraph (u "Thesis")] [text_paragraph (u "1")])
              eq_refl) as [H1 _].
  apply H1.
  exists (text_paragraph (u "Thesis")). split; [left; reflexivity|].
  vm_compute. reflexivity.
Defined.

(* ------------------------------------------------------------------ *)
(** ** The run as a whole *)

Section Verdict.

Variable str_lower : pystr -> pystr.
Variable str_upper : pystr -> pystr.
Variable is_decimal : N -> bool.

Local Abbreviation validate := (validate_thesis_docx str_lower str_upper is_decimal).

(** X1 (validate_thesis_docx): a run adds one list to the heap and changes
    no list that was there; the report refers to the new list, which holds
    the findings of the six checks in the order page setup, header, body,
    literature, captions, length. *)
Theorem run_findings_in_order doc rules (h : Heap.heap) :
  let (rep, h') := validate doc rules h in
  length h' = S (length h)
  /\ issues rep = length h
  /\ (forall l, (l < length h)%nat -> Heap.deref h' l = Heap.deref h l)
  /\ Heap.deref h' (issues rep)
     = _check_page_setup doc (or_default rules)
       ++ _check_header_structure str_upper doc (or_default rules)
       ++ _check_body_paragraphs str_lower doc (or_default rules)
       ++ _check_literature str_lower is_decimal doc (or_default rules)
       ++ _check_captions is_decimal doc
       ++ _check_length_heuristic doc.
Proof.
  rewrite validate_run. cbn [issues].
  split; [rewrite length_app; cbn [length]; lia|].
  split; [reflexivity|].
  split; [intros l Hl; now apply deref_frame|].
  apply deref_fresh.
Qed.

Ltac coded_cases :=
  repeat match goal with
  | |- Forall _ (_ ++ _) => apply Forall_app; split
  | |- Forall _ [] => constructor
  | |- Forall _ (_ :: _) => constructor; [reflexivity|]
  | |- Forall _ (if ?b then _ else _) => destruct b
  | |- Forall _ (match ?x with _ => _ end) => destruct x
  end.

Lemma Forall_first_issue (P : ValidationIssue -> Prop) f rs :
  (forall r i, f r = Some i -> P i) -> Forall P (first_issue f rs).
Proof.
  intros H. induction rs as [|r rs IH]; simpl; [constructor|].
  destruct (f r) as [i|] eqn:Hf; [|exact IH].
  constructor; [now apply (H r) | constructor].
Qed.

Lemma Forall_flat_map_all {A} (P : ValidationIssue -> Prop)
    (f : A -> list ValidationIssue) l :
  (forall x, Forall P (f x)) -> Forall P (flat_map f l).
Proof.
  intros H. apply Forall_flat_map. apply Forall_forall. intros x _. apply H.
Qed.

Lemma page_setup_coded doc rules :
  Forall (fun i => well_coded i = true) (_check_page_setup doc rules).
Proof.
  apply Forall_flat_map_all. intros [idx s]. unfold section_issues.
  coded_cases.
  apply Forall_flat_map_all. intros [name value]. unfold margin_issues.
  coded_cases.
Qed.

Lemma paragraph_font_coded p rules must_bold must_italic where_ :
  Forall (fun i => well_coded i = true)
    (_check_paragraph_font p rules must_bold must_italic where_).
Proof. unfold _check_paragraph_font. coded_cases. Qed.

Lemma header_coded doc rules :
  Forall (fun i => well_coded i = true) (_check_header_structure str_upper doc rules).
Proof.
  unfold _check_header_structure.
  destruct (nonempty_paragraphs doc) as [|t [|a [|o rest]]];
    try (repeat constructor).
  coded_cases; try apply paragraph_font_coded.
  cbn [flat_map]. unfold center_issues. coded_cases.
Qed.

Lemma body_run_coded rules txt r i :
  body_run_issue rules txt r = Some i -> well_coded i = true.
Proof.
  unfold body_run_issue.
  repeat match goal with
  | |- context [if ?b then _ else _] => destruct b
  | |- context [match ?x with _ => _ end] => destruct x
  end; intros [=]; subst; reflexivity.
Qed.

Lemma body_coded doc rules :
  Forall (fun i => well_coded i = true) (_check_body_paragraphs str_lower doc rules).
Proof.
  apply Forall_flat_map_all. intros p. unfold body_paragraph_issues.
  destruct (negb _); [constructor|].
  repeat (apply Forall_app; split).
  - coded_cases.
  - destruct (Paragraph.line_spacing p) as [[q|z]|]; cbn [isinstance_int_float];
      coded_cases.
  - coded_cases.
  - apply Forall_first_issue. intros r i. apply body_run_coded.
Qed.

Lemma literature_coded doc rules :
  Forall (fun i => well_coded i = true)
    (_check_literature str_lower is_decimal doc rules).
Proof. unfold _check_literature. coded_cases. Qed.

Lemma caption_run_coded txt r i :
  caption_run_issue txt r = Some i -> well_coded i = true.
Proof.
  unfold caption_run_issue.
  repeat match goal with
  | |- context [if ?b then _ else _] => destruct b
  | |- context [match ?x with _ => _ end] => destruct x
  end; intros [=]; subst; reflexivity.
Qed.

Lemma captions_coded doc :
  Forall (fun i => well_coded i = true) (_check_captions is_decimal doc).
Proof.
  apply Forall_flat_map_all. intros p. unfold caption_issues.
  coded_cases.
  apply Forall_first_issue. intros r i. apply caption_run_coded.
Qed.

Lemma length_coded doc :
  Forall (fun i => well_coded i = true) (_check_length_heuristic doc).
Proof. unfold _check_length_heuristic. coded_cases. Qed.

Lemma all_issues_coded doc rules :
  Forall (fun i => well_coded i = true)
    (all_issues str_lower str_upper is_decimal doc rules).
Proof.
  unfold all_issues.
  apply Forall_app; split; [apply page_setup_coded|].
  apply Forall_app; split; [apply header_coded|].
  apply Forall_app; split; [apply body_coded|].
  apply Forall_app; split; [apply literature_coded|].
  apply Forall_app; split; [apply captions_coded | apply length_coded].
Qed.

Lemma code_in_disjoint cs ds i :
  disjoint_codes cs ds = true -> code_in cs i = true -> code_in ds i = false.
Proof.
  intros Hd Hi. unfold code_in in *.
  apply existsb_exists in Hi. destruct Hi as (c & Hc & Heq).
  apply String.eqb_eq in Heq. rewrite Heq.
  unfold disjoint_codes in Hd. rewrite forallb_forall in Hd.
  apply negb_true_iff. now apply Hd.
Qed.

Lemma well_coded_error i :
  well_coded i = true -> (severity i <> ERROR <-> code_in ERROR_CODES i = false).
Proof.
  unfold well_coded. destruct (severity i); intros H.
  - rewrite H. split; [congruence | discriminate].
  - split; [intros _|discriminate].
    now apply (@code_in_disjoint WARNING_CODES ERROR_CODES).
Qed.

(** X2 (validate_thesis_docx and the six checks): every finding of a run has
    one of twenty-six codes, and its severity is fixed by its code: twelve
    codes are always ERROR, fourteen always WARNING.  So [ok] is true exactly
    when no finding has one of the twelve ERROR codes; body, caption and
    length findings never fail a document. *)
Theorem verdict_by_code doc rules (h : Heap.heap) :
  let (ok, issues) := run_report (validate doc rules h) in
  Forall (fun i => well_coded i = true) issues
  /\ (ok = true <-> Forall (fun i => code_in ERROR_CODES i = false) issues).
Proof.
  rewrite validate_run. unfold run_report. cbn [fst snd ok issues].
  rewrite deref_fresh, negb_true_iff, any_error_false.
  pose proof (all_issues_coded doc rules) as Hc.
  split; [exact Hc|].
  induction Hc as [|i l Hi _ IH].
  - split; constructor.
  - split; intros H; inversion H; subst; constructor;
      try (now apply IH); now apply (well_coded_error i Hi).
Qed.

End Verdict.

(* ------------------------------------------------------------------ *)
(** ** More on page setup *)

Section PageSize.

Variable rules : ThesisStyleRules.

Lemma is_A4_iff w h :
  is_A4 w h = true
  <-> (11700 <= w <= 12150 /\ 16600 <= h <= 17050)%Z.
Proof.
  unfold is_A4. rewrite !andb_true_iff, !Z.leb_le. tauto.
Qed.

Lemma section_page_issues idx s :
  filter (has_code "PAGE_NOT_A4") (section_issues rules (idx, s))
  = if is_A4 (DocSection.page_width s) (DocSection.page_height s) then []
    else [issue "PAGE_NOT_A4" WARNING
            [Txt (u "Формат страницы отличается от A4 (ожидается 297x210 мм).")]
            (Some [("section", DInt (Z.of_nat idx));
                   ("page_width_twips", DInt (DocSection.page_width s));
                   ("page_height_twips", DInt (DocSection.page_height s))])].
Proof.
  unfold section_issues. rewrite !filter_app.
  assert (Hm : forall side, filter (has_code "PAGE_NOT_A4")
                 (margin_issues rules idx side) = []).
  { intros [name value]. unfold margin_issues. now destruct (Z.abs _ >? _)%Z. }
  cbn [flat_map]. rewrite !filter_app, !Hm.
  destruct (is_A4 _ _), (_section_has_header_footer_text s); reflexivity.
Qed.

(** X3 (_check_page_setup): for a section of the document, the check emits
    no PAGE_NOT_A4 finding when the integers it reads for the width and the
    height are within 11700..12150 and 16600..17050, and otherwise exactly
    one, a WARNING that carries the two integers.  The bounds are those of
    A4 in twips and the integers count EMU: every page wider than 12150 EMU,
    a third of a millimetre, is reported, so every page of 20 twips or more
    in width, the A4 page among them. *)
Theorem page_size_band doc idx s :
  nth_error (sections doc) idx = Some s ->
  let w := DocSection.page_width s in
  let h := DocSection.page_height s in
  let found := section_findings "PAGE_NOT_A4" idx (_check_page_setup doc rules) in
  ((11700 <= w <= 12150 /\ 16600 <= h <= 17050)%Z -> found = [])
  /\ (~ (11700 <= w <= 12150 /\ 16600 <= h <= 17050)%Z ->
      found = [issue "PAGE_NOT_A4" WARNING
                 [Txt (u "Формат страницы отличается от A4 (ожидается 297x210 мм).")]
                 (Some [("section", DInt (Z.of_nat idx));
                        ("page_width_twips", DInt w);
                        ("page_height_twips", DInt h)])])
  /\ ((12150 < w)%Z -> found <> [])
  /\ (forall n, (20 <= n)%Z -> w = Length.Twips n -> found <> []).
Proof.
  intros Hs w h found. subst found.
  rewrite section_findings_nth, Hs, section_page_issues. fold w h.
  destruct (is_A4 w h) eqn:E.
  - apply is_A4_iff in E. split; [reflexivity|]. split; [tauto|].
    split; [lia|]. intros n Hn Hw.
    unfold Length.Twips, Length.EMUS_PER_TWIP in Hw. lia.
  - assert (Hn : ~ (11700 <= w <= 12150 /\ 16600 <= h <= 17050)%Z)
      by (intros H; apply is_A4_iff in H; congruence).
    split; [tauto|]. split; [reflexivity|]. split; [discriminate|].
    intros; discriminate.
Qed.

Lemma section_issues_length idx s :
  (length (section_issues rules (idx, s)) <= 6)%nat.
Proof.
  unfold section_issues. cbn [flat_map].
  rewrite !length_app, !margin_issues_length.
  destruct (negb _), (margin_off _ _), (margin_off _ _), (margin_off _ _),
    (margin_off _ _), (_section_has_header_footer_text s); simpl; lia.
Qed.

Lemma enumerate_from_spec {A} (l : list A) : forall k i x,
  In (i, x) (enumerate_from k l) -> (k <= i < k + length l)%nat.
Proof.
  induction l as [|y l IH]; intros k i x H; [destruct H|].
  simpl in H. destruct H as [[= <- <-] | H]; [simpl; lia|].
  apply IH in H. simpl. lia.
Qed.

Lemma flat_map_length_le {A B} (f : A -> list B) n l :
  (forall x, In x l -> (length (f x) <= n)%nat) ->
  (length (flat_map f l) <= n * length l)%nat.
Proof.
  induction l as [|x l IH]; intros H; simpl; [lia|].
  rewrite length_app.
  assert (length (f x) <= n)%nat by (apply H; now left).
  assert (length (flat_map f l) <= n * length l)%nat
    by (apply IH; intros y Hy; apply H; now right).
  lia.
Qed.

Lemma enumerate_from_length {A} (l : list A) k :
  length (enumerate_from k l) = length l.
Proof. revert k. induction l as [|x l IH]; intros k; simpl; [|rewrite IH]; reflexivity. Qed.

(** X4 (_check_page_setup): the check returns at most six findings for each
    section (page size, four sides, header or footer), none for a document
    without sections, and every finding carries in its details the index of
    a section of the document. *)
Theorem page_setup_bounded doc :
  (length (_check_page_setup doc rules) <= 6 * length (sections doc))%nat
  /\ (sections doc = [] -> _check_page_setup doc rules = [])
  /\ Forall (fun i => exists idx, (idx < length (sections doc))%nat
                        /\ detail "section" i = Some (DInt (Z.of_nat idx)))
       (_check_page_setup doc rules).
Proof.
  unfold _check_page_setup, enumerate. split; [|split].
  - rewrite <- (enumerate_from_length (sections doc) 0).
    apply flat_map_length_le. intros [idx s] _. apply section_issues_length.
  - intros ->. reflexivity.
  - apply Forall_flat_map. apply Forall_forall. intros [idx s] Hin.
    apply enumerate_from_spec in Hin.
    eapply Forall_impl; [|apply section_issues_about].
    intros i Hi. exists idx. split; [lia | exact Hi].
Qed.

End PageSize.

(** The A4 page as python-docx returns it, 7560310 by 10692130 EMU, is
    reported. *)
Lemma page_size_band_witness :
  section_findings "PAGE_NOT_A4" 0 (_check_page_setup word_document default_rules)
  = [issue "PAGE_NOT_A4" WARNING
       [Txt (u "Формат страницы отличается от A4 (ожидается 297x210 мм).")]
       (Some [("section", DInt 0); ("page_width_twips", DInt 7560310);
              ("page_height_twips", DInt 10692130)])].
Proof.
  destruct (@page_size_band default_rules word_document 0%nat word_section eq_refl)
    as (_ & H & _).
  apply H. vm_compute. intros [[_ Hw] _]. apply Hw. reflexivity.
Defined.

(* ------------------------------------------------------------------ *)
(** ** The flag require_bold_header *)

Section BoldFlag.

Variable str_lower : pystr -> pystr.
Variable str_upper : pystr -> pystr.
Variable is_decimal : N -> bool.

(** X5 (validate_thesis_docx, _check_header_structure): the rule
    [require_bold_header] is read nowhere: the header check asks for bold on
    the three header lines whatever its value, and a run with the flag set
    either way gives the same report. *)
Theorem bold_flag_has_no_effect doc rules b (h : Heap.heap) :
  validate_thesis_docx str_lower str_upper is_decimal doc
    (Some (with_bold_header b rules)) h
  = validate_thesis_docx str_lower str_upper is_decimal doc (Some rules) h
  /\ _check_header_structure str_upper doc (with_bold_header b rules)
     = _check_header_structure str_upper doc rules.
Proof.
  assert (Hh : _check_header_structure str_upper doc (with_bold_header b rules)
               = _check_header_structure str_upper doc rules)
    by (destruct rules; reflexivity).
  split; [|exact Hh].
  rewrite !validate_run. unfold all_issues, or_default. rewrite Hh.
  assert (Hp : _check_page_setup doc (with_bold_header b rules)
               = _check_page_setup doc rules) by (destruct rules; reflexivity).
  assert (Hb : _check_body_paragraphs str_lower doc (with_bold_header b rules)
               = _check_body_paragraphs str_lower doc rules)
    by (destruct rules; reflexivity).
  assert (Hl : _check_literature str_lower is_decimal doc (with_bold_header b rules)
               = _check_literature str_lower is_decimal doc rules)
    by (destruct rules; reflexivity).
  now rewrite Hp, Hb, Hl.
Qed.

End BoldFlag.

(* ------------------------------------------------------------------ *)
(** ** More on the header *)

Section HeaderLines.

Variable str_upper : pystr -> pystr.
Variable rules : ThesisStyleRules.

(** X6 (_check_paragraph_font): the findings of one call have pairwise
    different codes, so each defect is reported once for the paragraph
    however many runs show it; there are at most four, all with the label of
    the block in their details; a paragraph without text gives none; and
    HEADER_NOT_BOLD (AUTHORS_NOT_ITALIC) is emitted only when bold (italic)
    is asked for. *)
Theorem paragraph_font_once p must_bold must_italic where_ :
  let out := _check_paragraph_font p rules must_bold must_italic where_ in
  NoDup (map code out)
  /\ (length out <= 4)%nat
  /\ (nonblank (Paragraph.text p) = false -> out = [])
  /\ (must_bold = false -> emitted "HEADER_NOT_BOLD" out = false)
  /\ (must_italic = false -> emitted "AUTHORS_NOT_ITALIC" out = false)
  /\ Forall (fun i => detail "where" i = Some (DStr where_)) out.
Proof.
  unfold _check_paragraph_font.
  change (truthy (strip (Paragraph.text p))) with (nonblank (Paragraph.text p)).
  destruct (nonblank (Paragraph.text p)); cbn [negb]; cbv zeta.
  - set (fl := font_flags rules must_bold must_italic (Paragraph.runs p)).
    destruct must_bold, must_italic, (bad_name fl), (bad_size fl), (bad_bold fl),
      (bad_italic fl), (any_run fl), (unknown_font fl);
      cbn [negb andb orb app map code issue length];
      (split; [repeat constructor; cbn [In]; intuition discriminate|]);
      (split; [lia|]);
      (split; [discriminate|]);
      (split; [try reflexivity; discriminate|]);
      (split; [try reflexivity; discriminate|]);
      repeat constructor.
  - split; [constructor|]. split; [simpl; lia|]. repeat split; constructor.
Qed.

Lemma paragraph_font_only p must_bold must_italic where_ :
  emits_only FONT_CODES (_check_paragraph_font p rules must_bold must_italic where_).
Proof.
  unfold _check_paragraph_font, emits_only.
  repeat match goal with
  | |- Forall _ (_ ++ _) => apply Forall_app; split
  | |- Forall _ [] => constructor
  | |- Forall _ (_ :: _) => constructor; [reflexivity|]
  | |- Forall _ (if ?b then _ else _) => destruct b
  end.
Qed.

Lemma emitted_none cs c l :
  emits_only cs l -> existsb (String.eqb c) cs = false -> emitted c l = false.
Proof.
  intros Hl Hc. unfold emitted. induction Hl as [|i l Hi _ IH]; [reflexivity|].
  simpl. rewrite IH, orb_false_r. unfold has_code.
  destruct (String.eqb (code i) c) eqn:E; [|reflexivity].
  apply String.eqb_eq in E. unfold code_in in Hi. rewrite E in Hi. congruence.
Qed.

Lemma center_issues_cases c p label :
  center_issues (c, p, label)
  = if is_center p then []
    else [issue c ERROR
            [Txt (u "Строка «"); Txt label; Txt (u "» должна быть выровнена по центру.")]
            (Some [("text", DStr (strip (Paragraph.text p)))])].
Proof.
  unfold center_issues, is_center.
  destruct (Paragraph.alignment p) as [[]|]; reflexivity.
Qed.

Lemma is_center_iff p : is_center p = true <-> Paragraph.alignment p = Some CENTER.
Proof.
  unfold is_center. destruct (Paragraph.alignment p) as [[]|];
    split; (reflexivity || discriminate).
Qed.

Lemma pystr_eqb_eq s t : PyStr.eqb s t = true <-> s = t.
Proof.
  revert t. induction s as [|c s IH]; intros [|d t]; simpl;
    try (split; (reflexivity || discriminate)).
  rewrite andb_true_iff, N.eqb_eq, IH. split.
  - intros [-> ->]. reflexivity.
  - intros [= -> ->]. split; reflexivity.
Qed.

Lemma contains_In c s : contains c s = true <-> In c s.
Proof.
  unfold contains. rewrite existsb_exists. split.
  - intros (d & Hd & E). apply N.eqb_eq in E. now subst.
  - intros H. exists c. split; [exact H | apply N.eqb_refl].
Qed.

(** What the header check emits of its own codes, as booleans. *)
Lemma header_emitted doc t a o rest :
  nonempty_paragraphs doc = t :: a :: o :: rest ->
  let out := _check_header_structure str_upper doc rules in
  emitted "HEADER_TOO_SHORT" out = false
  /\ emitted "TITLE_NOT_CENTER" out = header_centered rules && negb (is_center t)
  /\ emitted "AUTHORS_NOT_CENTER" out = header_centered rules && negb (is_center a)
  /\ emitted "ORG_NOT_CENTER" out = header_centered rules && negb (is_center o)
  /\ emitted "TITLE_NOT_UPPERCASE" out
     = title_uppercase rules && truthy (strip (Paragraph.text t))
       && negb (PyStr.eqb (strip (Paragraph.text t))
                  (str_upper (strip (Paragraph.text t))))
  /\ emitted "AUTHORS_LIST_FORMAT" out = negb (contains 44 (Paragraph.text a))
  /\ emitted "AUTHORS_INITIALS_PATTERN" out
     = negb (re_search INITIALS_RE (Paragraph.text a)).
Proof.
  intros Hne out. subst out. unfold _check_header_structure. rewrite Hne.
  cbv zeta. unfold emitted. rewrite !existsb_app.
  assert (Hf : forall c p mb mi w, existsb (String.eqb c) FONT_CODES = false ->
            existsb (has_code c) (_check_paragraph_font p rules mb mi w) = false)
    by (intros c p mb mi w Hc;
        exact (@emitted_none FONT_CODES c _ (paragraph_font_only p mb mi w) Hc)).
  rewrite !Hf by reflexivity.
  cbn [flat_map]. rewrite !center_issues_cases.
  destruct (header_centered rules), (is_center t), (is_center a), (is_center o),
    (title_uppercase rules && truthy (strip (Paragraph.text t))
     && negb (PyStr.eqb (strip (Paragraph.text t))
                (str_upper (strip (Paragraph.text t))))),
    (negb (contains 44 (Paragraph.text a))),
    (negb (re_search INITIALS_RE (Paragraph.text a)));
    repeat split; reflexivity.
Qed.

Lemma first_nonempty doc t rest :
  nonempty_paragraphs doc = t :: rest -> nonblank (Paragraph.text t) = true.
Proof.
  intros H. assert (Hin : In t (nonempty_paragraphs doc)) by (rewrite H; now left).
  unfold nonempty_paragraphs in Hin. now apply filter_In in Hin.
Qed.

(** X7 (_check_header_structure): when the document has at least three
    non-empty paragraphs, the first three are title, authors and
    organization, and the check never emits HEADER_TOO_SHORT.  With
    centering required, a line is reported exactly when its alignment is not
    CENTER, an unset alignment included; with centering not required none is.
    TITLE_NOT_UPPERCASE is emitted exactly when upper case is required and
    the stripped title differs from its upper-cased form; AUTHORS_LIST_FORMAT
    exactly when the authors line has no comma. *)
Theorem header_line_checks doc t a o rest :
  nonempty_paragraphs doc = t :: a :: o :: rest ->
  let out := _check_header_structure str_upper doc rules in
  emitted "HEADER_TOO_SHORT" out = false
  /\ (emitted "TITLE_NOT_CENTER" out = true
      <-> header_centered rules = true /\ Paragraph.alignment t <> Some CENTER)
  /\ (emitted "AUTHORS_NOT_CENTER" out = true
      <-> header_centered rules = true /\ Paragraph.alignment a <> Some CENTER)
  /\ (emitted "ORG_NOT_CENTER" out = true
      <-> header_centered rules = true /\ Paragraph.alignment o <> Some CENTER)
  /\ (emitted "TITLE_NOT_UPPERCASE" out = true
      <-> title_uppercase rules = true
          /\ strip (Paragraph.text t) <> str_upper (strip (Paragraph.text t)))
  /\ (emitted "AUTHORS_LIST_FORMAT" out = true <-> ~ In 44%N (Paragraph.text a)).
Proof.
  intros Hne out.
  destruct (header_emitted doc Hne) as (E0 & E1 & E2 & E3 & E4 & E5 & _).
  fold out in E0, E1, E2, E3, E4, E5.
  assert (Hc : forall p b, b && negb (is_center p) = true
                 <-> b = true /\ Paragraph.alignment p <> Some CENTER).
  { intros p b. rewrite andb_true_iff, negb_true_iff, <- is_center_iff.
    destruct (is_center p); intuition congruence. }
  split; [exact E0|].
  rewrite E1, E2, E3, E4, E5, !Hc.
  split; [tauto|]. split; [tauto|]. split; [tauto|]. split.
  - split.
    + intros H. apply andb_true_iff in H. destruct H as [H Hd].
      apply andb_true_iff in H. destruct H as [Hu _]. split; [exact Hu|].
      apply negb_true_iff in Hd. intros E. apply pystr_eqb_eq in E. congruence.
    + intros [Hu Hd]. rewrite Hu.
      change (truthy (strip (Paragraph.text t))) with (nonblank (Paragraph.text t)).
      rewrite (first_nonempty doc Hne). cbn [andb]. apply negb_true_iff.
      destruct (PyStr.eqb _ _) eqn:E; [|reflexivity].
      apply pystr_eqb_eq in E. contradiction.
  - split.
    + intros H E. apply negb_true_iff in H. apply contains_In in E. congruence.
    + intros H. apply negb_true_iff. destruct (contains 44 _) eqn:E; [|reflexivity].
      apply contains_In in E. contradiction.
Qed.

Lemma filter_code_none cs c l :
  emits_only cs l -> existsb (String.eqb c) cs = false -> filter (has_code c) l = [].
Proof.
  intros Hl Hc. induction Hl as [|i l Hi _ IH]; [reflexivity|].
  simpl. rewrite IH. unfold has_code.
  destruct (String.eqb (code i) c) eqn:E; [|reflexivity].
  apply String.eqb_eq in E. unfold code_in in Hi. rewrite E in Hi. congruence.
Qed.

(** X8 (_check_header_structure): italic is asked of the authors line only.
    The AUTHORS_NOT_ITALIC findings of the header check are those of the
    font check of the authors line: at most one, none when italic authors
    are not required, whatever the title and the organization look like. *)
Theorem italic_only_for_authors doc t a o rest :
  nonempty_paragraphs doc = t :: a :: o :: rest ->
  let found :=
    filter (has_code "AUTHORS_NOT_ITALIC") (_check_header_structure str_upper doc rules) in
  found
  = filter (has_code "AUTHORS_NOT_ITALIC")
      (_check_paragraph_font a rules true (authors_italic rules) (u "authors"))
  /\ (length found <= 1)%nat
  /\ (authors_italic rules = false -> found = []).
Proof.
  intros Hne found.
  assert (Hfound : found
    = filter (has_code "AUTHORS_NOT_ITALIC")
        (_check_paragraph_font a rules true (authors_italic rules) (u "authors"))).
  { subst found. unfold _check_header_structure. rewrite Hne. cbv zeta.
    rewrite !filter_app.
    assert (Hno : forall p w, filter (has_code "AUTHORS_NOT_ITALIC")
                    (_check_paragraph_font p rules true false w) = []).
    { intros p w. unfold _check_paragraph_font.
      destruct (negb _); [reflexivity|]. cbv zeta. rewrite !filter_app.
      cbn [andb].
      repeat match goal with
      | |- context [filter _ (if ?b then _ else _)] => destruct b
      end; reflexivity. }
    rewrite !Hno. cbn [flat_map]. rewrite !center_issues_cases.
    destruct (header_centered rules), (is_center t), (is_center a), (is_center o),
      (title_uppercase rules && _ && _), (negb (contains 44 _)),
      (negb (re_search _ _)); cbn [filter app has_code code issue String.eqb
        Ascii.eqb Bool.eqb andb]; now rewrite ?app_nil_r. }
  split; [exact Hfound|]. rewrite Hfound.
  unfold _check_paragraph_font.
  destruct (negb _); [split; [simpl; lia | reflexivity]|]. cbv zeta.
  rewrite !filter_app.
  destruct (authors_italic rules); cbn [andb].
  - split; [|discriminate].
    repeat match goal with
    | |- context [filter _ (if ?b then _ else _)] => destruct b
    end; simpl; lia.
  - split; [|intros _];
    repeat match goal with
    | |- context [filter _ (if ?b then _ else _)] => destruct b
    end; simpl; (lia || reflexivity).
Qed.

End HeaderLines.

(* ------------------------------------------------------------------ *)
(** ** Rounding to binary64 *)

Section Rounding.

Local Open Scope Q_scope.

(** Rounding to the nearest integer. *)
Lemma py_round_floor q : (Qfloor q <= py_round q <= Qfloor q + 1)%Z.
Proof.
  unfold py_round. destruct (Qcompare _ _); [destruct (Z.even _)| |]; lia.
Qed.

Lemma py_round_ge (n : Z) q : inject_Z n <= q -> (n <= py_round q)%Z.
Proof.
  intros H. apply Qfloor_resp_le in H. rewrite Qfloor_Z in H.
  pose proof (py_round_floor q). lia.
Qed.

Lemma floor_lt (n : Z) q : q < inject_Z n -> (Qfloor q < n)%Z.
Proof.
  intros H. destruct (Z.lt_ge_cases (Qfloor q) n) as [|Hge]; [assumption|].
  exfalso. pose proof (Qfloor_le q) as Hf.
  assert (inject_Z n <= inject_Z (Qfloor q)) by (rewrite <- Zle_Qle; lia).
  lra.
Qed.

Lemma py_round_le (n : Z) q : q <= inject_Z n -> (py_round q <= n)%Z.
Proof.
  intros H. destruct (Qlt_le_dec q (inject_Z n)) as [Hlt|Hge].
  - apply floor_lt in Hlt. pose proof (py_round_floor q). lia.
  - assert (Hq : q == inject_Z n) by (apply Qle_antisym; assumption).
    assert (Hf : Qfloor q = n) by (rewrite Hq; apply Qfloor_Z).
    unfold py_round. rewrite Hf.
    assert (Hc : (q - inject_Z n ?= 1 # 2) = Lt). { apply (proj1 (Qlt_alt _ _)). lra. }
    rewrite Hc. lia.
Qed.

Lemma py_round_half_down (n : Z) q :
  q <= inject_Z n + (1 # 2) -> Z.even n = true -> (py_round q <= n)%Z.
Proof.
  intros H He.
  assert (Hfl : (Qfloor q <= n)%Z).
  { assert (q < inject_Z (n + 1)) by (rewrite inject_Z_plus; change (inject_Z 1) with 1; lra).
    apply floor_lt in H0. lia. }
  destruct (Z.eq_dec (Qfloor q) n) as [Hf|Hf].
  - unfold py_round. rewrite Hf.
    destruct (Qcompare_spec (q - inject_Z n) (1 # 2)); [rewrite He| |]; try lia. lra.
  - pose proof (py_round_floor q). lia.
Qed.

Lemma py_round_half_up (n : Z) q :
  inject_Z n + (1 # 2) < q -> (n + 1 <= py_round q)%Z.
Proof.
  intros H.
  assert (Hfl : (n <= Qfloor q)%Z).
  { assert (Hn : inject_Z n <= q) by lra.
    apply Qfloor_resp_le in Hn. now rewrite Qfloor_Z in Hn. }
  destruct (Z.eq_dec (Qfloor q) n) as [Hf|Hf].
  - unfold py_round. rewrite Hf.
    destruct (Qcompare_spec (q - inject_Z n) (1 # 2)); try lia; lra.
  - pose proof (py_round_floor q). lia.
Qed.

#[global] Instance py_round_comp : Proper (Qeq ==> eq) py_round.
Proof.
  intros x y H. unfold py_round. 
  assert (Hf : Qfloor x = Qfloor y) by now rewrite H.
  rewrite Hf. now rewrite H.
Qed.

(** Powers of two. *)
Lemma pow2_pos e : 0 < 2 ^ e.
Proof. apply Qpower_0_lt. reflexivity. Qed.

Lemma pow2_plus a b : 2 ^ (a + b) == 2 ^ a * 2 ^ b.
Proof. apply Qpower_plus. discriminate. Qed.

Lemma pow2_le a b : (a <= b)%Z -> 2 ^ a <= 2 ^ b.
Proof. intros H. apply Qpower_le_compat_l; [assumption | discriminate]. Qed.

Lemma pow2_lt a b : (a < b)%Z -> 2 ^ a < 2 ^ b.
Proof. intros H. apply Qpower_lt_compat_l; [assumption | reflexivity]. Qed.

Lemma pow2_lt_inv a b : 2 ^ a < 2 ^ b -> (a < b)%Z.
Proof. intros H. apply Qpower_lt_compat_l_inv with (q := 2); [assumption | reflexivity]. Qed.

Lemma pow2_Z (n : Z) : (0 <= n)%Z -> 2 ^ n == inject_Z (2 ^ n).
Proof.
  intros H. pattern n. apply natlike_ind; [reflexivity| |assumption].
  intros x Hx IH. unfold Z.succ. rewrite pow2_plus, IH, Z.pow_add_r by lia.
  rewrite inject_Z_mult. reflexivity.
Qed.

Lemma Q_as_quotient (a : Q) : a * inject_Z (Zpos (Qden a)) == inject_Z (Qnum a).
Proof.
  destruct a as [p d]. unfold Qeq, Qmult, inject_Z. cbn [Qnum Qden].
  rewrite Pos.mul_1_r. ring.
Qed.

Lemma log2_bounds (n : Z) :
  (0 < n)%Z -> 2 ^ Z.log2 n <= inject_Z n /\ inject_Z n < 2 * 2 ^ Z.log2 n.
Proof.
  intros H. destruct (Z.log2_spec n H) as [H1 H2].
  pose proof (Z.log2_nonneg n) as H0.
  rewrite pow2_Z by assumption. split.
  - now rewrite <- Zle_Qle.
  - change 2 with (inject_Z 2) at 1. rewrite <- inject_Z_mult, <- Zlt_Qlt.
    replace (2 * 2 ^ Z.log2 n)%Z with (2 ^ Z.succ (Z.log2 n))%Z; [assumption|].
    rewrite Z.pow_succ_r by assumption. reflexivity.
Qed.

Lemma ilog2_crude (a : Q) :
  0 < a ->
  let k := (Z.log2 (Qnum a) - Z.log2 (Zpos (Qden a)))%Z in
  2 ^ (k - 1) <= a /\ a < 2 ^ (k + 1).
Proof.
  intros Ha k.
  assert (Hn : (0 < Qnum a)%Z) by (destruct a as [p d]; unfold Qlt in Ha; simpl in *; lia).
  destruct (log2_bounds Hn) as [Hn1 Hn2].
  destruct (@log2_bounds (Zpos (Qden a)) eq_refl) as [Hd1 Hd2].
  pose proof (Q_as_quotient a) as Hq.
  set (A := inject_Z (Qnum a)) in *. set (D := inject_Z (Zpos (Qden a))) in *.
  set (lp := Z.log2 (Qnum a)) in *. set (ld := Z.log2 (Zpos (Qden a))) in *.
  assert (E1 : 2 ^ (k + 1) * 2 ^ ld == 2 * 2 ^ lp).
  { rewrite <- pow2_plus. replace (k + 1 + ld)%Z with (1 + lp)%Z by (unfold k; lia).
    rewrite pow2_plus. reflexivity. }
  assert (E2 : 2 * 2 ^ (k - 1) * 2 ^ ld == 2 ^ lp).
  { change 2 with (2 ^ 1) at 1. rewrite <- !pow2_plus. 
    replace (1 + (k - 1) + ld)%Z with lp by (unfold k; lia). reflexivity. }
  pose proof (pow2_pos ld). pose proof (pow2_pos lp).
  pose proof (pow2_pos (k + 1)). pose proof (pow2_pos (k - 1)).
  set (X := 2 ^ (k + 1)) in *. set (Y := 2 ^ (k - 1)) in *.
  set (Pl := 2 ^ lp) in *. set (Pd := 2 ^ ld) in *.
  split.
  - destruct (Qlt_le_dec a Y) as [Hlt|]; [exfalso|assumption]. nra.
  - destruct (Qlt_le_dec a X) as [|Hge]; [assumption|exfalso]. nra.
Qed.

Lemma ilog2_spec (a : Q) :
  0 < a -> 2 ^ ilog2 a <= a /\ a < 2 ^ (ilog2 a + 1).
Proof.
  intros Ha. destruct (ilog2_crude Ha) as [H1 H2]. unfold ilog2.
  destruct (Qle_bool _ a) eqn:E.
  - apply Qle_bool_iff in E. now split.
  - split; [assumption|].
    rewrite Z.sub_add. apply Qnot_le_lt. intros H. apply Qle_bool_iff in H. congruence.
Qed.

Lemma ilog2_unique (a : Q) (e : Z) :
  2 ^ e <= a -> a < 2 ^ (e + 1) -> ilog2 a = e.
Proof.
  intros H1 H2.
  assert (Ha : 0 < a) by (pose proof (pow2_pos e); lra).
  destruct (ilog2_spec Ha) as [H3 H4].
  assert (2 ^ e < 2 ^ (ilog2 a + 1)) by lra.
  assert (2 ^ ilog2 a < 2 ^ (e + 1)) by lra.
  apply pow2_lt_inv in H, H0. lia.
Qed.

Lemma ilog2_ge (a : Q) (k : Z) : 2 ^ k <= a -> (k <= ilog2 a)%Z.
Proof.
  intros H.
  assert (Ha : 0 < a) by (pose proof (pow2_pos k); lra).
  destruct (ilog2_spec Ha) as [H3 H4].
  assert (H0 : 2 ^ k < 2 ^ (ilog2 a + 1)) by lra.
  apply pow2_lt_inv in H0. lia.
Qed.

Lemma ilog2_lt (a : Q) (k : Z) : 0 < a -> a < 2 ^ k -> (ilog2 a < k)%Z.
Proof.
  intros Ha H.
  destruct (ilog2_spec Ha) as [H3 H4].
  assert (H0 : 2 ^ ilog2 a < 2 ^ k) by lra.
  now apply pow2_lt_inv in H0.
Qed.

(** [round64] on the absolute value. *)

Lemma Qabs_of_pos (a : Q) : 0 < a -> Qabs a = a.
Proof.
  destruct a as [p d]. unfold Qlt. simpl. intros H.
  rewrite Z.abs_eq by lia. reflexivity.
Qed.

Lemma Qnum_neg (q : Q) : (Qnum q <? 0)%Z = true <-> q < 0.
Proof.
  destruct q as [p d]. unfold Qlt. simpl. rewrite Z.ltb_lt. lia.
Qed.

Lemma rounded_nonneg (a : Q) : 0 <= a -> 0 <= rounded a.
Proof.
  intros Ha. unfold rounded. pose proof (pow2_pos (ulp_exponent a)) as Hu.
  apply Qmult_le_0_compat; [|lra].
  change 0 with (inject_Z 0). rewrite <- Zle_Qle. apply py_round_ge.
  change (inject_Z 0) with 0. apply Qle_shift_div_l; [assumption|lra].
Qed.

Lemma round64_pos (a : Q) : 0 < a -> round64 a == rounded a.
Proof.
  intros Ha. unfold round64. rewrite (Qabs_of_pos Ha).
  destruct (Qeq_bool a 0) eqn:E.
  - apply Qeq_bool_iff in E. lra.
  - destruct (Qnum a <? 0)%Z eqn:En.
    + apply Qnum_neg in En. lra.
    + apply Qred_correct.
Qed.

Lemma round64_0 (q : Q) : q == 0 -> round64 q = 0.
Proof.
  intros H. unfold round64.
  assert (E : Qeq_bool (Qabs q) 0 = true) by (apply Qeq_bool_iff; rewrite H; reflexivity).
  now rewrite E.
Qed.

Lemma round64_abs (q : Q) : Qabs (round64 q) == round64 (Qabs q).
Proof.
  destruct (Qlt_le_dec 0 q) as [Hp|Hn].
  - rewrite (Qabs_of_pos Hp). apply Qabs_pos. rewrite round64_pos by assumption.
    apply rounded_nonneg. lra.
  - destruct (Qlt_le_dec q 0) as [Hlt|Hge].
    + assert (Ha : 0 < Qabs q) by (rewrite Qabs_neg by lra; lra).
      rewrite (round64_pos Ha).
      unfold round64 at 1.
      destruct (Qeq_bool (Qabs q) 0) eqn:E; [apply Qeq_bool_iff in E; lra|].
      apply Qnum_neg in Hlt. rewrite Hlt. rewrite Qabs_opp, Qred_correct.
      apply Qabs_pos. apply rounded_nonneg. lra.
    + assert (Hq : q == 0) by (apply Qle_antisym; assumption).
      rewrite (round64_0 Hq). rewrite round64_0; [reflexivity|].
      rewrite Hq. reflexivity.
Qed.

Lemma round64_nonpos (q : Q) : q <= 0 -> round64 q <= 0.
Proof.
  intros H. pose proof (round64_abs q) as Ha.
  destruct (Qlt_le_dec q 0) as [Hlt|Hge].
  - unfold round64.
    destruct (Qeq_bool (Qabs q) 0); [lra|].
    apply Qnum_neg in Hlt. rewrite Hlt. rewrite Qred_correct.
    pose proof (@rounded_nonneg (Qabs q) (Qabs_nonneg q)). lra.
  - rewrite round64_0; [lra|]. apply Qle_antisym; assumption.
Qed.

Lemma round64_binade (e : Z) (a : Q) :
  2 ^ e <= a -> a < 2 ^ (e + 1) -> (-1022 <= e)%Z ->
  round64 a == inject_Z (py_round (a / 2 ^ (e - 52))) * 2 ^ (e - 52).
Proof.
  intros H1 H2 He.
  assert (Ha : 0 < a) by (pose proof (pow2_pos e); lra).
  rewrite round64_pos by assumption. unfold rounded, ulp_exponent.
  rewrite (@ilog2_unique a e H1 H2), Z.max_l by lia. reflexivity.
Qed.

Lemma scaled_bounds (e e' : Z) (a : Q) :
  2 ^ e <= a -> a < 2 ^ (e + 1) ->
  ((e' <= e)%Z -> inject_Z (2 ^ 52) <= a / 2 ^ (e' - 52))
  /\ ((e <= e')%Z -> a / 2 ^ (e' - 52) <= inject_Z (2 ^ 53)).
Proof.
  intros H1 H2. pose proof (pow2_pos (e' - 52)) as Hu.
  rewrite <- !pow2_Z by lia. split; intros He.
  - apply Qle_shift_div_l; [assumption|]. rewrite <- pow2_plus.
    apply Qle_trans with (2 ^ e); [apply pow2_le; lia | assumption].
  - apply Qle_shift_div_r; [assumption|]. rewrite <- pow2_plus.
    apply Qle_trans with (2 ^ (e + 1)); [lra | apply pow2_le; lia].
Qed.

Lemma round64_ge_pow2 (k : Z) (a : Q) :
  (-1022 <= k)%Z -> 2 ^ k <= a -> 2 ^ k <= round64 a.
Proof.
  intros Hk H.
  assert (Ha : 0 < a) by (pose proof (pow2_pos k); lra).
  destruct (ilog2_spec Ha) as [H1 H2]. pose proof (@ilog2_ge a k H) as Hge.
  rewrite (@round64_binade (ilog2 a) a H1 H2) by lia.
  destruct (@scaled_bounds (ilog2 a) (ilog2 a) a H1 H2) as [Hs _].
  specialize (Hs (Z.le_refl _)). apply py_round_ge in Hs.
  apply Qle_trans with (2 ^ ilog2 a); [apply pow2_le; assumption|].
  replace (ilog2 a) with (52 + (ilog2 a - 52))%Z at 1 by lia.
  rewrite pow2_plus. apply Qmult_le_compat_r; [|pose proof (pow2_pos (ilog2 a - 52)); lra].
  rewrite (@pow2_Z 52) by lia. now rewrite <- Zle_Qle.
Qed.

Lemma round64_le_pow2 (k : Z) (a : Q) :
  (-1021 <= k)%Z -> 0 <= a -> a < 2 ^ k -> round64 a <= 2 ^ k.
Proof.
  intros Hk H0 H. pose proof (pow2_pos k) as Hpk.
  destruct (Qlt_le_dec 0 a) as [Ha|Hz].
  - destruct (ilog2_spec Ha) as [H1 H2]. pose proof (@ilog2_lt a k Ha H) as Hlt.
    rewrite round64_pos by assumption. unfold rounded, ulp_exponent.
    set (e' := Z.max (ilog2 a) (-1022)).
    destruct (@scaled_bounds (ilog2 a) e' a H1 H2) as [_ Hs].
    specialize (Hs (Z.le_max_l _ _)). apply py_round_le in Hs.
    apply Qle_trans with (2 ^ (e' + 1)); [|apply pow2_le; unfold e'; lia].
    replace (e' + 1)%Z with (53 + (e' - 52))%Z by lia.
    rewrite pow2_plus. apply Qmult_le_compat_r; [|pose proof (pow2_pos (e' - 52)); lra].
    rewrite (@pow2_Z 53) by lia. now rewrite <- Zle_Qle.
  - rewrite round64_0; [lra|]. apply Qle_antisym; assumption.
Qed.

Lemma double_in_1_2 (t : Q) :
  is_double t = true -> 1 <= t -> t < 2 ->
  exists m : Z, t == inject_Z m * 2 ^ (-52).
Proof.
  intros Hd H1 H2. apply Qeq_bool_iff in Hd.
  exists (py_round (t / 2 ^ (0 - 52))). rewrite <- Hd at 1.
  apply (@round64_binade 0 t); [exact H1 | exact H2 | lia].
Qed.

Lemma tol_facts :
  LINE_SPACING_TOL == inject_Z 8646911284551352 * 2 ^ (-5 - 52)
  /\ SPACING_HALFWAY == (inject_Z 8646911284551352 + (1 # 2)) * 2 ^ (-5 - 52)
  /\ 2 ^ (-5) < LINE_SPACING_TOL /\ LINE_SPACING_TOL < SPACING_HALFWAY
  /\ SPACING_HALFWAY < 2 ^ (-5 + 1).
Proof. repeat split; vm_compute; reflexivity. Qed.

Lemma spacing_threshold (a : Q) :
  0 <= a -> (LINE_SPACING_TOL < round64 a <-> SPACING_HALFWAY < a).
Proof.
  intros Ha. destruct tol_facts as (Et & Eh & H5 & Hth & H4).
  pose proof (pow2_pos (-5 - 52)) as Hu.
  set (u := 2 ^ (-5 - 52)) in *. set (M := 8646911284551352%Z) in *.
  split; intros H.
  - (* the rounded value exceeds the tolerance *)
    apply Qnot_le_lt. intros Hle.
    destruct (Qlt_le_dec a (2 ^ (-5))) as [Hlow|Hlow].
    + pose proof (@round64_le_pow2 (-5) a ltac:(lia) Ha Hlow). lra.
    + assert (Hup : a < 2 ^ (-5 + 1)) by lra.
      rewrite (@round64_binade (-5) a Hlow Hup ltac:(lia)) in H. fold u in H.
      assert (Hs : a / u <= inject_Z M + (1 # 2)).
      { apply Qle_shift_div_r; [assumption|]. lra. }
      apply py_round_half_down in Hs; [|reflexivity].
      assert (inject_Z (py_round (a / u)) <= inject_Z M) by now rewrite <- Zle_Qle.
      assert (inject_Z (py_round (a / u)) * u <= inject_Z M * u)
        by (apply Qmult_le_compat_r; lra).
      lra.
  - destruct (Qlt_le_dec a (2 ^ (-5 + 1))) as [Hup|Hup].
    + assert (Hlow : 2 ^ (-5) <= a) by lra.
      rewrite (@round64_binade (-5) a Hlow Hup ltac:(lia)). fold u.
      assert (Hs : inject_Z M + (1 # 2) < a / u).
      { apply Qlt_shift_div_l; [assumption|]. lra. }
      apply py_round_half_up in Hs.
      assert (inject_Z (M + 1) <= inject_Z (py_round (a / u))) by now rewrite <- Zle_Qle.
      assert (inject_Z (M + 1) * u <= inject_Z (py_round (a / u)) * u)
        by (apply Qmult_le_compat_r; lra).
      rewrite inject_Z_plus in H1. change (inject_Z 1) with 1 in H1. lra.
    + pose proof (@round64_ge_pow2 (-5 + 1) a ltac:(lia) Hup). lra.
Qed.

Lemma spacing_test (x : Q) :
  LINE_SPACING_TOL < Qabs (round64 x) <-> SPACING_HALFWAY < Qabs x.
Proof.
  rewrite round64_abs. apply spacing_threshold. apply Qabs_nonneg.
Qed.

Lemma round64_small_Z :
  round64 (inject_Z 1) = 1 /\ round64 (inject_Z 2) = 2 /\ round64 (inject_Z 3) = 3.
Proof. repeat split; vm_compute; reflexivity. Qed.

(** A float made from an integer is more than the tolerance from a float
    strictly between 1.06 and 1.94, after rounding. *)
Lemma integer_off_target (f : float64) (z : Z) :
  (106 # 100) < value f -> value f < (194 # 100) ->
  LINE_SPACING_TOL < Qabs (round64 (round64 (inject_Z z) - value f)).
Proof.
  intros H1 H2. apply spacing_test.
  destruct f as [t Hd]. cbn [value] in *.
  destruct (@double_in_1_2 t Hd ltac:(lra) ltac:(lra)) as [m Hm].
  assert (Eu : 2 ^ (-52) == 1 # 4503599627370496) by reflexivity.
  rewrite Eu in Hm.
  unfold SPACING_HALFWAY.
  destruct (Z_le_gt_dec z 0) as [Hz|Hz].
  - assert (inject_Z z <= 0) by (change 0 with (inject_Z 0); rewrite <- Zle_Qle; lia).
    pose proof (round64_nonpos H). apply Qabs_case; intros; lra.
  - destruct (Z_le_gt_dec 4 z) as [Hz4|Hz4].
    + assert (H : 2 ^ 2 <= inject_Z z)
        by (change (2 ^ 2) with (inject_Z 4); rewrite <- Zle_Qle; lia).
      pose proof (@round64_ge_pow2 2 (inject_Z z) ltac:(lia) H) as Hr.
      change (2 ^ 2) with 4 in Hr. apply Qabs_case; intros; lra.
    + destruct round64_small_Z as (E1 & E2 & E3).
      assert (Hc : z = 1%Z \/ z = 2%Z \/ z = 3%Z) by lia.
      destruct Hc as [Hc|[Hc|Hc]]; subst z; [rewrite E1|rewrite E2|rewrite E3].
      * (* 1 - t is a multiple of 2^-52 *)
        assert (Hm1 : (4773815605012725 < m)%Z).
        { apply Z.lt_nge. intros Hle. rewrite Zle_Qle in Hle.
          change (inject_Z ?c) with (c # 1) in Hle at 2. lra. }
        assert (4773815605012726 # 1 <= inject_Z m)
          by (change (4773815605012726 # 1) with (inject_Z 4773815605012726);
              rewrite <- Zle_Qle; lia).
        apply Qabs_case; intros; lra.
      * assert (Hm1 : (m < 8736983277098763)%Z).
        { apply Z.lt_nge. intros Hle. rewrite Zle_Qle in Hle.
          change (inject_Z ?c) with (c # 1) in Hle at 1. lra. }
        assert (inject_Z m <= 8736983277098762 # 1)
          by (change (8736983277098762 # 1) with (inject_Z 8736983277098762);
              rewrite <- Zle_Qle; lia).
        apply Qabs_case; intros; lra.
      * apply Qabs_case; intros; lra.
Qed.

End Rounding.

(* ------------------------------------------------------------------ *)
(** ** More on the body *)

Section Body.

Variable str_lower : pystr -> pystr.
Variable rules : ThesisStyleRules.

Lemma find_index_some {A} (f : A -> bool) l : forall i,
  find_index f l = Some i ->
  (i < length l)%nat /\ Forall (fun x => f x = false) (firstn i l).
Proof.
  induction l as [|x l IH]; intros i H; simpl in H; [discriminate|].
  destruct (f x) eqn:Hx.
  - injection H as <-. split; [simpl; lia | constructor].
  - destruct (find_index f l) as [j|]; [|discriminate].
    injection H as <-. destruct (IH j eq_refl) as [Hj Hall].
    split; [simpl; lia|]. simpl. now constructor.
Qed.

(** The sample is a prefix of the paragraphs after the header lines. *)
Lemma body_sample_prefix doc :
  exists rest, skipn 3 (nonempty_paragraphs doc) = body_sample str_lower doc ++ rest.
Proof.
  unfold body_sample.
  set (body := skipn 3 (nonempty_paragraphs doc)).
  destruct (length (nonempty_paragraphs doc) <? 4)%nat; [now exists body|].
  destruct (find_index (is_literature_heading str_lower) body) as [i|].
  - destruct (30 <? length (firstn i body))%nat.
    + exists (skipn 30 (firstn i body) ++ skipn i body).
      now rewrite app_assoc, !firstn_skipn.
    + exists (skipn i body). now rewrite firstn_skipn.
  - destruct (30 <? length body)%nat.
    + exists (skipn 30 body). now rewrite firstn_skipn.
    + exists []. now rewrite app_nil_r.
Qed.

Lemma body_sample_length doc : (length (body_sample str_lower doc) <= 30)%nat.
Proof.
  unfold body_sample.
  destruct (length (nonempty_paragraphs doc) <? 4)%nat; [simpl; lia|].
  set (body := skipn 3 (nonempty_paragraphs doc)).
  destruct (find_index (is_literature_heading str_lower) body) as [i|].
  - destruct (30 <? length (firstn i body))%nat eqn:E.
    + rewrite length_firstn. lia.
    + apply Nat.ltb_ge in E. exact E.
  - destruct (30 <? length body)%nat eqn:E.
    + rewrite length_firstn. lia.
    + apply Nat.ltb_ge in E. exact E.
Qed.

Lemma Forall_firstn {A} (P : A -> Prop) n l : Forall P l -> Forall P (firstn n l).
Proof.
  intros H. apply Forall_forall. intros x Hx.
  rewrite Forall_forall in H. apply H. now apply In_firstn with n.
Qed.

Lemma body_sample_no_heading doc :
  Forall (fun p => is_literature_heading str_lower p = false)
    (body_sample str_lower doc).
Proof.
  unfold body_sample.
  destruct (length (nonempty_paragraphs doc) <? 4)%nat; [constructor|].
  set (body := skipn 3 (nonempty_paragraphs doc)).
  destruct (find_index (is_literature_heading str_lower) body) as [i|] eqn:E.
  - apply find_index_some in E. destruct E as [_ Hall].
    destruct (30 <? length (firstn i body))%nat; [now apply Forall_firstn | exact Hall].
  - assert (Hall : Forall (fun p => is_literature_heading str_lower p = false) body).
    { clear -E. induction body as [|x l IH]; [constructor|].
      simpl in E. destruct (is_literature_heading str_lower x) eqn:Hx; [discriminate|].
      constructor; [exact Hx|]. apply IH.
      now destruct (find_index (is_literature_heading str_lower) l). }
    destruct (30 <? length body)%nat; [now apply Forall_firstn | exact Hall].
Qed.

Lemma first_issue_length f rs : (length (first_issue f rs) <= 1)%nat.
Proof.
  induction rs as [|r rs IH]; simpl; [lia|].
  destruct (f r); [simpl; lia | exact IH].
Qed.

Lemma body_paragraph_length p :
  (length (body_paragraph_issues rules p) <= 4)%nat.
Proof.
  unfold body_paragraph_issues.
  destruct (negb _); [simpl; lia|]. cbv zeta.
  rewrite !length_app.
  pose proof (first_issue_length
                (body_run_issue rules (strip (Paragraph.text p))) (Paragraph.runs p)).
  destruct (body_justify rules && _);
    (destruct (Paragraph.line_spacing p) as [ls|];
     [destruct (isinstance_int_float ls);
      [destruct (spacing_off rules ls) | destruct (isinstance_Length ls)]|]);
    (destruct (Paragraph.first_line_indent p) as [indent|];
     [destruct (Z.abs _ >? _)%Z|]);
    simpl; lia.
Qed.

(** X9 (_check_body_paragraphs): the check looks at no more than thirty
    paragraphs; they are a prefix of the non-empty paragraphs after the
    first three, none of them is a literature heading, and there is none
    when the document has fewer than four non-empty paragraphs.  Each gives
    at most four findings, so the check returns at most 120. *)
Theorem body_sample_bounds doc :
  let sample := body_sample str_lower doc in
  (length sample <= 30)%nat
  /\ (exists rest, skipn 3 (nonempty_paragraphs doc) = sample ++ rest)
  /\ Forall (fun p => is_literature_heading str_lower p = false) sample
  /\ ((length (nonempty_paragraphs doc) < 4)%nat ->
      _check_body_paragraphs str_lower doc rules = [])
  /\ (length (_check_body_paragraphs str_lower doc rules) <= 4 * length sample)%nat
  /\ (length (_check_body_paragraphs str_lower doc rules) <= 120)%nat.
Proof.
  intros sample.
  assert (Hlen : (length sample <= 30)%nat) by apply body_sample_length.
  assert (Hfind : (length (_check_body_paragraphs str_lower doc rules)
                   <= 4 * length sample)%nat).
  { unfold _check_body_paragraphs. apply flat_map_length_le.
    intros p _. apply body_paragraph_length. }
  split; [exact Hlen|]. split; [apply body_sample_prefix|].
  split; [apply body_sample_no_heading|]. split; [|split; [exact Hfind | lia]].
  intros H. unfold _check_body_paragraphs, body_sample.
  apply Nat.ltb_lt in H. now rewrite H.
Qed.

(** The findings of one sampled paragraph, by their parts. *)
Lemma body_paragraph_emitted p :
  nonblank (Paragraph.text p) = true ->
  let out := body_paragraph_issues rules p in
  emitted "BODY_NOT_JUSTIFIED" out
  = body_justify rules
    && negb match Paragraph.alignment p with
            | None | Some JUSTIFY => true
            | _ => false
            end
  /\ emitted "LINE_SPACING_MISMATCH" out
     = match Paragraph.line_spacing p with
       | Some ls => spacing_off rules ls
       | None => false
       end
  /\ emitted "LINE_SPACING_ABSOLUTE" out = false.
Proof.
  intros Hnb out. subst out. unfold body_paragraph_issues.
  change (truthy (strip (Paragraph.text p))) with (nonblank (Paragraph.text p)).
  rewrite Hnb. cbv zeta. cbn [negb]. unfold emitted. rewrite !existsb_app.
  assert (Hf : forall c, existsb (String.eqb c) BODY_FONT_CODES = false ->
            existsb (has_code c)
              (first_issue (body_run_issue rules (strip (Paragraph.text p)))
                 (Paragraph.runs p)) = false)
    by (intros c Hc; exact (@emitted_none BODY_FONT_CODES c _ (body_font_codes rules _ _) Hc)).
  rewrite !Hf by reflexivity.
  destruct (body_justify rules && _);
    (destruct (Paragraph.line_spacing p) as [ls|];
     [replace (isinstance_int_float ls) with true by (now destruct ls);
      destruct (spacing_off rules ls)|]);
    (destruct (Paragraph.first_line_indent p) as [indent|];
     [destruct (Z.abs _ >? _)%Z|]);
    repeat split; reflexivity.
Qed.

Lemma Qgtb_iff a b : Qgtb a b = true <-> b < a.
Proof.
  unfold Qgtb. rewrite negb_true_iff. split.
  - intros H. apply Qnot_le_lt. intros Hle.
    apply Qle_bool_iff in Hle. congruence.
  - intros H. destruct (Qle_bool a b) eqn:E; [|reflexivity].
    apply Qle_bool_iff in E. exfalso. exact (Qlt_not_le _ _ H E).
Qed.

(** The test of the source on the exact difference. *)
Lemma spacing_off_iff ls :
  spacing_off rules ls = true
  <-> SPACING_HALFWAY < Qabs (float_of ls - value (line_spacing rules)).
Proof. unfold spacing_off. rewrite Qgtb_iff. apply spacing_test. Qed.

(** X10 (_check_body_paragraphs): a sampled paragraph is reported as not
    justified exactly when justification is required and its alignment is
    set to something other than JUSTIFY: an unset alignment passes.  Its line
    spacing, when set, is reported exactly when the binary64 difference from
    the configured one exceeds the binary64 number [0.06], which is exactly
    when the exact difference of the two floats exceeds the midpoint between
    that number and the next binary64 number. *)
Theorem body_alignment_and_spacing doc p :
  In p (body_sample str_lower doc) ->
  let out := body_paragraph_issues rules p in
  (emitted "BODY_NOT_JUSTIFIED" out = true
   <-> body_justify rules = true
       /\ Paragraph.alignment p <> None
       /\ Paragraph.alignment p <> Some JUSTIFY)
  /\ (emitted "LINE_SPACING_MISMATCH" out = true
      <-> exists ls, Paragraph.line_spacing p = Some ls
            /\ LINE_SPACING_TOL
               < Qabs (round64 (float_of ls - value (line_spacing rules))))
  /\ (emitted "LINE_SPACING_MISMATCH" out = true
      <-> exists ls, Paragraph.line_spacing p = Some ls
            /\ SPACING_HALFWAY < Qabs (float_of ls - value (line_spacing rules))).
Proof.
  intros Hp out.
  destruct (body_paragraph_emitted p (body_sample_nonblank str_lower doc p Hp))
    as (Ej & El & _).
  fold out in Ej, El. rewrite Ej, El. split; [|split].
  - rewrite andb_true_iff, negb_true_iff.
    destruct (Paragraph.alignment p) as [[]|]; intuition congruence.
  - destruct (Paragraph.line_spacing p) as [ls|].
    + unfold spacing_off. rewrite Qgtb_iff. split.
      * intros H. exists ls. split; [reflexivity | exact H].
      * intros (ls' & [= <-] & H). exact H.
    + split; [discriminate | intros (ls & [=] & _)].
  - destruct (Paragraph.line_spacing p) as [ls|].
    + rewrite spacing_off_iff. split.
      * intros H. exists ls. split; [reflexivity | exact H].
      * intros (ls' & [= <-] & H). exact H.
    + split; [discriminate | intros (ls & [=] & _)].
Qed.

(** X11 (_check_body_paragraphs): the finding LINE_SPACING_ABSOLUTE is never
    emitted.  A line spacing given as a length is an integer, passes the
    test on [int] and [float], and is compared with the configured multiple
    as a number (the count of EMU made a float): with a configured multiple
    strictly between 1.06 and 1.94, the default 1.15 among them, it always
    gives LINE_SPACING_MISMATCH. *)
Theorem absolute_spacing_is_mismatch doc :
  emitted "LINE_SPACING_ABSOLUTE" (_check_body_paragraphs str_lower doc rules) = false
  /\ forall p z,
       In p (body_sample str_lower doc) ->
       Paragraph.line_spacing p = Some (Absolute z) ->
       (106 # 100) < value (line_spacing rules) ->
       value (line_spacing rules) < (194 # 100) ->
       emitted "LINE_SPACING_MISMATCH" (body_paragraph_issues rules p) = true.
Proof.
  split.
  - unfold _check_body_paragraphs. rewrite emitted_flat_map.
    destruct (existsb _ _) eqn:E; [|reflexivity].
    apply existsb_exists in E. destruct E as (p & Hp & E).
    destruct (body_paragraph_emitted p (body_sample_nonblank str_lower doc p Hp))
      as (_ & _ & Ea).
    congruence.
  - intros p z Hp Hls H1 H2.
    destruct (body_paragraph_emitted p (body_sample_nonblank str_lower doc p Hp))
      as (_ & El & _).
    rewrite El, Hls. unfold spacing_off. apply Qgtb_iff. cbn [float_of].
    now apply integer_off_target.
Qed.

Lemma filter_flat_map {A B} (f : B -> bool) (g : A -> list B) l :
  filter f (flat_map g l) = flat_map (fun x => filter f (g x)) l.
Proof.
  induction l as [|x l IH]; simpl; [reflexivity|]. now rewrite filter_app, IH.
Qed.

Lemma filter_emits_only cs l : emits_only cs l -> filter (code_in cs) l = l.
Proof.
  induction 1 as [|i l Hi _ IH]; simpl; [reflexivity|]. now rewrite Hi, IH.
Qed.

(** The font findings of one iteration are those of its loop over the runs. *)
Lemma body_font_part p :
  filter (code_in BODY_FONT_CODES) (body_paragraph_issues rules p)
  = if nonblank (Paragraph.text p)
    then first_issue (body_run_issue rules (strip (Paragraph.text p))) (Paragraph.runs p)
    else [].
Proof.
  unfold body_paragraph_issues.
  change (truthy (strip (Paragraph.text p))) with (nonblank (Paragraph.text p)).
  destruct (nonblank (Paragraph.text p)); [|reflexivity]. cbv zeta. cbn [negb].
  rewrite !filter_app.
  rewrite (filter_emits_only (body_font_codes rules _ _)).
  destruct (body_justify rules && _);
    (destruct (Paragraph.line_spacing p) as [ls|];
     [destruct (isinstance_int_float ls);
      [destruct (spacing_off rules ls) | destruct (isinstance_Length ls)]|]);
    (destruct (Paragraph.first_line_indent p) as [indent|];
     [destruct (Z.abs _ >? _)%Z|]);
    reflexivity.
Qed.

Lemma body_run_unset txt r :
  name_given (Run.font_name r) = None -> size_given (Run.font_size r) = None ->
  body_run_issue rules txt r = None.
Proof.
  intros Hn Hs. unfold body_run_issue. rewrite Hn, Hs.
  now destruct (negb _).
Qed.

(** X12 (_check_body_paragraphs): the font of the body is checked softly.
    A paragraph gets at most one font finding (the loop over its runs stops
    at the first), so the check returns no more of them than it samples
    paragraphs; and a paragraph whose runs give neither a font name nor a
    size (unset, or an empty name, or a size of zero) gets none, where the
    header check would report the font as unknown. *)
Theorem body_font_soft doc :
  (length (filter (code_in BODY_FONT_CODES) (_check_body_paragraphs str_lower doc rules))
   <= length (body_sample str_lower doc))%nat
  /\ forall p,
       (forall r, In r (Paragraph.runs p) ->
          name_given (Run.font_name r) = None /\ size_given (Run.font_size r) = None) ->
       filter (code_in BODY_FONT_CODES) (body_paragraph_issues rules p) = [].
Proof.
  split.
  - unfold _check_body_paragraphs. rewrite filter_flat_map.
    replace (length (body_sample str_lower doc))
      with (1 * length (body_sample str_lower doc))%nat by lia.
    apply flat_map_length_le. intros p _. rewrite body_font_part.
    destruct (nonblank _); [apply first_issue_length | simpl; lia].
  - intros p H. rewrite body_font_part. destruct (nonblank _); [|reflexivity].
    induction (Paragraph.runs p) as [|r rs IH]; [reflexivity|].
    simpl. rewrite body_run_unset by (apply H; now left).
    apply IH. intros r' Hr'. apply H. now right.
Qed.

End Body.

(* ------------------------------------------------------------------ *)
(** ** More on the literature block *)

Section Literature.

Variable str_lower : pystr -> pystr.
Variable is_decimal : N -> bool.
Variable rules : ThesisStyleRules.

Lemma find_index_first {A} (f : A -> bool) before x after :
  Forall (fun y => f y = false) before -> f x = true ->
  find_index f (before ++ x :: after) = Some (length before).
Proof.
  intros Hb Hx. induction Hb as [|y l Hy _ IH]; simpl.
  - now rewrite Hx.
  - now rewrite Hy, IH.
Qed.

Lemma re_match_item txt :
  re_match (ITEM_RE is_decimal) txt = true <-> item_text is_decimal txt.
Proof.
  rewrite re_match_iff. unfold ITEM_RE, item_text. split.
  - intros (x & y & -> & Hm).
    inversion Hm as [ | | ? ? x1 y1 H1 H2 | | | | ]; subst.
    inversion H2 as [ | | ? ? x2 y2 H3 H4 | | | | ]; subst.
    apply matches_star_cls in H1. apply matches_plus_cls in H3.
    inversion H4 as [ | ? d Hd | | | | | ]; subst.
    apply N.eqb_eq in Hd. subst d.
    exists x1, x2, y. split; [now rewrite <- !app_assoc | tauto].
  - intros (ws & ds & rest & -> & Hws & Hne & Hds).
    exists (ws ++ ds ++ [46%N]), rest. split; [now rewrite <- !app_assoc|].
    constructor; [now apply matches_star_cls|].
    constructor; [now apply matches_plus_cls|].
    constructor. apply N.eqb_refl.
Qed.

Lemma sixty_percent pos n :
  (Z.of_nat pos <? py_int (inject_Z (Z.of_nat n) * (6 # 10)))%Z = true
  <-> (10 * (pos + 1) <= 6 * n)%nat.
Proof.
  unfold py_int. cbn [Qnum Qden Qmult inject_Z]. rewrite Z.ltb_lt.
  change (Z.pos (1 * 10)) with 10%Z.
  rewrite Z.quot_div_nonneg by lia.
  pose proof (Z.div_mod (Z.of_nat n * 6) 10 ltac:(lia)) as Hd.
  pose proof (Z.mod_pos_bound (Z.of_nat n * 6) 10 ltac:(lia)) as Hm.
  lia.
Qed.

Lemma slice_after {A} (before : list A) x after :
  slice (length before + 1) (length before + 6) (before ++ x :: after)
  = firstn 5 after.
Proof.
  unfold slice.
  replace (length before + 6 - (length before + 1))%nat with 5%nat by lia.
  f_equal. rewrite skipn_app.
  replace (length before + 1 - length before)%nat with 1%nat by lia.
  rewrite skipn_all2 by lia. reflexivity.
Qed.

(** X13 (_check_literature): when the non-empty paragraphs hold a literature
    heading, the first one at position [pos] of [n], the check never emits
    LITERATURE_MISSING; it emits LITERATURE_NOT_AT_END exactly when
    [pos < floor(0.6 n)], that is [10 (pos + 1) <= 6 n]; and it emits
    LITERATURE_ITEMS_FORMAT exactly when none of the up to five non-empty
    paragraphs after the heading begins with a number and a dot. *)
Theorem literature_position_and_items doc before hd after :
  nonempty_paragraphs doc = before ++ hd :: after ->
  Forall (fun p => is_literature_heading str_lower p = false) before ->
  is_literature_heading str_lower hd = true ->
  let out := _check_literature str_lower is_decimal doc rules in
  emitted "LITERATURE_MISSING" out = false
  /\ (emitted "LITERATURE_NOT_AT_END" out = true
      <-> (10 * (length before + 1) <= 6 * length (nonempty_paragraphs doc))%nat)
  /\ (emitted "LITERATURE_ITEMS_FORMAT" out = true
      <-> Forall (fun p => ~ item_text is_decimal (strip (Paragraph.text p)))
            (firstn 5 after)).
Proof.
  intros Hne Hb Hhd out. subst out. unfold _check_literature. cbv zeta.
  rewrite Hne.
  rewrite (@find_index_first _ (is_literature_heading str_lower) before hd after Hb Hhd).
  rewrite slice_after.
  assert (Hm : forall (a b : list ValidationIssue),
            match before ++ hd :: after with [] => a | _ :: _ => b end = b)
    by (intros a b; now destruct before).
  rewrite Hm. clear Hm.
  unfold emitted. rewrite !existsb_app.
  assert (Hitems : existsb (fun p => re_match (ITEM_RE is_decimal) (strip (Paragraph.text p)))
                     (firstn 5 after) = false
            <-> Forall (fun p => ~ item_text is_decimal (strip (Paragraph.text p)))
                  (firstn 5 after)).
  { induction (firstn 5 after) as [|p ps IH]; simpl.
    - split; [constructor | reflexivity].
    - rewrite orb_false_iff, IH. split.
      + intros [H1 H2]. constructor; [|exact H2].
        intros Hi. apply re_match_item in Hi. congruence.
      + intros H. inversion H as [|? ? H1 H2]; subst. split; [|exact H2].
        destruct (re_match _ _) eqn:Em; [|reflexivity].
        apply re_match_item in Em. contradiction. }
  rewrite <- Hitems, <- sixty_percent.
  destruct (Z.of_nat (length before) <? _)%Z,
    (existsb (fun p => re_match (ITEM_RE is_decimal) (strip (Paragraph.text p)))
       (firstn 5 after));
    cbn [negb]; repeat split; (reflexivity || discriminate).
Qed.

(** X14 (_check_literature): the check returns at most two findings.  When
    the literature block is not required and the document has no literature
    heading, and when the document has no non-empty paragraph at all, it
    returns none. *)
Theorem literature_optional doc :
  (length (_check_literature str_lower is_decimal doc rules) <= 2)%nat
  /\ (require_literature_block rules = false ->
      (forall p, In p (paragraphs doc) -> is_literature_heading str_lower p = false) ->
      _check_literature str_lower is_decimal doc rules = [])
  /\ (nonempty_paragraphs doc = [] ->
      _check_literature str_lower is_decimal doc rules = []).
Proof.
  split; [|split].
  - unfold _check_literature. cbv zeta.
    destruct (nonempty_paragraphs doc); [simpl; lia|].
    destruct (find_index _ _).
    + rewrite length_app. destruct (_ <? _)%Z, (negb _); simpl; lia.
    + destruct (require_literature_block rules); simpl; lia.
  - intros Hreq Hno. unfold _check_literature. cbv zeta.
    rewrite find_index_none.
    + rewrite Hreq. now destruct (nonempty_paragraphs doc).
    + intros p Hp. apply Hno. unfold nonempty_paragraphs in Hp.
      now apply filter_In in Hp.
  - intros H. unfold _check_literature. now rewrite H.
Qed.

End Literature.

(* ------------------------------------------------------------------ *)
(** ** More on captions and length *)

Section CaptionsAndLength.

Variable is_decimal : N -> bool.

(** X15 (_check_captions): a paragraph gets at most one caption finding, and
    one whose stripped text does not begin with [Рис.] or [Таблиця],
    optional whitespace and a number gets none, whatever the sizes of its
    runs; so the check returns no more findings than the document has
    paragraphs. *)
Theorem captions_only_for_captions doc :
  (length (_check_captions is_decimal doc) <= length (paragraphs doc))%nat
  /\ (forall p, (length (caption_issues is_decimal p) <= 1)%nat)
  /\ (forall p,
        ~ caption_text is_decimal (u "Рис.") (strip (Paragraph.text p)) ->
        ~ caption_text is_decimal (u "Таблиця") (strip (Paragraph.text p)) ->
        caption_issues is_decimal p = []).
Proof.
  assert (Hone : forall p, (length (caption_issues is_decimal p) <= 1)%nat).
  { intros p. unfold caption_issues. cbv zeta.
    destruct (negb _); [simpl; lia|].
    destruct (is_caption _ _); [apply first_issue_length | simpl; lia]. }
  split; [|split; [exact Hone|]].
  - unfold _check_captions.
    replace (length (paragraphs doc)) with (1 * length (paragraphs doc))%nat by lia.
    apply flat_map_length_le. intros p _. apply Hone.
  - intros p Hf Ht. unfold caption_issues. cbv zeta.
    destruct (negb _); [reflexivity|].
    destruct (is_caption is_decimal (strip (Paragraph.text p))) eqn:E; [|reflexivity].
    apply is_caption_iff in E. tauto.
Qed.

Lemma lstrip_length s : (length (lstrip s) <= length s)%nat.
Proof.
  induction s as [|c s IH]; simpl; [lia|].
  destruct (is_space c); simpl; lia.
Qed.

Lemma strip_length s : (length (strip s) <= length s)%nat.
Proof.
  unfold strip, rstrip. rewrite length_rev.
  pose proof (lstrip_length (rev (lstrip s))) as H1.
  pose proof (lstrip_length s) as H2.
  rewrite length_rev in H1. lia.
Qed.

Lemma collapse_from_length b s : (length (collapse_from b s) <= length s)%nat.
Proof.
  revert b. induction s as [|c s IH]; intros b; simpl; [lia|].
  destruct (is_space c); [destruct b|]; simpl;
    try (pose proof (IH true)); try (pose proof (IH false)); lia.
Qed.

Lemma text_chars_le doc :
  (text_chars doc <= Z.of_nat (length (joined_text doc)))%Z.
Proof.
  unfold text_chars, joined_text, collapse_ws. cbv zeta.
  pose proof (collapse_from_length false
                (strip (join [10%N] (map Paragraph.text (paragraphs doc))))).
  pose proof (strip_length (join [10%N] (map Paragraph.text (paragraphs doc)))).
  lia.
Qed.

(** X16 (_check_length_heuristic): stripping and collapsing never lengthen
    the text, so the count is at most the length of the paragraph texts
    joined by newlines.  A document whose joined text has fewer than 800
    characters is always reported as too short, a document reported as too
    long has more than 6500, the two findings never come together, and a
    document without paragraphs is too short with a count of zero. *)
Theorem length_never_grows doc :
  let raw := Z.of_nat (length (joined_text doc)) in
  (0 <= text_chars doc <= raw)%Z
  /\ ((raw < 800)%Z ->
      _check_length_heuristic doc = [length_too_short_finding (text_chars doc)])
  /\ (emitted "LENGTH_TOO_LONG" (_check_length_heuristic doc) = true ->
      (raw > 6500)%Z)
  /\ (length (_check_length_heuristic doc) <= 1)%nat
  /\ (paragraphs doc = [] ->
      _check_length_heuristic doc = [length_too_short_finding 0]).
Proof.
  intros raw. pose proof (text_chars_le doc) as Hle. fold raw in Hle.
  assert (H0 : (0 <= text_chars doc)%Z) by (unfold text_chars; cbv zeta; lia).
  split; [lia|].
  unfold _check_length_heuristic, MIN_TEXT_CHARS, MAX_TEXT_CHARS. cbv zeta.
  destruct (Z.ltb_spec (text_chars doc) 800), (Z.gtb_spec (text_chars doc) 6500);
    try lia; cbn [app].
  - split; [reflexivity|]. split; [discriminate|]. split; [simpl; lia|].
    intros Hp. unfold text_chars. now rewrite Hp.
  - split; [lia|]. split; [lia|]. split; [simpl; lia|].
    intros Hp. unfold text_chars in H. rewrite Hp in H. simpl in H. lia.
  - split; [lia|]. split; [discriminate|]. split; [simpl; lia|].
    intros Hp. unfold text_chars in H. rewrite Hp in H. simpl in H. lia.
Qed.

End CaptionsAndLength.

(* ------------------------------------------------------------------ *)
(** ** Documents without text, and documents that pass *)

Section WholeDocument.

Variable str_lower : pystr -> pystr.
Variable str_upper : pystr -> pystr.
Variable is_decimal : N -> bool.

Local Abbreviation validate := (validate_thesis_docx str_lower str_upper is_decimal).

Lemma lstrip_spaces s : forallb is_space s = true -> lstrip s = [].
Proof.
  induction s as [|c s IH]; simpl; [reflexivity|].
  intros H. apply andb_true_iff in H. destruct H as [Hc Hs]. rewrite Hc. auto.
Qed.

Lemma lstrip_head s c t : lstrip s = c :: t -> is_space c = false.
Proof.
  induction s as [|d s IH]; simpl; [discriminate|].
  destruct (is_space d) eqn:Hd; [exact IH|]. intros [= <- _]. exact Hd.
Qed.

Lemma lstrip_nil s : lstrip s = [] -> forallb is_space s = true.
Proof.
  induction s as [|c s IH]; simpl; [reflexivity|].
  destruct (is_space c); [exact IH | discriminate].
Qed.

Lemma forallb_rev {A} (f : A -> bool) l : forallb f (rev l) = forallb f l.
Proof.
  induction l as [|x l IH]; simpl; [reflexivity|].
  rewrite forallb_app, IH. simpl. rewrite andb_true_r. apply andb_comm.
Qed.

(** A text is blank exactly when all its characters are whitespace. *)
Lemma blank_iff s : nonblank s = false <-> forallb is_space s = true.
Proof.
  unfold nonblank, strip, rstrip. split.
  - intros H.
    assert (Hr : lstrip (rev (lstrip s)) = []).
    { destruct (lstrip (rev (lstrip s))) as [|c t]; [reflexivity|].
      simpl in H. destruct (rev t ++ [c]) eqn:E; [|discriminate].
      now destruct (rev t). }
    apply lstrip_nil in Hr. rewrite forallb_rev in Hr.
    destruct (lstrip s) as [|c t] eqn:E; [now apply lstrip_nil|].
    apply lstrip_head in E. simpl in Hr. rewrite E in Hr. discriminate.
  - intros H. now rewrite (lstrip_spaces s H).
Qed.

Lemma join_spaces (l : list pystr) :
  Forall (fun s => forallb is_space s = true) l ->
  forallb is_space (join [10%N] l) = true.
Proof.
  induction 1 as [|s l Hs Hl IH]; [reflexivity|].
  destruct l as [|s' l']; [exact Hs|].
  change (join [10%N] (s :: s' :: l')) with (s ++ [10%N] ++ join [10%N] (s' :: l')).
  now rewrite !forallb_app, Hs, IH.
Qed.

Lemma blank_text_chars doc :
  (forall p, In p (paragraphs doc) -> nonblank (Paragraph.text p) = false) ->
  text_chars doc = 0%Z.
Proof.
  intros H. unfold text_chars. cbv zeta.
  assert (Hj : forallb is_space (join [10%N] (map Paragraph.text (paragraphs doc))) = true).
  { apply join_spaces. apply Forall_forall. intros s Hs.
    apply in_map_iff in Hs. destruct Hs as (p & <- & Hp).
    apply blank_iff. now apply H. }
  apply blank_iff in Hj. unfold nonblank in Hj.
  now destruct (strip _).
Qed.

Lemma blank_nonempty doc :
  (forall p, In p (paragraphs doc) -> nonblank (Paragraph.text p) = false) ->
  nonempty_paragraphs doc = [].
Proof.
  intros H. unfold nonempty_paragraphs.
  induction (paragraphs doc) as [|p ps IH]; [reflexivity|].
  simpl. rewrite (H p) by now left. apply IH. intros q Hq. apply H. now right.
Qed.

(** X17 (validate_thesis_docx): for a document whose paragraphs are all blank
    (or that has none), the report holds the page-setup findings, then
    HEADER_TOO_SHORT, then LENGTH_TOO_SHORT with a count of zero, and nothing
    else: no body, literature or caption finding, and no LITERATURE_MISSING
    even when the block is required; the verdict is a failure. *)
Theorem blank_document_report doc rules (h : Heap.heap) :
  (forall p, In p (paragraphs doc) -> nonblank (Paragraph.text p) = false) ->
  let (ok, issues) := run_report (validate doc rules h) in
  ok = false
  /\ issues
     = _check_page_setup doc (or_default rules)
       ++ [header_too_short_finding; length_too_short_finding 0].
Proof.
  intros Hblank. rewrite validate_run. unfold run_report.
  cbn [fst snd ok issues]. rewrite deref_fresh.
  assert (Hne : nonempty_paragraphs doc = []) by now apply blank_nonempty.
  assert (Hall : all_issues str_lower str_upper is_decimal doc rules
                 = _check_page_setup doc (or_default rules)
                   ++ [header_too_short_finding; length_too_short_finding 0]).
  { unfold all_issues. cbv zeta. f_equal.
    assert (Hh : _check_header_structure str_upper doc (or_default rules)
                 = [header_too_short_finding])
      by (apply header_short; rewrite Hne; simpl; lia).
    assert (Hb : _check_body_paragraphs str_lower doc (or_default rules) = [])
      by (unfold _check_body_paragraphs, body_sample; now rewrite Hne).
    assert (Hl : _check_literature str_lower is_decimal doc (or_default rules) = [])
      by (unfold _check_literature; now rewrite Hne).
    assert (Hc : _check_captions is_decimal doc = []).
    { unfold _check_captions.
      induction (paragraphs doc) as [|p ps IH]; [reflexivity|].
      simpl. rewrite IH by (intros q Hq; apply Hblank; now right).
      unfold caption_issues. cbv zeta.
      change (truthy (strip (Paragraph.text p))) with (nonblank (Paragraph.text p)).
      now rewrite (Hblank p (or_introl eq_refl)). }
    assert (Hlen : _check_length_heuristic doc = [length_too_short_finding 0])
      by (unfold _check_length_heuristic; cbv zeta;
          now rewrite (blank_text_chars doc Hblank)).
    now rewrite Hh, Hb, Hl, Hc, Hlen. }
  rewrite Hall. split; [|reflexivity].
  apply negb_false_iff. unfold any_error. rewrite existsb_app.
  apply orb_true_iff. right. reflexivity.
Qed.

Lemma In_enumerate_from {A} (x : A) l : forall k,
  In x l -> exists i, In (i, x) (enumerate_from k l).
Proof.
  induction l as [|y l IH]; intros k H; [destruct H|].
  destruct H as [-> | H].
  - exists k. now left.
  - destruct (IH (S k) H) as (i & Hi). exists i. now right.
Qed.

Lemma margin_issues_clean rules idx name value :
  Forall (fun i => severity i <> ERROR) (margin_issues rules idx (name, value)) ->
  margin_ok rules value.
Proof.
  unfold margin_issues, margin_ok. intros H.
  destruct (Z.gtb_spec (Z.abs (value - margin_twips rules)) MARGIN_TWIPS_TOL);
    [|lia].
  inversion H as [|? ? Hs _]; subst. now contradiction Hs.
Qed.

Lemma section_issues_clean rules idx s :
  Forall (fun i => severity i <> ERROR) (section_issues rules (idx, s)) ->
  section_clean rules s.
Proof.
  unfold section_issues, section_clean, margins. cbn [flat_map].
  rewrite !Forall_app. intros (_ & (Ht & Hb & Hl & Hr & _) & Hhf).
  split.
  - repeat constructor; eapply margin_issues_clean; eassumption.
  - destruct (_section_has_header_footer_text s); [|reflexivity].
    inversion Hhf as [|? ? Hs _]; subst. now contradiction Hs.
Qed.

(** X18 (validate_thesis_docx): what a passing document must have.  When the
    verdict is [ok], the document has at least three non-empty paragraphs;
    if the literature block is required, some paragraph is the literature
    heading; and in every section neither header nor footer has text and
    each of the four margins, as the count of EMU the check reads, is within
    40 of [margin_twips].  With the default [margin_twips] of 1134 that is a
    margin of 1094 to 1174 EMU, far below a millimetre: a document with a
    section that has a margin of a millimetre or more does not pass. *)
Theorem passing_document doc rules (h : Heap.heap) :
  ok (fst (validate doc rules h)) = true ->
  (3 <= length (nonempty_paragraphs doc))%nat
  /\ (require_literature_block (or_default rules) = true ->
      exists p, In p (paragraphs doc) /\ is_literature_heading str_lower p = true)
  /\ Forall (section_clean (or_default rules)) (sections doc)
  /\ (margin_twips (or_default rules) = MARGIN_20MM_TWIPS ->
      forall s m, In s (sections doc) -> In m (margins s) ->
      (1094 <= m <= 1174)%Z /\ (m < Length.Mm 1)%Z).
Proof.
  rewrite validate_run. cbn [fst ok]. rewrite negb_true_iff, any_error_false.
  unfold all_issues. cbv zeta. rewrite !Forall_app.
  intros (Hpage & Hhead & _ & Hlit & _).
  assert (Hlen : (3 <= length (nonempty_paragraphs doc))%nat).
  { destruct (le_lt_dec 3 (length (nonempty_paragraphs doc))) as [H|H]; [exact H|].
    rewrite (header_short str_upper doc (or_default rules) H) in Hhead.
    inversion Hhead as [|? ? Hs _]; subst. now contradiction Hs. }
  assert (Hclean : Forall (section_clean (or_default rules)) (sections doc)).
  { apply Forall_forall. intros s Hs.
    destruct (In_enumerate_from s (sections doc) 0 Hs) as (idx & Hin).
    apply section_issues_clean with idx.
    apply Forall_forall. intros i Hi.
    rewrite Forall_forall in Hpage. apply Hpage.
    unfold _check_page_setup, enumerate. apply in_flat_map.
    now exists (idx, s). }
  split; [exact Hlen|]. split; [|split; [exact Hclean|]].
  - intros Hreq.
    destruct (existsb (is_literature_heading str_lower) (paragraphs doc)) eqn:E.
    + apply existsb_exists in E. exact E.
    + exfalso.
      assert (Hno : forall p, In p (paragraphs doc) ->
                is_literature_heading str_lower p = false).
      { intros p Hp. destruct (is_literature_heading str_lower p) eqn:Ep; [|reflexivity].
        assert (existsb (is_literature_heading str_lower) (paragraphs doc) = true)
          by (apply existsb_exists; now exists p).
        congruence. }
      assert (Hne : nonempty_paragraphs doc <> [])
        by (destruct (nonempty_paragraphs doc); [simpl in Hlen; lia | discriminate]).
      rewrite (literature_missing str_lower is_decimal doc (or_default rules)
                 Hne Hno Hreq) in Hlit.
      inversion Hlit as [|? ? Hs _]; subst. now contradiction Hs.
  - intros Hm s m Hs Hin.
    rewrite Forall_forall in Hclean. destruct (Hclean s Hs) as [Hms _].
    rewrite Forall_forall in Hms. specialize (Hms m Hin).
    unfold margin_ok in Hms. rewrite Hm in Hms.
    replace MARGIN_20MM_TWIPS with 1134%Z in Hms by (vm_compute; reflexivity).
    unfold MARGIN_TWIPS_TOL in Hms.
    replace (Length.Mm 1) with 36000%Z by (vm_compute; reflexivity). lia.
Qed.

End WholeDocument.

(* ------------------------------------------------------------------ *)
(** ** The object key of an upload *)

Section ObjectKey.

Import Storage.

Lemma replace_length old new s : length (replace old new s) = length s.
Proof. unfold replace. apply length_map. Qed.

Lemma replace_removes old new s : old <> new -> ~ In old (replace old new s).
Proof.
  intros Hne H. unfold replace in H. apply in_map_iff in H.
  destruct H as (c & Hc & _). destruct (N.eqb_spec c old); congruence.
Qed.

Lemma replace_keeps_out old new x s :
  x <> new -> ~ In x s -> ~ In x (replace old new s).
Proof.
  intros Hx Hs H. unfold replace in H. apply in_map_iff in H.
  destruct H as (c & Hc & Hin). destruct (N.eqb c old); congruence.
Qed.

Lemma replace_absent old new s : ~ In old s -> replace old new s = s.
Proof.
  unfold replace. induction s as [|c s IH]; intros H; simpl; [reflexivity|].
  destruct (N.eqb_spec c old) as [->|Hc].
  - exfalso. apply H. now left.
  - rewrite IH; [reflexivity|]. intros Hin. apply H. now right.
Qed.

Lemma count_absent c s : ~ In c s -> count c s = 0%nat.
Proof.
  unfold count. induction s as [|d s IH]; intros H; simpl; [reflexivity|].
  destruct (N.eqb_spec c d) as [->|Hd].
  - exfalso. apply H. now left.
  - apply IH. intros Hin. apply H. now right.
Qed.

Lemma count_app c s t : count c (s ++ t) = (count c s + count c t)%nat.
Proof. unfold count. now rewrite filter_app, length_app. Qed.

(** X19 (upload_stream): the safe name has the length of the original name,
    holds neither a slash nor a backslash, and is the original name when
    that has none.  So, the text of the identifier having no slash, the
    object key has exactly one slash, the one after [uploads]: an upload
    cannot choose the folder it lands in. *)
Theorem object_key_one_folder uuid original_name :
  ~ In 47%N uuid ->
  length (safe_name original_name) = length original_name
  /\ ~ In 47%N (safe_name original_name)
  /\ ~ In 92%N (safe_name original_name)
  /\ (~ In 47%N original_name -> ~ In 92%N original_name ->
      safe_name original_name = original_name)
  /\ object_key uuid original_name
     = u "uploads/" ++ uuid ++ [45%N] ++ safe_name original_name
  /\ count 47 (object_key uuid original_name) = 1%nat.
Proof.
  intros Huuid.
  assert (H47 : ~ In 47%N (safe_name original_name)).
  { unfold safe_name. apply replace_keeps_out; [discriminate|].
    apply replace_removes. discriminate. }
  assert (H92 : ~ In 92%N (safe_name original_name))
    by (unfold safe_name; apply replace_removes; discriminate).
  split; [unfold safe_name; now rewrite !replace_length|].
  split; [exact H47|]. split; [exact H92|]. split; [|split; [reflexivity|]].
  - intros Ha Hb. unfold safe_name. rewrite (replace_absent 47 95 _ Ha).
    now apply replace_absent.
  - unfold object_key. rewrite !count_app.
    rewrite (count_absent 47 uuid Huuid), (count_absent 47 _ H47).
    reflexivity.
Qed.

End ObjectKey.

(** A name with a path in it. *)
Lemma object_key_witness :
  Storage.object_key (u "0b9f6c1e-7a52-4d3e-9b1a-2f4c8d6e0a11") (u "../a/b\c.docx")
  = u "uploads/0b9f6c1e-7a52-4d3e-9b1a-2f4c8d6e0a11-.._a_b_c.docx"
  /\ Storage.count 47
       (Storage.object_key (u "0b9f6c1e-7a52-4d3e-9b1a-2f4c8d6e0a11") (u "../a/b\c.docx"))
     = 1%nat.
Proof.
  split; [vm_compute; reflexivity|].
  apply (object_key_one_folder (u "0b9f6c1e-7a52-4d3e-9b1a-2f4c8d6e0a11")
           (u "../a/b\c.docx")).
  vm_compute. intuition discriminate.
Defined.

(* ------------------------------------------------------------------ *)
(** ** The report as a mapping *)

Section Serialised.

Variable str_lower : pystr -> pystr.
Variable str_upper : pystr -> pystr.
Variable is_decimal : N -> bool.
Variable render : list MsgPart -> pystr.

Lemma issue_to_dict_items i :
  issue_to_dict render i = VDict (issue_asdict render i)
  /\ item "code" (issue_to_dict render i) = Some (VStr (u (code i)))
  /\ item "severity" (issue_to_dict render i)
     = Some (VStr (Severity_value (severity i)))
  /\ item "message" (issue_to_dict render i) = Some (VStr (render (message i))).
Proof. repeat split; reflexivity. Qed.

Lemma Severity_value_error sev : Severity_value sev = u "error" <-> sev = ERROR.
Proof. destruct sev; split; (reflexivity || discriminate). Qed.

(** X20 (ValidationReport.to_dict, ValidationIssue.to_dict): the mapping of
    the report of a run has [ok] and [issues]; [issues] has one mapping for
    each finding, in order, with the keys code, severity, message and
    details, and the severity written as [error] or [warning]; and [ok] is
    true in the mapping exactly when no entry of [issues] has severity
    [error]. *)
Theorem report_mapping_consistent doc rules (h : Heap.heap) :
  let (rep, h') := validate_thesis_docx str_lower str_upper is_decimal doc rules h in
  let findings := Heap.deref h' (issues rep) in
  let d := report_to_dict render h' rep in
  item "ok" d = Some (VBool (ok rep))
  /\ item "issues" d = Some (VList (map (issue_to_dict render) findings))
  /\ Forall (fun i =>
       exists m dv,
         issue_to_dict render i
         = VDict [("code", VStr (u (code i))); ("severity", VStr m);
                  ("message", VStr (render (message i))); ("details", dv)]
         /\ (m = u "error" \/ m = u "warning")) findings
  /\ (ok rep = true
      <-> Forall (fun e => item "severity" e <> Some (VStr (u "error")))
            (map (issue_to_dict render) findings)).
Proof.
  rewrite validate_run. cbv zeta. cbn [ok issues]. rewrite deref_fresh.
  split; [reflexivity|]. split; [unfold report_to_dict; cbn [issues item dict_get];
    now rewrite deref_fresh|].
  split.
  - apply Forall_forall. intros i _.
    exists (Severity_value (severity i)).
    exists (match details i with
            | None => VNone
            | Some dd => VDict (map (fun kv => (fst kv, detail_to_value (snd kv))) dd)
            end).
    split; [reflexivity|]. destruct (severity i); [now left | now right].
  - rewrite negb_true_iff, any_error_false, Forall_map.
    split; intros H; eapply Forall_impl; try exact H; intros i Hi.
    + destruct (issue_to_dict_items i) as (_ & _ & -> & _).
      intros [= E]. apply Severity_value_error in E. contradiction.
    + intros E. apply Hi.
      destruct (issue_to_dict_items i) as (_ & _ & -> & _). now rewrite E.
Qed.

End Serialised.

(* ------------------------------------------------------------------ *)
(** ** The further properties on example documents *)

(** Header lines with unset alignment: the title is reported. *)
Lemma header_line_checks_witness :
  nonempty_paragraphs (indent_document 800)
  = [text_paragraph (u "TITLE"); text_paragraph (u "Petrov P. P.");
     text_paragraph (u "University"); indented_paragraph 800]
  /\ emitted "TITLE_NOT_CENTER"
       (_check_header_structure simple_upper (indent_document 800) default_rules)
     = true.
Proof.
  assert (Hne : nonempty_paragraphs (indent_document 800)
                = [text_paragraph (u "TITLE"); text_paragraph (u "Petrov P. P.");
                   text_paragraph (u "University"); indented_paragraph 800])
    by (vm_compute; reflexivity).
  split; [exact Hne|].
  destruct (@header_line_checks simple_upper default_rules (indent_document 800)
              _ _ _ _ Hne) as (_ & H & _).
  apply H. split; [reflexivity | discriminate].
Defined.

(** The same document: one AUTHORS_NOT_ITALIC at most. *)
Lemma italic_only_for_authors_witness :
  (length (filter (has_code "AUTHORS_NOT_ITALIC")
             (_check_header_structure simple_upper (indent_document 800) default_rules))
   <= 1)%nat.
Proof.
  assert (Hne : nonempty_paragraphs (indent_document 800)
                = [text_paragraph (u "TITLE"); text_paragraph (u "Petrov P. P.");
                   text_paragraph (u "University"); indented_paragraph 800])
    by (vm_compute; reflexivity).
  destruct (@italic_only_for_authors simple_upper default_rules (indent_document 800)
              _ _ _ _ Hne) as (_ & H & _).
  exact H.
Defined.

(** A body paragraph aligned to the left whose line spacing is the float
    1.21 is reported on both counts under the default rules (1.21 - 1.15 is
    more than 0.06 in binary64); at 1.09 the spacing is not reported. *)
Lemma body_alignment_witness :
  In (multiple_paragraph double_1_21)
    (body_sample simple_lower (multiple_document double_1_21))
  /\ emitted "BODY_NOT_JUSTIFIED"
       (body_paragraph_issues default_rules (multiple_paragraph double_1_21)) = true
  /\ emitted "LINE_SPACING_MISMATCH"
       (body_paragraph_issues default_rules (multiple_paragraph double_1_21)) = true
  /\ emitted "LINE_SPACING_MISMATCH"
       (body_paragraph_issues default_rules (multiple_paragraph double_1_09)) = false.
Proof.
  assert (Hin : In (multiple_paragraph double_1_21)
                  (body_sample simple_lower (multiple_document double_1_21)))
    by (vm_compute; left; reflexivity).
  assert (Hin' : In (multiple_paragraph double_1_09)
                   (body_sample simple_lower (multiple_document double_1_09)))
    by (vm_compute; left; reflexivity).
  destruct (@body_alignment_and_spacing simple_lower default_rules
              (multiple_document double_1_21) (multiple_paragraph double_1_21) Hin)
    as (Hj & _ & Hs).
  destruct (@body_alignment_and_spacing simple_lower default_rules
              (multiple_document double_1_09) (multiple_paragraph double_1_09) Hin')
    as (_ & _ & Hs').
  split; [exact Hin|]. split; [|split].
  - apply Hj. split; [reflexivity|]. split; discriminate.
  - apply Hs. exists (Multiple double_1_21). split; [reflexivity|].
    vm_compute. reflexivity.
  - destruct (emitted "LINE_SPACING_MISMATCH"
                (body_paragraph_issues default_rules (multiple_paragraph double_1_09)))
      eqn:E; [|reflexivity].
    destruct (proj1 Hs' eq_refl) as (ls & [= <-] & H).
    revert H. vm_compute. discriminate.
Defined.

(** A short document gives no body findings. *)
Lemma body_sample_bounds_witness :
  _check_body_paragraphs simple_lower two_lines default_rules = [].
Proof.
  destruct (body_sample_bounds simple_lower default_rules two_lines)
    as (_ & _ & _ & H & _).
  apply H. vm_compute. lia.
Defined.

(** A line spacing of twelve points, 152400 EMU, is a mismatch. *)
Lemma absolute_spacing_witness :
  emitted "LINE_SPACING_MISMATCH"
    (body_paragraph_issues default_rules (spaced_paragraph 152400)) = true.
Proof.
  destruct (absolute_spacing_is_mismatch simple_lower default_rules
              (spaced_document 152400)) as (_ & H).
  apply (H (spaced_paragraph 152400) 152400%Z).
  - vm_compute. left. reflexivity.
  - reflexivity.
  - vm_compute. reflexivity.
  - vm_compute. reflexivity.
Defined.

(** Runs that inherit font and size give no body font finding. *)
Lemma body_font_soft_witness :
  filter (code_in BODY_FONT_CODES)
    (body_paragraph_issues default_rules (indented_paragraph 800)) = [].
Proof.
  destruct (body_font_soft simple_lower default_rules (indent_document 800))
    as (_ & H).
  apply H. intros r [<-|[]]. split; reflexivity.
Defined.

(** The passing document: the heading is fifth of six paragraphs. *)
Lemma literature_position_witness :
  emitted "LITERATURE_MISSING"
    (_check_literature simple_lower ascii_digit good_document default_rules) = false
  /\ (emitted "LITERATURE_ITEMS_FORMAT"
        (_check_literature simple_lower ascii_digit good_document default_rules) = true
      <-> Forall (fun p => ~ item_text ascii_digit (strip (Paragraph.text p)))
            (firstn 5 [text_paragraph (u "1. Petrov P. P. Book.")])).
Proof.
  assert (Hne : nonempty_paragraphs good_document
                = [header_line (u "TITLE") None;
                   header_line (u "Petrov P. P., Ivanov I. I.") (Some true);
                   header_line (u "University") None;
                   text_paragraph (u "Body text.")]
                  ++ text_paragraph (u "Література")
                  :: [text_paragraph (u "1. Petrov P. P. Book.")])
    by (vm_compute; reflexivity).
  assert (Hb : Forall (fun p => is_literature_heading simple_lower p = false)
                 [header_line (u "TITLE") None;
                  header_line (u "Petrov P. P., Ivanov I. I.") (Some true);
                  header_line (u "University") None;
                  text_paragraph (u "Body text.")])
    by (repeat constructor).
  destruct (@literature_position_and_items simple_lower ascii_digit default_rules
              good_document _ _ _ Hne Hb eq_refl) as (H1 & _ & H3).
  split; [exact H1 | exact H3].
Defined.

(** Without the requirement, a document without heading gets no finding. *)
Lemma literature_optional_witness :
  _check_literature simple_lower ascii_digit two_lines optional_literature = [].
Proof.
  destruct (literature_optional simple_lower ascii_digit optional_literature two_lines)
    as (_ & H & _).
  apply H; [reflexivity|].
  intros p Hp. vm_compute in Hp.
  repeat (destruct Hp as [<-|Hp]; [vm_compute; reflexivity|]).
  destruct Hp.
Defined.

(** A paragraph that ends in a number but has no marker is no caption. *)
Lemma captions_only_witness :
  caption_issues ascii_digit (caption_paragraph (u "Body 12") 10) = [].
Proof.
  destruct (captions_only_for_captions ascii_digit two_lines) as (_ & _ & H).
  apply H; intros (ws & ds & rest & E & _); vm_compute in E; discriminate.
Defined.

(** A document of two short lines is too short. *)
Lemma length_never_grows_witness :
  _check_length_heuristic two_lines
  = [length_too_short_finding (text_chars two_lines)].
Proof.
  destruct (length_never_grows two_lines) as (_ & H & _).
  apply H. vm_compute. reflexivity.
Defined.

(** A new document. *)
Lemma blank_document_witness :
  run_report (validate_thesis_docx simple_lower simple_upper ascii_digit
                blank_document None [])
  = (false,
     _check_page_setup blank_document default_rules
     ++ [header_too_short_finding; length_too_short_finding 0]).
Proof.
  pose proof (blank_document_report simple_lower simple_upper ascii_digit
                blank_document None []) as H.
  destruct (run_report _) as [b l].
  destruct H as [-> ->]; [|reflexivity].
  intros p [<-|[]]. vm_compute. reflexivity.
Defined.

(** The passing document passes, and has what a passing document must. *)
Lemma passing_document_witness :
  ok (fst (validate_thesis_docx simple_lower simple_upper ascii_digit
             good_document None [])) = true
  /\ (3 <= length (nonempty_paragraphs good_document))%nat
  /\ Forall (section_clean default_rules) (sections good_document).
Proof.
  assert (Hok : ok (fst (validate_thesis_docx simple_lower simple_upper ascii_digit
                           good_document None [])) = true)
    by (vm_compute; reflexivity).
  split; [exact Hok|].
  destruct (passing_document simple_lower simple_upper ascii_digit
              good_document None [] Hok) as (H1 & _ & H3 & _).
  split; [exact H1 | exact H3].
Defined.

(* ------------------------------------------------------------------ *)
(** ** The initials pattern, and blank paragraphs *)

Section Initials.

Variable str_upper : pystr -> pystr.
Variable rules : ThesisStyleRules.

(** [re_search r s] holds exactly when some part of [s] is in the language
    of [r]. *)
Lemma re_search_iff r s :
  re_search r s = true
  <-> exists pre x post, s = pre ++ x ++ post /\ matches r x.
Proof.
  induction s as [|c s IH]; cbn [re_search].
  - rewrite orb_false_r, re_match_iff. split.
    + intros (x & y & E & Hm). now exists [], x, y.
    + intros (pre & x & post & E & Hm).
      symmetry in E. apply app_eq_nil in E. destruct E as [_ E].
      apply app_eq_nil in E. destruct E as [-> _].
      now exists [], [].
  - rewrite orb_true_iff, IH, re_match_iff. split.
    + intros [(x & y & E & Hm) | (pre & x & post & -> & Hm)].
      * exists [], x, y. split; [exact E | exact Hm].
      * exists (c :: pre), x, post. split; [reflexivity | exact Hm].
    + intros (pre & x & post & E & Hm). destruct pre as [|d pre].
      * left. exists x, post. split; [exact E | exact Hm].
      * right. simpl in E. injection E as <- ->. now exists pre, x, post.
Qed.

Lemma matches_cls f x : matches (Cls f) x <-> exists c, x = [c] /\ f c = true.
Proof.
  split.
  - inversion 1; subst. now exists c.
  - intros (c & -> & H). now constructor.
Qed.

Lemma matches_cat r s x :
  matches (Cat r s) x <-> exists y z, x = y ++ z /\ matches r y /\ matches s z.
Proof.
  split.
  - inversion 1 as [ | | ? ? y z Hy Hz | | | | ]; subst. now exists y, z.
  - intros (y & z & -> & Hy & Hz). now constructor.
Qed.

Lemma matches_initials x : matches INITIALS_RE x <-> initials_text x.
Proof.
  unfold INITIALS_RE, initials_text, chr.
  rewrite matches_cat. split.
  - intros (sn & r1 & -> & Hsn & H).
    apply matches_cat in H. destruct H as (ws & r2 & -> & Hws & H).
    apply matches_cat in H. destruct H as (a1 & r3 & -> & Ha1 & H).
    apply matches_cat in H. destruct H as (d1 & r4 & -> & Hd1 & H).
    apply matches_cat in H. destruct H as (ws2 & r5 & -> & Hws2 & H).
    apply matches_cat in H. destruct H as (a2 & d2 & -> & Ha2 & Hd2).
    apply matches_plus_cls in Hsn, Hws. apply matches_star_cls in Hws2.
    apply matches_cls in Ha1, Hd1, Ha2, Hd2.
    destruct Ha1 as (i1 & -> & Hi1). destruct Hd1 as (c1 & -> & Hc1).
    destruct Ha2 as (i2 & -> & Hi2). destruct Hd2 as (c2 & -> & Hc2).
    apply N.eqb_eq in Hc1, Hc2. subst c1 c2.
    exists sn, ws, i1, ws2, i2. split; [reflexivity | tauto].
  - intros (sn & ws & i1 & ws2 & i2 & -> & Hsn & Hsn' & Hws & Hws' & Hi1 & Hws2 & Hi2).
    exists sn, (ws ++ i1 :: 46%N :: ws2 ++ [i2; 46%N]).
    split; [reflexivity|]. split; [now apply matches_plus_cls|].
    apply matches_cat. exists ws, (i1 :: 46%N :: ws2 ++ [i2; 46%N]).
    split; [reflexivity|]. split; [now apply matches_plus_cls|].
    apply matches_cat. exists [i1], (46%N :: ws2 ++ [i2; 46%N]).
    split; [reflexivity|]. split; [now constructor|].
    apply matches_cat. exists [46%N], (ws2 ++ [i2; 46%N]).
    split; [reflexivity|]. split; [constructor; apply N.eqb_refl|].
    apply matches_cat. exists ws2, [i2; 46%N].
    split; [reflexivity|]. split; [now apply matches_star_cls|].
    apply matches_cat. exists [i2], [46%N].
    split; [reflexivity|]. split; constructor; [exact Hi2 | apply N.eqb_refl].
Qed.

(** X21 (_check_header_structure): with at least three non-empty paragraphs,
    AUTHORS_INITIALS_PATTERN is emitted exactly when no part of the authors
    line reads: letters of a surname (Latin, Cyrillic, apostrophe, hyphen),
    whitespace, a capital and a dot, optional whitespace, a capital and a
    dot.  Initials written before the surname do not count. *)
Theorem authors_initials_pattern doc t a o rest :
  nonempty_paragraphs doc = t :: a :: o :: rest ->
  emitted "AUTHORS_INITIALS_PATTERN" (_check_header_structure str_upper doc rules) = true
  <-> ~ exists pre x post,
          Paragraph.text a = pre ++ x ++ post /\ initials_text x.
Proof.
  intros Hne.
  destruct (header_emitted str_upper rules doc Hne) as (_ & _ & _ & _ & _ & _ & E).
  rewrite E, negb_true_iff. split.
  - intros H (pre & x & post & Ht & Hx).
    assert (re_search INITIALS_RE (Paragraph.text a) = true).
    { apply re_search_iff. exists pre, x, post. split; [exact Ht|].
      now apply matches_initials. }
    congruence.
  - intros H. destruct (re_search INITIALS_RE (Paragraph.text a)) eqn:Es; [|reflexivity].
    exfalso. apply H. apply re_search_iff in Es.
    destruct Es as (pre & x & post & Ht & Hx).
    exists pre, x, post. split; [exact Ht|]. now apply matches_initials.
Qed.

End Initials.

Section BlankParagraph.

Variable str_lower : pystr -> pystr.
Variable str_upper : pystr -> pystr.
Variable is_decimal : N -> bool.
Variable rules : ThesisStyleRules.

Lemma nonempty_insert_blank (pre post : list Paragraph.t) b :
  nonblank (Paragraph.text b) = false ->
  filter (fun p => nonblank (Paragraph.text p)) (pre ++ b :: post)
  = filter (fun p => nonblank (Paragraph.text p)) (pre ++ post).
Proof.
  intros Hb. rewrite !filter_app. simpl. now rewrite Hb.
Qed.

(** X22 (the header, body, literature and caption checks): a blank paragraph
    is invisible to them.  Two documents that differ by one blank paragraph,
    wherever it stands, get the same findings from these four checks (the
    formatting and the runs of the blank paragraph are never looked at). *)
Theorem blank_paragraph_invisible ss pre post b :
  nonblank (Paragraph.text b) = false ->
  let doc := {| sections := ss; paragraphs := pre ++ post |} in
  let doc' := {| sections := ss; paragraphs := pre ++ b :: post |} in
  _check_header_structure str_upper doc' rules = _check_header_structure str_upper doc rules
  /\ _check_body_paragraphs str_lower doc' rules = _check_body_paragraphs str_lower doc rules
  /\ _check_literature str_lower is_decimal doc' rules
     = _check_literature str_lower is_decimal doc rules
  /\ _check_captions is_decimal doc' = _check_captions is_decimal doc.
Proof.
  intros Hb doc doc'.
  assert (Hne : nonempty_paragraphs doc' = nonempty_paragraphs doc)
    by (unfold nonempty_paragraphs; cbn [paragraphs]; now apply nonempty_insert_blank).
  split; [unfold _check_header_structure; now rewrite Hne|].
  split; [unfold _check_body_paragraphs, body_sample; now rewrite Hne|].
  split; [unfold _check_literature; now rewrite Hne|].
  assert (Hcb : caption_issues is_decimal b = []).
  { unfold caption_issues. cbv zeta.
    change (truthy (strip (Paragraph.text b))) with (nonblank (Paragraph.text b)).
    now rewrite Hb. }
  subst doc doc'. unfold _check_captions. cbn [paragraphs].
  rewrite !flat_map_app. cbn [flat_map]. now rewrite Hcb.
Qed.

End BlankParagraph.

(** Initials after the surname are found, initials before it are not. *)
Lemma authors_initials_witness :
  emitted "AUTHORS_INITIALS_PATTERN"
    (_check_header_structure simple_upper (indent_document 800) default_rules) = true
  <-> ~ exists pre x post, u "Petrov P. P." = pre ++ x ++ post /\ initials_text x.
Proof.
  apply (@authors_initials_pattern simple_upper default_rules (indent_document 800)
           (text_paragraph (u "TITLE")) (text_paragraph (u "Petrov P. P."))
           (text_paragraph (u "University")) [indented_paragraph 800]).
  vm_compute. reflexivity.
Defined.

(** An empty line between title and authors. *)
Lemma blank_paragraph_witness :
  _check_header_structure simple_upper
    {| sections := [];
       paragraphs := [text_paragraph (u "TITLE")]
                     ++ text_paragraph [] :: [text_paragraph (u "Petrov P. P.")] |}
    default_rules
  = _check_header_structure simple_upper
      {| sections := [];
         paragraphs := [text_paragraph (u "TITLE")]
                       ++ [text_paragraph (u "Petrov P. P.")] |}
      default_rules.
Proof.
  pose proof (@blank_paragraph_invisible simple_lower simple_upper ascii_digit
                default_rules [] [text_paragraph (u "TITLE")]
                [text_paragraph (u "Petrov P. P.")] (text_paragraph []) eq_refl) as H.
  cbv zeta in H. destruct H as (H & _). exact H.
Defined.
